(** * The authentication service of [backend/server.js]

    A shallow embedding of the Express server: start-up, the validation
    routine [validateAuthPayload], and the two handlers [POST /register] and
    [POST /login] over the in-memory [users] array.

    Strings.  A JavaScript string is a sequence of UTF-16 code units; it is
    embedded as a list of code units ([N]).  [length], [trim] and the regular
    expression class [\s] are those of ECMAScript on every code unit.
    [String.prototype.toLowerCase] is the engine's: what it returns depends
    on the case tables of the Unicode version the engine was built with,
    which are not part of the source.  It is a parameter of the handlers,
    like the libraries; what a proof needs of it is a hypothesis of the
    theorem.

    External collaborators.  [bcrypt.hash], [bcrypt.compare] and [jwt.sign]
    are parameters of the handlers; each may throw (reject), which the
    handlers' [try]/[catch] turns into a 500 response.  What a signed token
    asserts is not in the source; module [Token] models it from the
    specification, for the one property that is about it.

    Requests.  A handler runs without interruption except at its [await]s.
    [register] and [login] are the handlers served in full; [register_check]
    and [register_store] are the two halves of [POST /register] around its
    [await bcrypt.hash]. *)

From Stdlib Require Import NArith ZArith String Ascii List Bool Lia.
From stdpp Require Import base tactics option list gmap strings.

Local Open Scope N_scope.

(** ** JavaScript strings *)

Abbreviation jsstring := (list N).

(** A string literal of the source (all of them are ASCII). *)
Definition lit (s : string) : jsstring :=
  map N_of_ascii (list_ascii_of_string s).

Module JsString.

(** ECMAScript [WhiteSpace] and [LineTerminator] code units: what [trim]
    strips and what [\s] matches. *)
Definition isWhiteSpace (c : N) : bool :=
  ((9 <=? c) && (c <=? 13))        (* TAB LF VT FF CR *)
  || (c =? 32)                     (* SPACE *)
  || (c =? 160)                    (* U+00A0 *)
  || (c =? 5760)                   (* U+1680 *)
  || ((8192 <=? c) && (c <=? 8202)) (* U+2000 .. U+200A *)
  || (c =? 8232) || (c =? 8233)    (* U+2028 U+2029 *)
  || (c =? 8239)                   (* U+202F *)
  || (c =? 8287)                   (* U+205F *)
  || (c =? 12288)                  (* U+3000 *)
  || (c =? 65279).                 (* U+FEFF *)

Fixpoint trimStart (s : jsstring) : jsstring :=
  match s with
  | [] => []
  | c :: s' => if isWhiteSpace c then trimStart s' else s
  end.

Fixpoint trimEnd (s : jsstring) : jsstring :=
  match s with
  | [] => []
  | c :: s' =>
      match trimEnd s' with
      | [] => if isWhiteSpace c then [] else [c]
      | t => c :: t
      end
  end.

Definition trim (s : jsstring) : jsstring := trimEnd (trimStart s).

End JsString.

(** ** Regular expressions

    Patterns are matched with Brzozowski derivatives.  Only patterns anchored
    at both ends ([^...$], no flags) are used, for which [RegExp.test] is a
    match of the whole string. *)

Module Regex.

Inductive t : Type :=
| Void                       (* matches nothing *)
| Eps                        (* the empty string *)
| Class (p : N -> bool)      (* one code unit of a class *)
| Cat (r1 r2 : t)
| Alt (r1 r2 : t)
| Star (r : t).

(** [r+] *)
Definition Plus (r : t) : t := Cat r (Star r).

Fixpoint nullable (r : t) : bool :=
  match r with
  | Void => false
  | Eps => true
  | Class _ => false
  | Cat r1 r2 => nullable r1 && nullable r2
  | Alt r1 r2 => nullable r1 || nullable r2
  | Star _ => true
  end.

Fixpoint deriv (c : N) (r : t) : t :=
  match r with
  | Void => Void
  | Eps => Void
  | Class p => if p c then Eps else Void
  | Cat r1 r2 =>
      if nullable r1
      then Alt (Cat (deriv c r1) r2) (deriv c r2)
      else Cat (deriv c r1) r2
  | Alt r1 r2 => Alt (deriv c r1) (deriv c r2)
  | Star r1 => Cat (deriv c r1) (Star r1)
  end.

Fixpoint test (r : t) (s : jsstring) : bool :=
  match s with
  | [] => nullable r
  | c :: s' => test (deriv c r) s'
  end.

(** The relational meaning of a pattern. *)
Inductive Matches : t -> jsstring -> Prop :=
| MEps : Matches Eps []
| MClass p c : p c = true -> Matches (Class p) [c]
| MCat r1 r2 s1 s2 :
    Matches r1 s1 -> Matches r2 s2 -> Matches (Cat r1 r2) (s1 ++ s2)
| MAltL r1 r2 s : Matches r1 s -> Matches (Alt r1 r2) s
| MAltR r1 r2 s : Matches r2 s -> Matches (Alt r1 r2) s
| MStar0 r : Matches (Star r) []
| MStarS r s1 s2 :
    Matches r s1 -> Matches (Star r) s2 -> Matches (Star r) (s1 ++ s2).

End Regex.

(** [[^\s@]]: any code unit that is neither white space nor [@] (code 64). *)
Definition notSpaceAt (c : N) : bool :=
  negb (JsString.isWhiteSpace c || (c =? 64)).

(** [/^[^\s@]+@[^\s@]+\.[^\s@]+$/] *)
Definition emailRegex : Regex.t :=
  Regex.Cat (Regex.Plus (Regex.Class notSpaceAt))
    (Regex.Cat (Regex.Class (N.eqb 64))                       (* @ *)
       (Regex.Cat (Regex.Plus (Regex.Class notSpaceAt))
          (Regex.Cat (Regex.Class (N.eqb 46))                 (* \. *)
             (Regex.Plus (Regex.Class notSpaceAt))))).

(** ** JavaScript values and completions *)

(** The values a parsed JSON body can hold, and [undefined] for an absent
    property.  Numbers are kept as integers: the handlers only ask of a
    number whether it is falsy and what its [typeof] is. *)
#[warnings="-register-all"]
Inductive value : Type :=
| VUndefined
| VNull
| VBool (b : bool)
| VNumber (n : Z)
| VString (s : jsstring)
| VArray (elems : list value)
| VObject (props : list (string * value)).

Inductive exn : Type :=
| TypeError          (* raised by the handler's own code *)
| Rejected.          (* an external primitive threw or rejected *)

Inductive completion (A : Type) : Type :=
| Normal (a : A)
| Throw (e : exn).
Arguments Normal {A} a.
Arguments Throw {A} e.

Definition bind {A B : Type} (m : completion A) (f : A -> completion B)
  : completion B :=
  match m with
  | Normal a => f a
  | Throw e => Throw e
  end.

Notation "'let!' x ':=' m 'in' k" := (bind m (fun x => k))
  (at level 10, x name, m at level 100, k at level 200).

(** [!!v] *)
Definition truthy (v : value) : bool :=
  match v with
  | VUndefined | VNull => false
  | VBool b => b
  | VNumber n => negb (n =? 0)%Z
  | VString s => match s with [] => false | _ => true end
  | VArray _ | VObject _ => true
  end.

Definition typeof (v : value) : string :=
  match v with
  | VUndefined => "undefined"
  | VNull => "object"
  | VBool _ => "boolean"
  | VNumber _ => "number"
  | VString _ => "string"
  | VArray _ | VObject _ => "object"
  end.

(** [v.trim()]: only a string has the method; on [undefined] and [null] the
    property access throws, on any other JSON value [v.trim] is not a
    function. *)
Definition method_trim (v : value) : completion jsstring :=
  match v with
  | VString s => Normal (JsString.trim s)
  | _ => Throw TypeError
  end.

(** [body.key] as read by a destructuring pattern.  A parsed object has
    each property name once. *)
Fixpoint lookup_prop (key : string) (props : list (string * value)) : value :=
  match props with
  | [] => VUndefined
  | (k, v) :: rest => if String.eqb k key then v else lookup_prop key rest
  end.

Definition get_prop (obj : value) (key : string) : completion value :=
  match obj with
  | VUndefined | VNull => Throw TypeError
  | VObject props => Normal (lookup_prop key props)
  | _ => Normal VUndefined
  end.

(** ** The validation routine *)

(** [!v || typeof v !== "string" || !v.trim()], with the short-circuit
    evaluation of [||]. *)
Definition blankOrMissing (v : value) : completion bool :=
  if negb (truthy v) then Normal true
  else if negb (String.eqb (typeof v) "string") then Normal true
  else let! t := method_trim v in Normal (negb (truthy (VString t))).

Definition validateAuthPayload
    (email password username : value) (requireUsername : bool)
  : completion (list jsstring) :=
  let errors : list jsstring := [] in
  (* Email validation with length check *)
  let! errors :=
    (let! missing := blankOrMissing email in
     if missing then Normal (errors ++ [lit "Email is required."])
     else
       let! trimmedEmail := method_trim email in
       if (254 <? length trimmedEmail)%nat
       then Normal (errors ++ [lit "Email must be 254 characters or less."])
       else if negb (Regex.test emailRegex trimmedEmail)
            then Normal (errors ++ [lit "Email format is invalid."])
            else Normal errors) in
  (* Password validation with length checks *)
  let! errors :=
    (let! missing := blankOrMissing password in
     if missing then Normal (errors ++ [lit "Password is required."])
     else
       let! trimmedPassword := method_trim password in
       if (length trimmedPassword <? 8)%nat
       then Normal (errors ++ [lit "Password must be at least 8 characters long."])
       else if (128 <? length trimmedPassword)%nat
            then Normal (errors ++ [lit "Password must be 128 characters or less."])
            else Normal errors) in
  (* Username validation with length checks *)
  let! errors :=
    (if requireUsername then
       let! missing := blankOrMissing username in
       if missing then Normal (errors ++ [lit "Username is required."])
       else
         let! trimmedUsername := method_trim username in
         if (length trimmedUsername <? 3)%nat
         then Normal (errors ++ [lit "Username must be at least 3 characters long."])
         else if (30 <? length trimmedUsername)%nat
              then Normal (errors ++ [lit "Username must be 30 characters or less."])
              else Normal errors
     else Normal errors) in
  Normal errors.

(** ** The users array, responses and external collaborators *)

Module User.
(** An element of [users]. *)
Record t : Type := mk {
  id : Z;
  username : jsstring;
  email : jsstring;
  passwordHash : jsstring;
  createdAt : jsstring
}.
End User.

(** [res.status(status).json(json)] *)
Record response : Type := Response { status : Z; json : value }.

(** [{ success: false, message }] with a status: every failure but 400. *)
Definition failure (st : Z) (message : string) : response :=
  Response st (VObject [("success", VBool false);
                        ("message", VString (lit message))]%string).

Definition validationFailed (validationErrors : list jsstring) : response :=
  Response 400 (VObject [("success", VBool false);
                         ("message", VString (lit "Validation failed."));
                         ("errors", VArray (map VString validationErrors))]%string).

Definition duplicateBoth : response :=
  failure 409 "Both username and email are already taken.".
Definition duplicateEmail : response :=
  failure 409 "An account with this email already exists.".
Definition duplicateUsername : response :=
  failure 409 "This username is already taken.".
Definition invalidCredentials : response :=
  failure 401 "Invalid email or password.".
Definition unexpectedError : response :=
  failure 500 "An unexpected error occurred.".

Definition registered : response :=
  Response 201 (VObject [("success", VBool true);
                         ("message", VString (lit "User registered successfully."))]%string).

Definition loggedIn (token : jsstring) : response :=
  Response 200 (VObject [("success", VBool true);
                         ("message", VString (lit "Login successful."));
                         ("token", VString token)]%string).

(** What the handlers call and the source does not hold: the engine's
    lower-casing, and the libraries.  The libraries' results depend on what
    the request finds in its surroundings (a fresh salt, the clock), which
    each request brings along as its [ambient]. *)
Record externals : Type := Externals {
  toLowerCase : jsstring -> jsstring;
      (* String.prototype.toLowerCase *)
  bcrypt_hash : value -> Z -> jsstring -> completion jsstring;
      (* bcrypt.hash(data, rounds), with the salt it draws *)
  bcrypt_compare : value -> jsstring -> completion bool;
      (* bcrypt.compare(data, encrypted) *)
  jwt_sign : value -> jsstring -> value -> Z -> completion jsstring;
      (* jwt.sign(payload, secret, options), at a time *)
  toISOString : Z -> jsstring
      (* new Date().toISOString(), at a time *)
}.

Record ambient : Type := Ambient {
  salt : jsstring;   (* what bcrypt.hash draws for its salt *)
  now : Z            (* the clock, in milliseconds *)
}.

(** Lower-casing a lower-cased string changes nothing.  The lookups
    lower-case the stored email, which is itself the result of
    [toLowerCase] (lines 107, 112, 180); where a property needs the two to
    agree, this is its hypothesis. *)
Definition lowerCaseIdempotent (ext : externals) : Prop :=
  forall s : jsstring,
    toLowerCase ext (toLowerCase ext s) = toLowerCase ext s.

(** Lower-casing neither adds nor removes white space at the ends. *)
Definition lowerCaseKeepsTrim (ext : externals) : Prop :=
  forall s : jsstring,
    JsString.trim (toLowerCase ext s) = toLowerCase ext (JsString.trim s).

(** ** The handlers *)

(** [users.find((u) => u.email.toLowerCase() === normalizedEmail)] *)
Definition findByEmail (ext : externals) (users : list User.t) (normalizedEmail : jsstring)
  : option User.t :=
  find (fun u => bool_decide
                   (toLowerCase ext (User.email u) = normalizedEmail))
       users.

(** [users.find((u) => u.username.toLowerCase() === normalizedUsername.toLowerCase())] *)
Definition findByUsername (ext : externals) (users : list User.t) (normalizedUsername : jsstring)
  : option User.t :=
  find (fun u => bool_decide
                   (toLowerCase ext (User.username u)
                    = toLowerCase ext normalizedUsername))
       users.

(** Truthiness of what [find] returns: an element, or [undefined]. *)
Definition found {A : Type} (o : option A) : bool :=
  match o with
  | Some _ => true
  | None => false
  end.

(** What [POST /register] holds when it reaches [await bcrypt.hash]. *)
Record pending : Type := Pending {
  normalizedUsername : jsstring;
  normalizedEmail : jsstring;
  password : value
}.

(** [POST /register] up to [await bcrypt.hash(password, 10)]: either the
    response is sent, or the handler suspends. *)
Definition register_check (ext : externals) (users : list User.t) (reqBody : value)
  : completion (response + pending) :=
  let! username := get_prop reqBody "username" in
  let! email := get_prop reqBody "email" in
  let! password := get_prop reqBody "password" in
  let! validationErrors := validateAuthPayload email password username true in
  if (0 <? length validationErrors)%nat
  then Normal (inl (validationFailed validationErrors))
  else
    let! trimmedEmail := method_trim email in
    let normalizedEmail := toLowerCase ext trimmedEmail in
    let! normalizedUsername := method_trim username in
    (* Check for duplicate email and username separately *)
    let existingEmail := findByEmail ext users normalizedEmail in
    let existingUsername := findByUsername ext users normalizedUsername in
    if found existingEmail && found existingUsername
    then Normal (inl duplicateBoth)
    else if found existingEmail
    then Normal (inl duplicateEmail)
    else if found existingUsername
    then Normal (inl duplicateUsername)
    else Normal (inr (Pending normalizedUsername normalizedEmail password)).

(** [POST /register] from the resumption after [await]: the new user is
    built from the array as it is then, and pushed. *)
Definition register_store (ext : externals) (users : list User.t)
    (p : pending) (passwordHash : jsstring) (time : Z)
  : list User.t * response :=
  let newUser :=
    User.mk (Z.of_nat (length users) + 1)
            (normalizedUsername p)
            (normalizedEmail p)
            passwordHash
            (toISOString ext time) in
  (users ++ [newUser], registered).

(** [POST /register] when no other request runs between its check and its
    push.  An exception anywhere in the [try] block is answered with 500;
    none can be raised after the push. *)
Definition register (ext : externals) (users : list User.t)
    (reqBody : value) (w : ambient) : list User.t * response :=
  match register_check ext users reqBody with
  | Throw _ => (users, unexpectedError)
  | Normal (inl res) => (users, res)
  | Normal (inr p) =>
      match bcrypt_hash ext (password p) 10 (salt w) with
      | Throw _ => (users, unexpectedError)
      | Normal passwordHash => register_store ext users p passwordHash (now w)
      end
  end.

(** The body of the [try] block of [POST /login]. *)
Definition login_try (ext : externals) (JWT_SECRET : jsstring)
    (users : list User.t) (reqBody : value) (w : ambient)
  : completion response :=
  let! email := get_prop reqBody "email" in
  let! password := get_prop reqBody "password" in
  let! validationErrors := validateAuthPayload email password VUndefined false in
  if (0 <? length validationErrors)%nat
  then Normal (validationFailed validationErrors)
  else
    let! trimmedEmail := method_trim email in
    let normalizedEmail := toLowerCase ext trimmedEmail in
    match findByEmail ext users normalizedEmail with
    | None => Normal invalidCredentials
    | Some user =>
        let! passwordMatch := bcrypt_compare ext password (User.passwordHash user) in
        if negb passwordMatch
        then Normal invalidCredentials
        else
          let! token :=
            jwt_sign ext
              (VObject [("id", VNumber (User.id user));
                        ("username", VString (User.username user));
                        ("email", VString (User.email user))]%string)
              JWT_SECRET
              (VObject [("expiresIn", VString (lit "1h"))]%string)
              (now w) in
          Normal (loggedIn token)
    end.

Definition login (ext : externals) (JWT_SECRET : jsstring)
    (users : list User.t) (reqBody : value) (w : ambient) : response :=
  match login_try ext JWT_SECRET users reqBody w with
  | Normal res => res
  | Throw _ => unexpectedError
  end.

(** ** The process: start-up and request handling *)

(** What lines 10 to 19 leave behind: the process has exited, or the module
    goes on with its constants bound, registers its routes and calls
    [app.listen(PORT)] (line 231).  What the runtime does with [PORT] there
    is not modelled: the requests that [Listening] is served are at least
    those the process can receive. *)
Inductive startup_result : Type :=
| Exited (code : Z)
| Listening (PORT : value) (JWT_SECRET : jsstring).

(** [a || b] on values. *)
Definition js_or (a b : value) : value := if truthy a then a else b.

(** [process.env.NAME] *)
Definition env_get (env : gmap string jsstring) (name : string) : value :=
  match env !! name with
  | Some s => VString s
  | None => VUndefined
  end.

(** Lines 10 to 19, on [process.env] as [dotenv.config()] left it. *)
Definition startup (env : gmap string jsstring) : startup_result :=
  let PORT := js_or (env_get env "PORT") (VNumber 5000) in
  let JWT_SECRET := env_get env "JWT_SECRET" in
  (* Fail fast if the JWT secret is missing to avoid issuing weak tokens. *)
  if negb (truthy JWT_SECRET) then Exited 1
  else match JWT_SECRET with
       | VString secret => Listening PORT secret
       | _ => Exited 1   (* unreachable: an environment holds strings *)
       end.

Inductive request : Type :=
| PostRegister (reqBody : value)
| PostLogin (reqBody : value)
| GetRoot.

(** Health check / simple root endpoint *)
Definition root : response :=
  Response 200 (VObject [("message", VString (lit "Auth API is running."))]%string).

(** One request served from start to end. *)
Definition handle (ext : externals) (JWT_SECRET : jsstring)
    (users : list User.t) (rq : request * ambient)
  : list User.t * response :=
  match rq with
  | (PostRegister reqBody, w) => register ext users reqBody w
  | (PostLogin reqBody, w) => (users, login ext JWT_SECRET users reqBody w)
  | (GetRoot, _) => (users, root)
  end.

(** The users array after a sequence of requests, each served in full
    before the next. *)
Fixpoint run (ext : externals) (JWT_SECRET : jsstring)
    (users : list User.t) (rqs : list (request * ambient)) : list User.t :=
  match rqs with
  | [] => users
  | rq :: rest => run ext JWT_SECRET (fst (handle ext JWT_SECRET users rq)) rest
  end.

(** The life of the process: what it answers to a sequence of requests.
    A process that has exited answers nothing. *)
Fixpoint serve (ext : externals) (JWT_SECRET : jsstring)
    (users : list User.t) (rqs : list (request * ambient)) : list response :=
  match rqs with
  | [] => []
  | rq :: rest =>
      let '(users', res) := handle ext JWT_SECRET users rq in
      res :: serve ext JWT_SECRET users' rest
  end.

Definition main (ext : externals) (env : gmap string jsstring)
    (rqs : list (request * ambient)) : startup_result * list response :=
  match startup env with
  | Exited code => (Exited code, [])
  | Listening PORT JWT_SECRET =>
      (Listening PORT JWT_SECRET, serve ext JWT_SECRET [] rqs)
  end.

(** ** The token primitive *)

(** Modelled from the spec: the token primitive, [jwt.sign] and [jwt.verify]
    of the jsonwebtoken library, which is not part of the source (the
    source only calls [jwt.sign]).  In the specification's words a signed
    token is "a tamper-evident, time-limited credential artifact asserting
    identity claims, verifiable by any holder of the signing secret", with
    "a fixed expiry of one hour from issuance": a token asserts the payload
    it was signed for, to whoever holds the secret it was signed with, from
    its issuance until its expiry.  How the library writes a token as a
    string is left open ([show] below). *)
Module Token.

Record t : Type := mk {
  claims : value;
  signedWith : jsstring;
  issuedAt : Z;       (* milliseconds *)
  expiresAt : Z
}.

(** The lifetime an [expiresIn] option stands for, in milliseconds. *)
Definition lifetime (options : value) : option Z :=
  match options with
  | VObject props =>
      match lookup_prop "expiresIn" props with
      | VString s => if bool_decide (s = lit "1h") then Some 3600000%Z else None
      | _ => None
      end
  | _ => None
  end.

Definition sign (payload : value) (secret : jsstring) (options : value)
    (time : Z) : completion t :=
  match lifetime options with
  | Some d => Normal (mk payload secret time (time + d))
  | None => Throw Rejected
  end.

Definition verify (token : t) (secret : jsstring) (time : Z) : option value :=
  if bool_decide (signedWith token = secret) && (time <? expiresAt token)%Z
  then Some (claims token)
  else None.

End Token.

(** The collaborators with [jwt.sign] taken from the token primitive. *)
Definition withToken (show : Token.t -> jsstring) (ext : externals)
  : externals :=
  Externals (toLowerCase ext) (bcrypt_hash ext) (bcrypt_compare ext)
    (fun payload secret options time =>
       match Token.sign payload secret options time with
       | Normal token => Normal (show token)
       | Throw e => Throw e
       end)
    (toISOString ext).

(** ** Vocabulary of the properties *)

(** A field value that is absent, is not a string, or is blank once
    trimmed. *)
Definition missing (v : value) : bool :=
  match v with
  | VString s => match JsString.trim s with [] => true | _ => false end
  | _ => true
  end.

(** Messages are told apart by the field name they start with. *)
Definition mentions (field : string) (message : jsstring) : bool :=
  bool_decide (take (length (lit field)) message = lit field).

Definition messagesAbout (field : string) (errors : list jsstring)
  : list jsstring :=
  List.filter (mentions field) errors.

Inductive field : Type := Email | Password | Username.

Definition fieldName (f : field) : string :=
  match f with
  | Email => "Email"
  | Password => "Password"
  | Username => "Username"
  end.

(** The property of the request body a field is read from. *)
Definition fieldKey (f : field) : string :=
  match f with
  | Email => "email"
  | Password => "password"
  | Username => "username"
  end.

Definition fieldValue (f : field) (email password username : value) : value :=
  match f with
  | Email => email
  | Password => password
  | Username => username
  end.

(** Which fields the routine looks at. *)
Definition checked (f : field) (requireUsername : bool) : bool :=
  match f with
  | Username => requireUsername
  | _ => true
  end.

Definition requiredMessage (f : field) : jsstring :=
  lit (fieldName f ++ " is required.").

(** The keys on which accounts are compared. *)
Definition normalizedEmailOf (ext : externals) (u : User.t) : jsstring :=
  toLowerCase ext (JsString.trim (User.email u)).
Definition normalizedUsernameOf (ext : externals) (u : User.t) : jsstring :=
  toLowerCase ext (JsString.trim (User.username u)).

(** No two accounts share a normalized email, and no two share a username
    up to case. *)
Definition uniqueAccounts (ext : externals) (users : list User.t) : Prop :=
  NoDup (map (normalizedEmailOf ext) users)
  /\ NoDup (map (normalizedUsernameOf ext) users).

(** Accounts are stored in normal form: the email trimmed and lower-cased,
    the username trimmed. *)
Definition storedNormalized (ext : externals) (users : list User.t) : Prop :=
  Forall (fun u =>
            toLowerCase ext (JsString.trim (User.email u)) = User.email u
            /\ JsString.trim (User.username u) = User.username u)
         users.

(** ** The routine, block by block

    What each of the three blocks of [validateAuthPayload] adds to
    [errors], as a function of the field alone; [ValidationFacts] shows that
    the routine returns their concatenation. *)

Module ValidationBlocks.
Import JsString.

(** What a block of the routine adds to [errors], from its three
    messages and two tests. *)
Definition blockErrors (required first second : jsstring)
    (c1 c2 : jsstring -> bool) (v : value) : list jsstring :=
  match v with
  | VString s =>
      match trim s with
      | [] => [required]
      | t => if c1 t then [first] else if c2 t then [second] else []
      end
  | _ => [required]
  end.

Definition emailErrors : value -> list jsstring :=
  blockErrors (lit "Email is required.")
    (lit "Email must be 254 characters or less.")
    (lit "Email format is invalid.")
    (fun t => (254 <? length t)%nat)
    (fun t => negb (Regex.test emailRegex t)).

Definition passwordErrors : value -> list jsstring :=
  blockErrors (lit "Password is required.")
    (lit "Password must be at least 8 characters long.")
    (lit "Password must be 128 characters or less.")
    (fun t => (length t <? 8)%nat)
    (fun t => (128 <? length t)%nat).

Definition usernameErrors : value -> list jsstring :=
  blockErrors (lit "Username is required.")
    (lit "Username must be at least 3 characters long.")
    (lit "Username must be 30 characters or less.")
    (fun t => (length t <? 3)%nat)
    (fun t => (30 <? length t)%nat).

Definition fieldErrors (f : field) : value -> list jsstring :=
  match f with
  | Email => emailErrors
  | Password => passwordErrors
  | Username => usernameErrors
  end.

End ValidationBlocks.

(** ** Test doubles for the external collaborators *)

Module TestDouble.

(** A lower-casing that knows the letters of Basic Latin and Latin-1 and
    U+0130, whose lower-case form is U+0069 U+0307; on strings made of code
    units below U+0100 and of U+0130 it is what [toLowerCase] returns. *)
Definition lowerUnit (c : N) : jsstring :=
  if ((65 <=? c) && (c <=? 90))          (* A .. Z *)
     || ((192 <=? c) && (c <=? 214))     (* U+00C0 .. U+00D6 *)
     || ((216 <=? c) && (c <=? 222))     (* U+00D8 .. U+00DE *)
  then [c + 32]
  else if c =? 304 then [105; 775]       (* U+0130 -> U+0069 U+0307 *)
  else [c].

Fixpoint lowerCase (s : jsstring) : jsstring :=
  match s with
  | [] => []
  | c :: s' => lowerUnit c ++ lowerCase s'
  end.

(** A salted "hash" that keeps the data readable: [salt $ data]. *)
Definition hash (data : value) (rounds : Z) (salt : jsstring)
  : completion jsstring :=
  match data with
  | VString s => Normal (salt ++ 36 :: s)
  | _ => Throw Rejected
  end.

Definition compare (data : value) (encrypted : jsstring) : completion bool :=
  match data with
  | VString s =>
      Normal (bool_decide
                (drop (length encrypted - S (length s)) encrypted = 36 :: s))
  | _ => Throw Rejected
  end.

(** A "token" that shows the user name of the payload. *)
Definition sign (payload : value) (secret : jsstring) (options : value)
    (time : Z) : completion jsstring :=
  Normal (lit "token-for-"
          ++ match payload with
             | VObject props =>
                 match lookup_prop "username" props with
                 | VString s => s
                 | _ => []
                 end
             | _ => []
             end).

Definition ext : externals :=
  Externals lowerCase hash compare sign
    (fun _ => lit "2024-01-01T00:00:00.000Z").

Definition secret : jsstring := lit "s3cret".
Definition w : ambient := Ambient (lit "salt") 0.

Definition body3 (username email password : string) : value :=
  VObject [("username", VString (lit username));
           ("email", VString (lit email));
           ("password", VString (lit password))]%string.
Definition body2 (email password : string) : value :=
  VObject [("email", VString (lit email));
           ("password", VString (lit password))]%string.

Definition alice : User.t :=
  User.mk 1 (lit "alice") (lit "a@b.com") (lit "salt$password123") (lit "t1").
Definition bob : User.t :=
  User.mk 2 (lit "bob") (lit "bob@b.com") (lit "salt$hunter2hunter2") (lit "t2").
Definition twoUsers : list User.t := [alice; bob].

End TestDouble.

Module LongEmail.
(** An address of 254 code units that starts with U+0130, and its
    lower-case form, of 255. *)
Definition registeredEmail : jsstring := 304 :: repeat 97 249 ++ lit "@b.c".
Definition loginEmail : jsstring := 105 :: 775 :: repeat 97 249 ++ lit "@b.c".

Definition registerBody : value :=
  VObject [("username", VString (lit "alice"));
           ("email", VString registeredEmail);
           ("password", VString (lit "password123"))]%string.
Definition loginBody (email : jsstring) : value :=
  VObject [("email", VString email);
           ("password", VString (lit "password123"))]%string.

Definition account : User.t :=
  User.mk 1 (lit "alice") loginEmail (lit "salt$password123")
          (lit "2024-01-01T00:00:00.000Z").
End LongEmail.

(** ** Requests that overlap

    Node runs a handler until it reaches an [await] and resumes it when the
    awaited promise settles; other handlers run in between.  [POST
    /register] reads the array before [await bcrypt.hash] and pushes after
    it.  [POST /login] reads the array once, before its [await], and
    afterwards only uses the account it found, whose fields are never
    written again; it is kept in one piece. *)

Record server : Type := Server {
  stored : list User.t;         (* the users array *)
  suspended : list pending      (* registrations waiting for bcrypt.hash *)
}.

Inductive tick : Type :=
| Arrives (rq : request) (w : ambient)
    (* a request arrives: its handler runs to its response or its await *)
| Settles (i : nat) (w : ambient).
    (* bcrypt.hash settles for the i-th waiting registration *)

Definition tickStep (ext : externals) (JWT_SECRET : jsstring)
    (s : server) (t : tick) : server * option response :=
  match t with
  | Arrives (PostRegister reqBody) _ =>
      match register_check ext (stored s) reqBody with
      | Throw _ => (s, Some unexpectedError)
      | Normal (inl res) => (s, Some res)
      | Normal (inr p) => (Server (stored s) (suspended s ++ [p]), None)
      end
  | Arrives (PostLogin reqBody) w =>
      (s, Some (login ext JWT_SECRET (stored s) reqBody w))
  | Arrives GetRoot _ => (s, Some root)
  | Settles i w =>
      match suspended s !! i with
      | None => (s, None)
      | Some p =>
          let waiting := delete i (suspended s) in
          match bcrypt_hash ext (password p) 10 (salt w) with
          | Throw _ => (Server (stored s) waiting, Some unexpectedError)
          | Normal passwordHash =>
              let '(users, res) :=
                register_store ext (stored s) p passwordHash (now w) in
              (Server users waiting, Some res)
          end
      end
  end.

Fixpoint runTicks (ext : externals) (JWT_SECRET : jsstring)
    (s : server) (ts : list tick) : server :=
  match ts with
  | [] => s
  | t :: rest => runTicks ext JWT_SECRET (fst (tickStep ext JWT_SECRET s t)) rest
  end.

(** [v] with its surrounding white space removed, when it is a string. *)
Definition trimmed (v : value) : value :=
  match v with
  | VString s => VString (JsString.trim s)
  | _ => v
  end.

(** [body.key] for a body that is neither [undefined] nor [null]. *)
Definition propOf (body : value) (key : string) : value :=
  match body with
  | VObject props => lookup_prop key props
  | _ => VUndefined
  end.

(** The payload [POST /login] signs for an account. *)
Definition loginPayload (user : User.t) : value :=
  VObject [("id", VNumber (User.id user));
           ("username", VString (User.username user));
           ("email", VString (User.email user))]%string.

(** The shape of the username and email of a stored account: the username
    is trimmed and has 3 to 30 code units; the email is the lower-case form
    of a trimmed address of 1 to 254 code units that matches the pattern. *)
Definition wellFormed (ext : externals) (username email : jsstring) : Prop :=
  JsString.trim username = username
  /\ (3 <= length username <= 30)%nat
  /\ exists address : jsstring,
       email = toLowerCase ext address
       /\ JsString.trim address = address
       /\ (1 <= length address <= 254)%nat
       /\ Regex.test emailRegex address = true.

(** ** The page ([frontend/app.js])

    The part of the document the script reads and writes, as a record; the
    submit handlers are split at their [await fetch].  What the HTML fixes
    (the default values a form is reset to) and the string form of values
    that are not strings are parameters.  The handlers behind the
    password toggles and the clipboard button are not modelled. *)

Module Page.

Inductive input : Type :=
| LoginEmail | LoginPassword
| RegisterUsername | RegisterEmail | RegisterPassword | RegisterPasswordConfirm.

#[global] Instance input_eq_dec : EqDecision input.
Proof. solve_decision. Defined.

(** A submit button: [.disabled], the class [loading], [.textContent]. *)
Record button : Type := Button {
  disabled : bool;
  loading : bool;
  label : jsstring
}.

Record t : Type := mk {
  tabLoginActive : bool;          (* class "active" of #tab-login *)
  tabRegisterActive : bool;
  loginFormActive : bool;
  registerFormActive : bool;
  messagesHidden : bool;          (* class "hidden" of #messages *)
  messages : list (string * value);
      (* the children of #messages: the type in "message <type>" and the
         value assigned to textContent *)
  tokenHidden : bool;             (* class "hidden" of #token-container *)
  tokenText : value;              (* the value assigned to #token-output *)
  fieldValue : input -> jsstring; (* .value *)
  invalid : input -> bool;        (* class "invalid" *)
  loginSubmitBtn : button;
  registerSubmitBtn : button;
  focusTimers : list input        (* inputs that a timer will focus *)
}.

Record browser : Type := Browser {
  defaultValue : input -> jsstring;   (* what form.reset() restores *)
  toString : value -> jsstring        (* String(v) for a v that is no string *)
}.

Definition set_messages (hidden : bool) (children : list (string * value))
    (pg : t) : t :=
  mk (tabLoginActive pg) (tabRegisterActive pg) (loginFormActive pg)
     (registerFormActive pg) hidden children (tokenHidden pg) (tokenText pg)
     (fieldValue pg) (invalid pg) (loginSubmitBtn pg) (registerSubmitBtn pg)
     (focusTimers pg).

Definition set_token (hidden : bool) (text : value) (pg : t) : t :=
  mk (tabLoginActive pg) (tabRegisterActive pg) (loginFormActive pg)
     (registerFormActive pg) (messagesHidden pg) (messages pg) hidden text
     (fieldValue pg) (invalid pg) (loginSubmitBtn pg) (registerSubmitBtn pg)
     (focusTimers pg).

Definition set_fieldValue (values : input -> jsstring) (pg : t) : t :=
  mk (tabLoginActive pg) (tabRegisterActive pg) (loginFormActive pg)
     (registerFormActive pg) (messagesHidden pg) (messages pg) (tokenHidden pg)
     (tokenText pg) values (invalid pg) (loginSubmitBtn pg)
     (registerSubmitBtn pg) (focusTimers pg).

Definition set_loginSubmitBtn (b : button) (pg : t) : t :=
  mk (tabLoginActive pg) (tabRegisterActive pg) (loginFormActive pg)
     (registerFormActive pg) (messagesHidden pg) (messages pg) (tokenHidden pg)
     (tokenText pg) (fieldValue pg) (invalid pg) b (registerSubmitBtn pg)
     (focusTimers pg).

Definition set_registerSubmitBtn (b : button) (pg : t) : t :=
  mk (tabLoginActive pg) (tabRegisterActive pg) (loginFormActive pg)
     (registerFormActive pg) (messagesHidden pg) (messages pg) (tokenHidden pg)
     (tokenText pg) (fieldValue pg) (invalid pg) (loginSubmitBtn pg) b
     (focusTimers pg).

(** [function showMessage(type, text)]: the children of #messages are
    replaced by the one new message. *)
Definition showMessage (type : string) (text : value) (pg : t) : t :=
  set_messages false [(type, text)] pg.

(** [function clearMessages()] *)
Definition clearMessages (pg : t) : t := set_messages true [] pg.

(** [function switchTab(target)] *)
Definition switchTab (target : string) (pg : t) : t :=
  let isLogin := String.eqb target "login" in
  let pg := clearMessages pg in
  mk isLogin (negb isLogin) isLogin (negb isLogin)
     (messagesHidden pg) (messages pg) (tokenHidden pg) (tokenText pg)
     (fieldValue pg) (invalid pg) (loginSubmitBtn pg) (registerSubmitBtn pg)
     (* Auto-focus first input when switching tabs *)
     (focusTimers pg ++ [if isLogin then LoginEmail else RegisterUsername]).

(** [function validateEmail(email)], on the strings it is called with. *)
Definition validateEmail (email : jsstring) : bool :=
  Regex.test emailRegex email.

(** [function validatePassword(password)] *)
Definition validatePassword (password : value) : bool :=
  String.eqb (typeof password) "string"
  && match password with
     | VString s => (8 <=? length s)%nat
     | _ => false
     end.

(** [function setFieldValidation(inputElement, isValid)] *)
Definition setFieldValidation (i : input) (isValid : bool) (pg : t) : t :=
  mk (tabLoginActive pg) (tabRegisterActive pg) (loginFormActive pg)
     (registerFormActive pg) (messagesHidden pg) (messages pg) (tokenHidden pg)
     (tokenText pg) (fieldValue pg)
     (fun j => if decide (j = i) then negb isValid else invalid pg j)
     (loginSubmitBtn pg) (registerSubmitBtn pg) (focusTimers pg).

(** [form.reset()] on the inputs of a form. *)
Definition reset (b : browser) (inputs : list input) (pg : t) : t :=
  set_fieldValue
    (fun j => if decide (j ∈ inputs) then defaultValue b j else fieldValue pg j)
    pg.

(** The click handler of the logout button. *)
Definition logoutClick (b : browser) (pg : t) : t :=
  (* Clear the token, hide the token container *)
  let pg := set_token true (VString []) pg in
  (* Clear any messages *)
  let pg := clearMessages pg in
  (* Reset login form *)
  let pg := reset b [LoginEmail; LoginPassword] pg in
  (* Show success message *)
  let pg := showMessage "success"
              (VString (lit "You have been logged out successfully.")) pg in
  (* Switch to login tab *)
  switchTab "login" pg.

(** [if (cond) setFieldValidation(i, false)] *)
Definition flagIf (cond : bool) (i : input) (pg : t) : t :=
  if cond then setFieldValidation i false pg else pg.

Definition isEmpty (s : jsstring) : bool := negb (truthy (VString s)).

(** The submit handler of the registration form, up to its [await fetch]:
    the page it leaves, and the body it sends if it sends one. *)
Definition registerSubmit_check (pg : t) : t * option value :=
  let pg := clearMessages pg in
  let username := JsString.trim (fieldValue pg RegisterUsername) in
  let email := JsString.trim (fieldValue pg RegisterEmail) in
  let password := fieldValue pg RegisterPassword in
  let passwordConfirm := fieldValue pg RegisterPasswordConfirm in
  (* Clear previous validation states *)
  let pg := setFieldValidation RegisterUsername true pg in
  let pg := setFieldValidation RegisterEmail true pg in
  let pg := setFieldValidation RegisterPassword true pg in
  let pg := setFieldValidation RegisterPasswordConfirm true pg in
  let hasErrors := false in
  if isEmpty username || isEmpty email || isEmpty password
     || isEmpty passwordConfirm
  then
    let pg := showMessage "error" (VString (lit "All fields are required.")) pg in
    let pg := flagIf (isEmpty username) RegisterUsername pg in
    let pg := flagIf (isEmpty email) RegisterEmail pg in
    let pg := flagIf (isEmpty password) RegisterPassword pg in
    let pg := flagIf (isEmpty passwordConfirm) RegisterPasswordConfirm pg in
    (pg, None)
  else
    let '(pg, hasErrors) :=
      if negb (validateEmail email)
      then (setFieldValidation RegisterEmail false
              (showMessage "error"
                 (VString (lit "Please provide a valid email.")) pg), true)
      else (pg, hasErrors) in
    let '(pg, hasErrors) :=
      if negb (validatePassword (VString password))
      then (setFieldValidation RegisterPassword false
              (showMessage "error"
                 (VString (lit "Password must be at least 8 characters long."))
                 pg), true)
      else (pg, hasErrors) in
    (* Validate password match *)
    let '(pg, hasErrors) :=
      if negb (bool_decide (password = passwordConfirm))
      then (setFieldValidation RegisterPasswordConfirm false
              (setFieldValidation RegisterPassword false
                 (showMessage "error"
                    (VString (lit "Passwords do not match. Please re-enter your password."))
                    pg)), true)
      else (pg, hasErrors) in
    if hasErrors then (pg, None)
    else
      let pg := set_registerSubmitBtn
                  (Button true true (lit "Creating account...")) pg in
      (pg, Some (VObject [("username", VString username);
                          ("email", VString email);
                          ("password", VString password)]%string)).

(** The submit handler of the login form, up to its [await fetch]. *)
Definition loginSubmit_check (pg : t) : t * option value :=
  let pg := clearMessages pg in
  let email := JsString.trim (fieldValue pg LoginEmail) in
  let password := fieldValue pg LoginPassword in
  (* Clear previous validation states *)
  let pg := setFieldValidation LoginEmail true pg in
  let pg := setFieldValidation LoginPassword true pg in
  let hasErrors := false in
  if isEmpty email || isEmpty password
  then
    let pg := showMessage "error"
                (VString (lit "Both email and password are required.")) pg in
    let pg := flagIf (isEmpty email) LoginEmail pg in
    let pg := flagIf (isEmpty password) LoginPassword pg in
    (pg, None)
  else
    let '(pg, hasErrors) :=
      if negb (validateEmail email)
      then (setFieldValidation LoginEmail false
              (showMessage "error"
                 (VString (lit "Please provide a valid email.")) pg), true)
      else (pg, hasErrors) in
    let '(pg, hasErrors) :=
      if negb (validatePassword (VString password))
      then (setFieldValidation LoginPassword false
              (showMessage "error"
                 (VString (lit "Password must be at least 8 characters long."))
                 pg), true)
      else (pg, hasErrors) in
    if hasErrors then (pg, None)
    else
      let pg := set_loginSubmitBtn (Button true true (lit "Logging in...")) pg in
      (pg, Some (VObject [("email", VString email);
                          ("password", VString password)]%string)).

(** How [await fetch(...)] and [await response.json()] end: the request
    fails, or a response comes with a status and a body that is JSON or is
    not. *)
Inductive fetched : Type :=
| FetchRejected
| Replied (st : Z) (body : option value).

(** [response.ok] *)
Definition ok (st : Z) : bool := ((200 <=? st) && (st <=? 299))%Z.

(** [elems.join(sep)] *)
Fixpoint join (b : browser) (sep : jsstring) (elems : list value) : jsstring :=
  let str e :=
    match e with
    | VUndefined | VNull => []
    | VString s => s
    | _ => toString b e
    end in
  match elems with
  | [] => []
  | [e] => str e
  | e :: rest => str e ++ sep ++ join b sep rest
  end.

(** [data?.errors] *)
Definition optional_prop (data : value) (key : string) : value :=
  match data with
  | VUndefined | VNull => VUndefined
  | _ => propOf data key
  end.

(** The text shown for a response that is not [ok]: the backend's message,
    or the fallback, followed by the backend's itemized errors. *)
Definition errorText (b : browser) (fallback : string) (data : value)
  : completion jsstring :=
  let! backendMessage :=
    (if truthy data
     then let! message := get_prop data "message" in
          Normal (match message with VString s => s | _ => [] end)
     else Normal []) in
  let backendErrors :=
    match optional_prop data "errors" with
    | VArray elems =>
        if truthy (VNumber (Z.of_nat (length elems)))
        then lit " " ++ join b (lit " ") elems
        else []
    | _ => []
    end in
  let errorText :=
    if truthy (VString backendMessage) then backendMessage else lit fallback in
  Normal (errorText ++ backendErrors).

Definition networkError : value :=
  VString (lit "Network error. Please check the backend server.").

(** The submit handler of the registration form from [await fetch] on. *)
Definition registerSubmit_done (b : browser) (pg : t) (r : fetched) : t :=
  let attempt : completion t :=
    match r with
    | FetchRejected => Throw Rejected
    | Replied _ None => Throw Rejected
    | Replied st (Some data) =>
        if negb (ok st)
        then
          (* Prefer backend validation details when available. *)
          let! text := errorText b "Registration failed. Please try again." data in
          Normal (showMessage "error" (VString text) pg)
        else
          let! message := get_prop data "message" in
          let pg :=
            showMessage "success"
              (js_or message (VString (lit "Registration successful."))) pg in
          Normal (reset b [RegisterUsername; RegisterEmail; RegisterPassword;
                           RegisterPasswordConfirm] pg)
    end in
  let pg :=
    match attempt with
    | Normal pg' => pg'
    | Throw _ => showMessage "error" networkError pg
    end in
  (* finally *)
  set_registerSubmitBtn (Button false false (lit "Create Account")) pg.

(** The submit handler of the login form from [await fetch] on. *)
Definition loginSubmit_done (b : browser) (pg : t) (r : fetched) : t :=
  let attempt : completion t :=
    match r with
    | FetchRejected => Throw Rejected
    | Replied _ None => Throw Rejected
    | Replied st (Some data) =>
        if negb (ok st)
        then
          let! text := errorText b "Login failed. Please try again." data in
          let pg := showMessage "error" (VString text) pg in
          Normal (set_token true (VString []) pg)
        else
          let! message := get_prop data "message" in
          let pg :=
            showMessage "success"
              (js_or message (VString (lit "Login successful."))) pg in
          let token := propOf data "token" in
          if truthy token
          then Normal (set_token false token pg)
          else Normal (set_token true (VString []) pg)
    end in
  let pg :=
    match attempt with
    | Normal pg' => pg'
    | Throw _ =>
        set_token true (VString []) (showMessage "error" networkError pg)
    end in
  (* finally *)
  set_loginSubmitBtn (Button false false (lit "Log In")) pg.

End Page.

(** The response as the page's [fetch] gets it: the status, and the body
    that [res.json] wrote. *)
Definition delivered (res : response) : Page.fetched :=
  Page.Replied (status res) (Some (json res)).

(** A click on "Log In" against the server. *)
Definition loginRoundTrip (b : Page.browser) (ext : externals)
    (JWT_SECRET : jsstring) (users : list User.t) (pg : Page.t) (w : ambient)
  : Page.t :=
  match Page.loginSubmit_check pg with
  | (pg, None) => pg
  | (pg, Some reqBody) =>
      Page.loginSubmit_done b pg
        (delivered (login ext JWT_SECRET users reqBody w))
  end.

(** Strings written one after the other with a space between. *)
Fixpoint spaced (l : list jsstring) : jsstring :=
  match l with
  | [] => []
  | [s] => s
  | s :: rest => s ++ lit " " ++ spaced rest
  end.

(** ** A page to try the handlers on *)

Module PageDouble.

Definition b : Page.browser :=
  Page.Browser (fun _ => []) (fun _ => lit "[object Object]").

(** The page as it is loaded, with the given text typed into its inputs. *)
Definition typed (values : Page.input -> string) : Page.t :=
  Page.mk true false true false true [] true (VString [])
    (fun i => lit (values i)) (fun _ => false)
    (Page.Button false false (lit "Log In"))
    (Page.Button false false (lit "Create Account")) [].

Definition signUp : Page.t :=
  typed (fun i =>
           match i with
           | Page.RegisterUsername => " alice "
           | Page.RegisterEmail => "A@Example.com "
           | Page.RegisterPassword | Page.RegisterPasswordConfirm
           | Page.LoginPassword => "password123"
           | Page.LoginEmail => "A@Example.com "
           end%string).

End PageDouble.
(** * Properties *)

(** ** Examples *)

Example validate_ok :
  validateAuthPayload (VString (lit "a@b.com")) (VString (lit "password123"))
    (VString (lit "alice")) true = Normal ([] : list jsstring).
Proof. vm_compute. reflexivity. Qed.

Example validate_short_username :
  validateAuthPayload (VString (lit "a@b.com")) (VString (lit "password123"))
    (VString (lit "al")) true
  = Normal [lit "Username must be at least 3 characters long."].
Proof. vm_compute. reflexivity. Qed.

Example validate_all_missing :
  validateAuthPayload VUndefined (VNumber 5) (VArray []) true
  = Normal [lit "Email is required."; lit "Password is required.";
            lit "Username is required."].
Proof. vm_compute. reflexivity. Qed.

Example validate_bad_format :
  validateAuthPayload (VString (lit " a@b ")) (VString (lit "short")) VUndefined false
  = Normal [lit "Email format is invalid.";
            lit "Password must be at least 8 characters long."].
Proof. vm_compute. reflexivity. Qed.

Example emailRegex_examples :
  Regex.test emailRegex (lit "a@b.com") = true
  /\ Regex.test emailRegex (lit "A@Example.com") = true
  /\ Regex.test emailRegex (lit "a@b") = false
  /\ Regex.test emailRegex (lit "a b@c.d") = false
  /\ Regex.test emailRegex (lit "a@@b.c") = false
  /\ Regex.test emailRegex (lit "a@b.c.d") = true
  /\ Regex.test emailRegex (lit "@b.c") = false.
Proof. repeat split; vm_compute; reflexivity. Qed.

Example startup_examples :
  startup {[ "JWT_SECRET"%string := lit "s3cret" ]}
  = Listening (VNumber 5000) (lit "s3cret")
  /\ startup {[ "JWT_SECRET"%string := lit "s3cret"; "PORT"%string := lit "8080" ]}
     = Listening (VString (lit "8080")) (lit "s3cret")
  /\ startup {[ "JWT_SECRET"%string := [] ]} = Exited 1
  /\ startup ∅ = Exited 1.
Proof. repeat split; vm_compute; reflexivity. Qed.

(** The scenario of the specification's last testable property. *)
Example scenario :
  let rqs :=
    [ (PostRegister (TestDouble.body3 "al" "a@b.com" "password123"), TestDouble.w);
      (PostRegister (TestDouble.body3 "alice" "a@b.com" "password123"), TestDouble.w);
      (PostRegister (TestDouble.body3 "alice2" "a@b.com" "password123"), TestDouble.w);
      (PostLogin (TestDouble.body2 "a@b.com" "wrong1234"), TestDouble.w);
      (PostLogin (TestDouble.body2 "a@b.com" "password123"), TestDouble.w) ] in
  serve TestDouble.ext TestDouble.secret [] rqs
  = [ validationFailed [lit "Username must be at least 3 characters long."];
      registered;
      duplicateEmail;
      invalidCredentials;
      loggedIn (lit "token-for-alice") ].
Proof. vm_compute. reflexivity. Qed.

(** ** Facts about strings *)

Module JsStringFacts.
Import JsString.

Lemma isWhiteSpace_true (c : N) :
  isWhiteSpace c = true <->
  (9 <= c <= 13 \/ c = 32 \/ c = 160 \/ c = 5760 \/ 8192 <= c <= 8202
   \/ c = 8232 \/ c = 8233 \/ c = 8239 \/ c = 8287 \/ c = 12288 \/ c = 65279).
Proof.
  unfold isWhiteSpace.
  rewrite !orb_true_iff, !andb_true_iff, !N.leb_le, !N.eqb_eq. lia.
Qed.

Lemma isWhiteSpace_false (c : N) :
  isWhiteSpace c = false <->
  ~ (9 <= c <= 13 \/ c = 32 \/ c = 160 \/ c = 5760 \/ 8192 <= c <= 8202
     \/ c = 8232 \/ c = 8233 \/ c = 8239 \/ c = 8287 \/ c = 12288 \/ c = 65279).
Proof.
  rewrite <- isWhiteSpace_true. destruct (isWhiteSpace c); intuition congruence.
Qed.

Lemma trimEnd_cons_not_whiteSpace (c : N) (s : jsstring) :
  isWhiteSpace c = false -> trimEnd (c :: s) = c :: trimEnd s.
Proof. intros Hc. simpl. rewrite Hc. destruct (trimEnd s); reflexivity. Qed.

Lemma trimEnd_app_not_whiteSpace (l s : jsstring) :
  (forall d, In d l -> isWhiteSpace d = false) ->
  trimEnd (l ++ s) = l ++ trimEnd s.
Proof.
  induction l as [|d l IH]; intros H; [reflexivity|].
  rewrite <- !app_comm_cons, trimEnd_cons_not_whiteSpace by (apply H; left; reflexivity).
  f_equal. apply IH. intros d' Hd'. apply H. right. exact Hd'.
Qed.

Lemma trimEnd_cons_whiteSpace (c : N) (s : jsstring) :
  isWhiteSpace c = true ->
  (trimEnd s = [] -> trimEnd (c :: s) = [])
  /\ (trimEnd s <> [] -> trimEnd (c :: s) = c :: trimEnd s).
Proof.
  intros Hc. simpl. rewrite Hc.
  destruct (trimEnd s); split; congruence.
Qed.

Lemma trimEnd_idem (s : jsstring) : trimEnd (trimEnd s) = trimEnd s.
Proof.
  induction s as [|c s IH]; [reflexivity|].
  simpl. destruct (trimEnd s) as [|d t] eqn:Ht.
  - destruct (isWhiteSpace c) eqn:Hc; simpl; [reflexivity|].
    rewrite Hc. reflexivity.
  - change (trimEnd (c :: d :: t))
      with (match trimEnd (d :: t) with
            | [] => if isWhiteSpace c then [] else [c]
            | t' => c :: t'
            end).
    rewrite IH. reflexivity.
Qed.

Lemma trimStart_head (s : jsstring) :
  trimStart s = [] \/ exists c t, trimStart s = c :: t /\ isWhiteSpace c = false.
Proof.
  induction s as [|c s IH]; simpl; [left; reflexivity|].
  destruct (isWhiteSpace c) eqn:Hc; [exact IH|].
  right. exists c, s. auto.
Qed.

Lemma trimStart_trimEnd_trimStart (s : jsstring) :
  trimStart (trimEnd (trimStart s)) = trimEnd (trimStart s).
Proof.
  destruct (trimStart_head s) as [->|(c & t & -> & Hc)]; [reflexivity|].
  rewrite trimEnd_cons_not_whiteSpace by exact Hc.
  simpl. rewrite Hc. reflexivity.
Qed.

(** Trimming twice is trimming once. *)
Lemma trim_idem (s : jsstring) : trim (trim s) = trim s.
Proof.
  unfold trim. rewrite trimStart_trimEnd_trimStart. apply trimEnd_idem.
Qed.

Lemma trim_nil : trim [] = [].
Proof. reflexivity. Qed.

End JsStringFacts.

(** ** Facts about the test double's lower-casing *)

Module TestDoubleFacts.
Import JsString JsStringFacts TestDouble.

(** The three shapes of the lower-case form of a code unit. *)
Lemma lowerUnit_cases (c : N) :
  ((65 <= c <= 90 \/ 192 <= c <= 214 \/ 216 <= c <= 222)
   /\ lowerUnit c = [c + 32])
  \/ (c = 304 /\ lowerUnit c = [105; 775])
  \/ (~ (65 <= c <= 90 \/ 192 <= c <= 214 \/ 216 <= c <= 222)
      /\ c <> 304 /\ lowerUnit c = [c]).
Proof.
  unfold lowerUnit.
  destruct ((65 <=? c) && (c <=? 90) || (192 <=? c) && (c <=? 214)
            || (216 <=? c) && (c <=? 222)) eqn:Hup.
  - left. split; [|reflexivity].
    rewrite !orb_true_iff, !andb_true_iff, !N.leb_le in Hup. lia.
  - right.
    assert (~ (65 <= c <= 90 \/ 192 <= c <= 214 \/ 216 <= c <= 222)) as Hn.
    { intros H. apply not_true_iff_false in Hup. apply Hup.
      rewrite !orb_true_iff, !andb_true_iff, !N.leb_le. lia. }
    destruct (N.eqb_spec c 304) as [->|Hne]; [left|right]; auto.
Qed.

(** A lower-case form is made of code units that are their own
    lower-case form. *)
Lemma lowerUnit_fixed (c d : N) :
  In d (lowerUnit c) -> lowerUnit d = [d].
Proof.
  intros Hd.
  destruct (lowerUnit_cases c) as [[Hc E]|[[Hc E]|(Hc & Hc' & E)]];
    rewrite E in Hd; simpl in Hd;
    destruct (lowerUnit_cases d) as [[Hd1 E']|[[Hd1 E']|(Hd1 & Hd2 & E')]];
    try exact E'; exfalso; lia.
Qed.

Lemma lowerUnit_whiteSpace (c : N) :
  isWhiteSpace c = true -> lowerUnit c = [c].
Proof.
  rewrite isWhiteSpace_true. intros Hc.
  destruct (lowerUnit_cases c) as [[Hc1 E]|[[Hc1 E]|(Hc1 & Hc2 & E)]];
    try exact E; exfalso; lia.
Qed.

Lemma lowerUnit_not_whiteSpace (c d : N) :
  isWhiteSpace c = false -> In d (lowerUnit c) -> isWhiteSpace d = false.
Proof.
  rewrite !isWhiteSpace_false. intros Hc Hd.
  destruct (lowerUnit_cases c) as [[Hc1 E]|[[Hc1 E]|(Hc1 & Hc2 & E)]];
    rewrite E in Hd; simpl in Hd; lia.
Qed.

Lemma lowerUnit_nonempty (c : N) : lowerUnit c <> [].
Proof.
  destruct (lowerUnit_cases c) as [[_ E]|[[_ E]|(_ & _ & E)]];
    rewrite E; discriminate.
Qed.

Lemma lowerCase_app (s t : jsstring) :
  lowerCase (s ++ t) = lowerCase s ++ lowerCase t.
Proof.
  induction s as [|c s IH]; simpl; [reflexivity|].
  rewrite IH. apply app_assoc.
Qed.

Lemma lowerCase_fixed (s : jsstring) :
  (forall d, In d s -> lowerUnit d = [d]) -> lowerCase s = s.
Proof.
  induction s as [|c s IH]; simpl; intros H; [reflexivity|].
  rewrite (H c) by auto. simpl. f_equal. apply IH. auto.
Qed.

(** Lower-casing twice is lower-casing once. *)
Lemma lowerCase_idem (s : jsstring) :
  lowerCase (lowerCase s) = lowerCase s.
Proof.
  induction s as [|c s IH]; simpl; [reflexivity|].
  rewrite lowerCase_app, IH. f_equal.
  apply lowerCase_fixed. intros d. apply lowerUnit_fixed.
Qed.

Lemma lowerCase_nil_inv (s : jsstring) : lowerCase s = [] -> s = [].
Proof.
  destruct s as [|c s]; simpl; [reflexivity|].
  intros H. apply app_eq_nil in H. destruct H as [H _].
  exfalso. exact (lowerUnit_nonempty c H).
Qed.

Lemma trimStart_lowerCase (s : jsstring) :
  trimStart (lowerCase s) = lowerCase (trimStart s).
Proof.
  induction s as [|c s IH]; simpl; [reflexivity|].
  destruct (isWhiteSpace c) eqn:Hc.
  - rewrite (lowerUnit_whiteSpace c Hc). simpl. rewrite Hc. exact IH.
  - simpl.
    pose proof (lowerUnit_nonempty c) as Hne.
    pose proof (lowerUnit_not_whiteSpace c) as Hws.
    destruct (lowerUnit c) as [|d l]; [congruence|].
    simpl. rewrite (Hws d Hc) by (left; reflexivity). reflexivity.
Qed.

Lemma trimEnd_lowerCase (s : jsstring) :
  trimEnd (lowerCase s) = lowerCase (trimEnd s).
Proof.
  induction s as [|c s IH]; [reflexivity|].
  change (lowerCase (c :: s)) with (lowerUnit c ++ lowerCase s).
  destruct (isWhiteSpace c) eqn:Hc.
  - rewrite (lowerUnit_whiteSpace c Hc).
    change ([c] ++ lowerCase s) with (c :: lowerCase s).
    destruct (trimEnd_cons_whiteSpace c s Hc) as [H0 H1].
    destruct (trimEnd_cons_whiteSpace c (lowerCase s) Hc) as [L0 L1].
    destruct (trimEnd s) as [|d t] eqn:Ht.
    + rewrite H0, L0 by (rewrite ?IH; reflexivity). reflexivity.
    + rewrite H1 by discriminate.
      rewrite L1.
      * rewrite IH.
        change (lowerCase (c :: d :: t))
          with (lowerUnit c ++ lowerCase (d :: t)).
        rewrite (lowerUnit_whiteSpace c Hc). reflexivity.
      * rewrite IH. intros E. apply lowerCase_nil_inv in E. discriminate.
  - rewrite trimEnd_cons_not_whiteSpace by exact Hc.
    change (lowerCase (c :: trimEnd s))
      with (lowerUnit c ++ lowerCase (trimEnd s)).
    rewrite trimEnd_app_not_whiteSpace
      by (intros d; apply lowerUnit_not_whiteSpace; exact Hc).
    rewrite IH. reflexivity.
Qed.

(** Trimming and lower-casing commute. *)
Lemma trim_lowerCase (s : jsstring) :
  trim (lowerCase s) = lowerCase (trim s).
Proof.
  unfold trim. rewrite trimStart_lowerCase. apply trimEnd_lowerCase.
Qed.

Lemma ext_idempotent : lowerCaseIdempotent TestDouble.ext.
Proof. intros s. apply lowerCase_idem. Qed.

Lemma ext_keepsTrim : lowerCaseKeepsTrim TestDouble.ext.
Proof. intros s. apply trim_lowerCase. Qed.

End TestDoubleFacts.

(** ** Facts about patterns *)

Module RegexFacts.
Import Regex.

Lemma Matches_Void_inv (s : jsstring) : Matches Void s -> False.
Proof. inversion 1. Qed.

Lemma Matches_Eps_inv (s : jsstring) : Matches Eps s -> s = [].
Proof. inversion 1. reflexivity. Qed.

Lemma Matches_Class_inv (p : N -> bool) (s : jsstring) :
  Matches (Class p) s -> exists c, s = [c] /\ p c = true.
Proof. inversion 1; subst. eauto. Qed.

Lemma Matches_Cat_inv (r1 r2 : t) (s : jsstring) :
  Matches (Cat r1 r2) s ->
  exists s1 s2, s = s1 ++ s2 /\ Matches r1 s1 /\ Matches r2 s2.
Proof. inversion 1; subst. eauto. Qed.

Lemma Matches_Alt_inv (r1 r2 : t) (s : jsstring) :
  Matches (Alt r1 r2) s -> Matches r1 s \/ Matches r2 s.
Proof. inversion 1; subst; auto. Qed.

Lemma nullable_Matches (r : t) : nullable r = true <-> Matches r [].
Proof.
  induction r as [| |p|r1 IH1 r2 IH2|r1 IH1 r2 IH2|r IH]; simpl.
  - split; [discriminate|]. intros H. destruct (Matches_Void_inv _ H).
  - split; [constructor|reflexivity].
  - split; [discriminate|]. intros H.
    apply Matches_Class_inv in H. destruct H as (c & E & _). discriminate.
  - rewrite andb_true_iff, IH1, IH2. split.
    + intros [H1 H2]. apply (MCat r1 r2 [] [] H1 H2).
    + intros H. apply Matches_Cat_inv in H.
      destruct H as (s1 & s2 & E & H1 & H2).
      symmetry in E. apply app_eq_nil in E. destruct E as [-> ->]. auto.
  - rewrite orb_true_iff, IH1, IH2. split.
    + intros [H|H]; [apply MAltL|apply MAltR]; exact H.
    + apply Matches_Alt_inv.
  - split; [constructor|reflexivity].
Qed.

Lemma deriv_sound (c : N) (r : t) (s : jsstring) :
  Matches (deriv c r) s -> Matches r (c :: s).
Proof.
  revert s.
  induction r as [| |p|r1 IH1 r2 IH2|r1 IH1 r2 IH2|r IH]; simpl; intros s H.
  - destruct (Matches_Void_inv _ H).
  - destruct (Matches_Void_inv _ H).
  - destruct (p c) eqn:Hp; [|destruct (Matches_Void_inv _ H)].
    apply Matches_Eps_inv in H. subst s. constructor. exact Hp.
  - assert (forall s, Matches (Cat (deriv c r1) r2) s ->
                      Matches (Cat r1 r2) (c :: s)) as HC.
    { intros s0 H0. apply Matches_Cat_inv in H0.
      destruct H0 as (s1 & s2 & -> & H1 & H2).
      apply (MCat r1 r2 (c :: s1) s2); auto. }
    destruct (nullable r1) eqn:Hn; [|apply HC; exact H].
    apply Matches_Alt_inv in H. destruct H as [H|H]; [apply HC; exact H|].
    apply (MCat r1 r2 [] (c :: s)); [|auto].
    apply nullable_Matches. exact Hn.
  - apply Matches_Alt_inv in H.
    destruct H as [H|H]; [apply MAltL|apply MAltR]; auto.
  - apply Matches_Cat_inv in H. destruct H as (s1 & s2 & -> & H1 & H2).
    apply (MStarS r (c :: s1) s2); auto.
Qed.

Lemma deriv_complete (c : N) (r : t) (s : jsstring) :
  Matches r (c :: s) -> Matches (deriv c r) s.
Proof.
  intros H. remember (c :: s) as cs eqn:E. revert c s E.
  induction H as [|p d Hp|r1 r2 s1 s2 H1 IH1 H2 IH2|r1 r2 s0 H IH
                 |r1 r2 s0 H IH|r|r s1 s2 H1 IH1 H2 IH2];
    intros c s E; simpl.
  - discriminate.
  - injection E as -> <-. rewrite Hp. constructor.
  - destruct s1 as [|c1 s1]; simpl in E.
    + assert (nullable r1 = true) as -> by (apply nullable_Matches; exact H1).
      apply MAltR. apply IH2. exact E.
    + injection E as -> <-.
      destruct (nullable r1); [apply MAltL|]; apply MCat; auto.
  - apply MAltL. auto.
  - apply MAltR. auto.
  - discriminate.
  - destruct s1 as [|c1 s1]; simpl in E.
    + apply (IH2 c s E).
    + injection E as -> <-. apply MCat; auto.
Qed.

(** The derivative matcher decides the relational meaning. *)
Theorem test_Matches (r : t) (s : jsstring) :
  test r s = true <-> Matches r s.
Proof.
  revert r. induction s as [|c s IH]; intros r; simpl.
  - apply nullable_Matches.
  - rewrite IH. split; [apply deriv_sound|apply deriv_complete].
Qed.

Lemma Matches_Star_Class (p : N -> bool) (s : jsstring) :
  Matches (Star (Class p)) s <-> Forall (fun c => p c = true) s.
Proof.
  split.
  - intros H. remember (Star (Class p)) as r eqn:E.
    induction H as [| | | | |r0|r0 s1 s2 H1 _ H2 IH2]; try discriminate.
    + constructor.
    + injection E as ->. apply Matches_Class_inv in H1.
      destruct H1 as (c & -> & Hc). constructor; auto.
  - induction 1 as [|c s Hc _ IH]; [constructor|].
    apply (MStarS (Class p) [c] s); [constructor; exact Hc|exact IH].
Qed.

Lemma Matches_Plus_Class (p : N -> bool) (s : jsstring) :
  Matches (Plus (Class p)) s <-> s <> [] /\ Forall (fun c => p c = true) s.
Proof.
  unfold Plus. split.
  - intros H. apply Matches_Cat_inv in H.
    destruct H as (s1 & s2 & -> & H1 & H2).
    apply Matches_Class_inv in H1. destruct H1 as (c & -> & Hc).
    apply Matches_Star_Class in H2.
    split; [discriminate|]. constructor; auto.
  - intros [Hne H]. destruct H as [|c s Hc Hs]; [congruence|].
    apply (MCat (Class p) (Star (Class p)) [c] s);
      [constructor; exact Hc|apply Matches_Star_Class; exact Hs].
Qed.

(** X25.  What [emailRegex] accepts: [local@domain.tld], each part non-empty
    and free of white space and of [@]. *)
Theorem emailRegex_accepts (s : jsstring) :
  test emailRegex s = true <->
  exists l d tld,
    s = l ++ [64] ++ d ++ [46] ++ tld
    /\ (l <> [] /\ Forall (fun c => notSpaceAt c = true) l)
    /\ (d <> [] /\ Forall (fun c => notSpaceAt c = true) d)
    /\ (tld <> [] /\ Forall (fun c => notSpaceAt c = true) tld).
Proof.
  rewrite test_Matches. unfold emailRegex. split.
  - intros H.
    apply Matches_Cat_inv in H. destruct H as (l & s1 & -> & Hl & H).
    apply Matches_Cat_inv in H. destruct H as (a & s2 & -> & Ha & H).
    apply Matches_Cat_inv in H. destruct H as (d & s3 & -> & Hd & H).
    apply Matches_Cat_inv in H. destruct H as (b & tld & -> & Hb & Ht).
    apply Matches_Class_inv in Ha. destruct Ha as (c & -> & Hc).
    apply N.eqb_eq in Hc. subst c.
    apply Matches_Class_inv in Hb. destruct Hb as (c & -> & Hc).
    apply N.eqb_eq in Hc. subst c.
    exists l, d, tld. rewrite <- !Matches_Plus_Class. auto.
  - intros (l & d & tld & -> & Hl & Hd & Ht).
    rewrite <- Matches_Plus_Class in Hl, Hd, Ht.
    repeat (apply MCat; try assumption); constructor; reflexivity.
Qed.

End RegexFacts.

(** ** Facts about the validation routine *)

Module ValidationFacts.
Import JsString.
Export ValidationBlocks.

Lemma blankOrMissing_eq (v : value) : blankOrMissing v = Normal (missing v).
Proof.
  destruct v as [| |b|n|s|l|o]; try reflexivity.
  - destruct b; reflexivity.
  - unfold blankOrMissing. simpl. destruct (n =? 0)%Z; reflexivity.
  - destruct s as [|c s]; [reflexivity|].
    unfold blankOrMissing, missing. simpl truthy. simpl negb. cbv iota.
    simpl. destruct (trim (c :: s)); reflexivity.
Qed.

Lemma block_eq (errors : list jsstring) (required first second : jsstring)
    (c1 c2 : jsstring -> bool) (v : value) :
  (let! missing := blankOrMissing v in
   if missing then Normal (errors ++ [required])
   else
     let! t := method_trim v in
     if c1 t then Normal (errors ++ [first])
     else if c2 t then Normal (errors ++ [second])
     else Normal errors)
  = Normal (errors ++ blockErrors required first second c1 c2 v).
Proof.
  rewrite blankOrMissing_eq.
  destruct v; try reflexivity.
  simpl. destruct (trim s) eqn:E; simpl; [reflexivity|].
  destruct (c1 (n :: l)); [reflexivity|].
  destruct (c2 (n :: l)); [reflexivity|].
  rewrite app_nil_r. reflexivity.
Qed.

(** The routine never throws, and its list is the three blocks' messages
    in order. *)
Lemma validateAuthPayload_eq (email password username : value)
    (requireUsername : bool) :
  validateAuthPayload email password username requireUsername
  = Normal (emailErrors email ++ passwordErrors password
            ++ (if requireUsername then usernameErrors username else [])).
Proof.
  unfold validateAuthPayload.
  rewrite (block_eq [] _ _ _ (fun t => (254 <? length t)%nat)
             (fun t => negb (Regex.test emailRegex t)) email).
  cbn [bind].
  rewrite (block_eq _ _ _ _ (fun t => (length t <? 8)%nat)
             (fun t => (128 <? length t)%nat) password).
  cbn [bind].
  destruct requireUsername.
  - rewrite (block_eq _ _ _ _ (fun t => (length t <? 3)%nat)
               (fun t => (30 <? length t)%nat) username).
    cbn [bind]. rewrite app_nil_l, <- app_assoc. reflexivity.
  - cbn [bind]. rewrite app_nil_l, app_nil_r. reflexivity.
Qed.

Lemma blockErrors_cases (required first second : jsstring)
    (c1 c2 : jsstring -> bool) (v : value) :
  let l := blockErrors required first second c1 c2 v in
  l = [required] \/ l = [first] \/ l = [second] \/ l = [].
Proof.
  destruct v; simpl; auto.
  destruct (trim s); auto.
  destruct (c1 (n :: l)); auto.
  destruct (c2 (n :: l)); auto.
Qed.

Lemma blockErrors_missing (required first second : jsstring)
    (c1 c2 : jsstring -> bool) (v : value) :
  missing v = true -> blockErrors required first second c1 c2 v = [required].
Proof.
  destruct v; simpl; try reflexivity.
  destruct (trim s); [reflexivity|discriminate].
Qed.

Lemma messagesAbout_block (name : string) (keep : bool)
    (required first second : jsstring) (c1 c2 : jsstring -> bool) (v : value) :
  mentions name required = keep ->
  mentions name first = keep ->
  mentions name second = keep ->
  messagesAbout name (blockErrors required first second c1 c2 v)
  = if keep then blockErrors required first second c1 c2 v else [].
Proof.
  intros Hr H1 H2. unfold messagesAbout.
  destruct (blockErrors_cases required first second c1 c2 v)
    as [E|[E|[E|E]]]; simpl in E; rewrite E; simpl;
    rewrite ?Hr, ?H1, ?H2; destruct keep; reflexivity.
Qed.

(** The messages about a field are those of its own block. *)
Lemma messagesAbout_errors (f : field) (email password username : value)
    (requireUsername : bool) :
  messagesAbout (fieldName f)
    (emailErrors email ++ passwordErrors password
     ++ (if requireUsername then usernameErrors username else []))
  = if checked f requireUsername
    then fieldErrors f (fieldValue f email password username)
    else [].
Proof.
  unfold messagesAbout. rewrite !List.filter_app.
  fold (messagesAbout (fieldName f) (emailErrors email)).
  fold (messagesAbout (fieldName f) (passwordErrors password)).
  assert (List.filter (mentions (fieldName f))
            (if requireUsername then usernameErrors username else [])
          = if requireUsername
            then messagesAbout (fieldName f) (usernameErrors username)
            else []) as -> by (destruct requireUsername; reflexivity).
  unfold emailErrors, passwordErrors, usernameErrors.
  destruct f; simpl fieldName.
  - rewrite (messagesAbout_block "Email" true) by reflexivity.
    rewrite (messagesAbout_block "Email" false) by reflexivity.
    destruct requireUsername;
      rewrite ?(messagesAbout_block "Email" false) by reflexivity;
      simpl; rewrite app_nil_r; reflexivity.
  - rewrite (messagesAbout_block "Password" false) by reflexivity.
    rewrite (messagesAbout_block "Password" true) by reflexivity.
    destruct requireUsername;
      rewrite ?(messagesAbout_block "Password" false) by reflexivity;
      simpl; rewrite app_nil_r; reflexivity.
  - rewrite (messagesAbout_block "Username" false) by reflexivity.
    rewrite (messagesAbout_block "Username" false) by reflexivity.
    destruct requireUsername;
      rewrite ?(messagesAbout_block "Username" true) by reflexivity;
      simpl; rewrite ?app_nil_r; reflexivity.
Qed.

Lemma fieldErrors_missing (f : field) (v : value) :
  missing v = true -> fieldErrors f v = [requiredMessage f].
Proof.
  intros Hv. destruct f; simpl; apply blockErrors_missing; exact Hv.
Qed.

(** A checked field's messages are in the routine's list. *)
Lemma fieldErrors_incl (f : field) (email password username : value)
    (requireUsername : bool) (m : jsstring) :
  checked f requireUsername = true ->
  In m (fieldErrors f (fieldValue f email password username)) ->
  In m (emailErrors email ++ passwordErrors password
        ++ (if requireUsername then usernameErrors username else [])).
Proof.
  intros Hc Hm. rewrite !in_app_iff.
  destruct f; simpl in *; auto.
  rewrite Hc. auto.
Qed.

(** An empty list means that every checked field is a string. *)
Lemma blockErrors_nil_inv (required first second : jsstring)
    (c1 c2 : jsstring -> bool) (v : value) :
  blockErrors required first second c1 c2 v = [] ->
  exists s, v = VString s /\ trim s <> []
            /\ c1 (trim s) = false /\ c2 (trim s) = false.
Proof.
  destruct v; simpl; try discriminate.
  intros H. exists s. destruct (trim s) eqn:E; [discriminate|].
  destruct (c1 (n :: l)); [discriminate|].
  destruct (c2 (n :: l)); [discriminate|].
  repeat split; congruence.
Qed.

End ValidationFacts.

(** ** Facts about the handlers *)

Module HandlerFacts.
Import JsString ValidationFacts.

Lemma found_findByEmail (ext : externals) (users : list User.t) (ne : jsstring) :
  found (findByEmail ext users ne) = true
  <-> exists a, In a users /\ toLowerCase ext (User.email a) = ne.
Proof.
  unfold findByEmail. split.
  - destruct (find _ users) as [a|] eqn:E; [|discriminate].
    intros _. apply find_some in E. destruct E as [Hin Hp].
    exists a. split; [exact Hin|]. apply bool_decide_eq_true in Hp. exact Hp.
  - intros (a & Hin & Ha).
    destruct (find _ users) as [b|] eqn:E; [reflexivity|].
    pose proof (find_none _ _ E a Hin) as Hn. simpl in Hn.
    apply bool_decide_eq_false in Hn. contradiction.
Qed.

Lemma found_findByUsername (ext : externals) (users : list User.t) (nu : jsstring) :
  found (findByUsername ext users nu) = true
  <-> exists b, In b users
                /\ toLowerCase ext (User.username b) = toLowerCase ext nu.
Proof.
  unfold findByUsername. split.
  - destruct (find _ users) as [a|] eqn:E; [|discriminate].
    intros _. apply find_some in E. destruct E as [Hin Hp].
    exists a. split; [exact Hin|]. apply bool_decide_eq_true in Hp. exact Hp.
  - intros (a & Hin & Ha).
    destruct (find _ users) as [b|] eqn:E; [reflexivity|].
    pose proof (find_none _ _ E a Hin) as Hn. simpl in Hn.
    apply bool_decide_eq_false in Hn. contradiction.
Qed.

(** A payload the routine accepts has strings in its checked fields. *)
Lemma validateAuthPayload_nil_inv (email password username : value)
    (requireUsername : bool) :
  validateAuthPayload email password username requireUsername = Normal [] ->
  (exists se, email = VString se /\ trim se <> []
              /\ (length (trim se) <= 254)%nat
              /\ Regex.test emailRegex (trim se) = true)
  /\ (exists sp, password = VString sp /\ (8 <= length (trim sp) <= 128)%nat)
  /\ (requireUsername = true ->
      exists su, username = VString su /\ (3 <= length (trim su) <= 30)%nat).
Proof.
  rewrite validateAuthPayload_eq. intros H. injection H as H.
  apply app_eq_nil in H. destruct H as [He H].
  apply app_eq_nil in H. destruct H as [Hp Hu].
  apply blockErrors_nil_inv in He. destruct He as (se & -> & Hne & Hl & Hr).
  apply blockErrors_nil_inv in Hp. destruct Hp as (sp & -> & _ & Hl1 & Hl2).
  split; [|split].
  - exists se. repeat split; auto.
    + apply Nat.ltb_ge in Hl. exact Hl.
    + apply negb_false_iff in Hr. exact Hr.
  - exists sp. split; [reflexivity|].
    apply Nat.ltb_ge in Hl1. apply Nat.ltb_ge in Hl2. lia.
  - intros ->. apply blockErrors_nil_inv in Hu.
    destruct Hu as (su & -> & _ & Hl3 & Hl4).
    exists su. split; [reflexivity|].
    apply Nat.ltb_ge in Hl3. apply Nat.ltb_ge in Hl4. lia.
Qed.

Lemma register_check_invalid (ext : externals) (users : list User.t)
    (reqBody username email password : value) (errors : list jsstring) :
  get_prop reqBody "username" = Normal username ->
  get_prop reqBody "email" = Normal email ->
  get_prop reqBody "password" = Normal password ->
  validateAuthPayload email password username true = Normal errors ->
  errors <> [] ->
  register_check ext users reqBody = Normal (inl (validationFailed errors)).
Proof.
  intros Hu He Hp Hv Hne. unfold register_check.
  rewrite Hu, He, Hp. cbn [bind]. rewrite Hv. cbn [bind].
  destruct errors; [congruence|]. reflexivity.
Qed.

(** After validation, the check is the three-way comparison. *)
Lemma register_check_valid (ext : externals) (users : list User.t) (reqBody : value)
    (su se : jsstring) (password : value) :
  get_prop reqBody "username" = Normal (VString su) ->
  get_prop reqBody "email" = Normal (VString se) ->
  get_prop reqBody "password" = Normal password ->
  validateAuthPayload (VString se) password (VString su) true = Normal [] ->
  register_check ext users reqBody
  = let existingEmail := findByEmail ext users (toLowerCase ext (trim se)) in
    let existingUsername := findByUsername ext users (trim su) in
    if found existingEmail && found existingUsername
    then Normal (inl duplicateBoth)
    else if found existingEmail then Normal (inl duplicateEmail)
    else if found existingUsername then Normal (inl duplicateUsername)
    else Normal (inr (Pending (trim su) (toLowerCase ext (trim se)) password)).
Proof.
  intros Hu He Hp Hv. unfold register_check.
  rewrite Hu, He, Hp. cbn [bind]. rewrite Hv. reflexivity.
Qed.

(** Every way [POST /register] can end. *)
Lemma register_cases (ext : externals) (users : list User.t)
    (reqBody : value) (w : ambient) :
  (exists res, register ext users reqBody w = (users, res)
               /\ (status res = 400 \/ status res = 409 \/ status res = 500)%Z)
  \/ (exists p passwordHash,
        register_check ext users reqBody = Normal (inr p)
        /\ bcrypt_hash ext (password p) 10 (salt w) = Normal passwordHash
        /\ register ext users reqBody w
           = (users ++ [User.mk (Z.of_nat (length users) + 1)
                          (normalizedUsername p) (normalizedEmail p)
                          passwordHash (toISOString ext (now w))],
              registered)).
Proof.
  unfold register.
  destruct (register_check ext users reqBody) as [[res|p]|e] eqn:Hc.
  - left. exists res. split; [reflexivity|].
    unfold register_check in Hc.
    destruct (get_prop reqBody "username") as [username|]; [|discriminate].
    destruct (get_prop reqBody "email") as [email|]; [|discriminate].
    destruct (get_prop reqBody "password") as [password|]; [|discriminate].
    cbn [bind] in Hc.
    destruct (validateAuthPayload email password username true)
      as [errors|]; [|discriminate].
    cbn [bind] in Hc.
    destruct (0 <? length errors)%nat.
    { injection Hc as <-. left. reflexivity. }
    destruct (method_trim email); [|discriminate]. cbn [bind] in Hc.
    destruct (method_trim username); [|discriminate]. cbn [bind] in Hc.
    destruct (found _ && found _).
    { injection Hc as <-. right. left. reflexivity. }
    destruct (found (findByEmail ext _ _)).
    { injection Hc as <-. right. left. reflexivity. }
    destruct (found (findByUsername ext _ _)); [|discriminate].
    injection Hc as <-. right. left. reflexivity.
  - destruct (bcrypt_hash ext (password p) 10 (salt w)) as [h|] eqn:Hh.
    + right. exists p, h. auto.
    + left. exists unexpectedError. split; [reflexivity|]. right. right. reflexivity.
  - left. exists unexpectedError. split; [reflexivity|]. right. right. reflexivity.
Qed.

Lemma login_try_valid (ext : externals) (JWT_SECRET : jsstring)
    (users : list User.t) (reqBody : value) (w : ambient)
    (se : jsstring) (password : value) :
  get_prop reqBody "email" = Normal (VString se) ->
  get_prop reqBody "password" = Normal password ->
  validateAuthPayload (VString se) password VUndefined false = Normal [] ->
  login_try ext JWT_SECRET users reqBody w
  = match findByEmail ext users (toLowerCase ext (trim se)) with
    | None => Normal invalidCredentials
    | Some user =>
        let! passwordMatch :=
          bcrypt_compare ext password (User.passwordHash user) in
        if negb passwordMatch then Normal invalidCredentials
        else
          let! token :=
            jwt_sign ext
              (VObject [("id", VNumber (User.id user));
                        ("username", VString (User.username user));
                        ("email", VString (User.email user))]%string)
              JWT_SECRET
              (VObject [("expiresIn", VString (lit "1h"))]%string)
              (now w) in
          Normal (loggedIn token)
    end.
Proof.
  intros He Hp Hv. unfold login_try.
  rewrite He, Hp. cbn [bind]. rewrite Hv. reflexivity.
Qed.

End HandlerFacts.

(** ** Registration: duplicates and failures *)

Section Registration.
Import JsString ValidationFacts HandlerFacts.

Variable ext : externals.

(** C1.  A registration request that passes validation is compared with
    the stored accounts on both keys: when some account has the
    normalized email and some account (the same or another) has the
    username up to case, the answer is 409 "Both username and email are
    already taken."; when only the email is taken it is 409 "An account
    with this email already exists."; when only the username is taken it
    is 409 "This username is already taken."; when neither is taken the
    answer is not a 409.  Each answer depends on both lookups, and a 409
    leaves the array as it was. *)
Theorem register_duplicate_three_way
    (users : list User.t) (reqBody : value) (w : ambient)
    (su se : jsstring) (password : value) :
  get_prop reqBody "username" = Normal (VString su) ->
  get_prop reqBody "email" = Normal (VString se) ->
  get_prop reqBody "password" = Normal password ->
  validateAuthPayload (VString se) password (VString su) true = Normal [] ->
  let emailTaken :=
    exists a, In a users
              /\ toLowerCase ext (User.email a) = toLowerCase ext (trim se) in
  let usernameTaken :=
    exists b, In b users
              /\ toLowerCase ext (User.username b) = toLowerCase ext (trim su) in
  (emailTaken /\ usernameTaken ->
     register ext users reqBody w = (users, duplicateBoth))
  /\ (emailTaken /\ ~ usernameTaken ->
        register ext users reqBody w = (users, duplicateEmail))
  /\ (~ emailTaken /\ usernameTaken ->
        register ext users reqBody w = (users, duplicateUsername))
  /\ (~ emailTaken /\ ~ usernameTaken ->
        status (snd (register ext users reqBody w)) <> 409%Z).
Proof.
  intros Hu He Hp Hv emailTaken usernameTaken.
  unfold register.
  rewrite (register_check_valid ext users reqBody su se password Hu He Hp Hv).
  cbv zeta.
  pose proof (found_findByEmail ext users (toLowerCase ext (trim se))) as HE.
  pose proof (found_findByUsername ext users (trim su)) as HU.
  fold emailTaken in HE. fold usernameTaken in HU.
  destruct (found (findByEmail ext users (toLowerCase ext (trim se))));
    destruct (found (findByUsername ext users (trim su))); simpl;
    (split; [|split; [|split]]); intros [H1 H2];
    try reflexivity;
    try (exfalso; apply HE in H1; discriminate);
    try (exfalso; apply HU in H2; discriminate);
    try (exfalso; apply H1, HE; reflexivity);
    try (exfalso; apply H2, HU; reflexivity).
  destruct (bcrypt_hash ext password 10 (salt w)); simpl; discriminate.
Qed.

(** C3.  A registration that does not end in 201, be it refused by
    validation (400), by a duplicate check (409) or ended by an
    exception (500), leaves the users array exactly as it was. *)
Theorem register_failure_keeps_users
    (users : list User.t) (reqBody : value) (w : ambient) :
  status (snd (register ext users reqBody w)) <> 201%Z ->
  fst (register ext users reqBody w) = users.
Proof.
  intros Hs.
  destruct (register_cases ext users reqBody w)
    as [(res & -> & _)|(p & h & _ & _ & E)]; [reflexivity|].
  rewrite E in Hs. simpl in Hs. congruence.
Qed.

End Registration.

Lemma register_duplicate_three_way_witness :
  register TestDouble.ext TestDouble.twoUsers
    (TestDouble.body3 " ALICE " "Bob@B.com" "password123") TestDouble.w
  = (TestDouble.twoUsers, duplicateBoth).
Proof.
  refine (proj1 (register_duplicate_three_way TestDouble.ext TestDouble.twoUsers
                   (TestDouble.body3 " ALICE " "Bob@B.com" "password123")
                   TestDouble.w (lit " ALICE ") (lit "Bob@B.com")
                   (VString (lit "password123")) _ _ _ _) _).
  - reflexivity.
  - reflexivity.
  - reflexivity.
  - vm_compute. reflexivity.
  - split.
    + exists TestDouble.bob.
      split; [right; left; reflexivity|vm_compute; reflexivity].
    + exists TestDouble.alice.
      split; [left; reflexivity|vm_compute; reflexivity].
Defined.

Lemma register_failure_keeps_users_witness :
  fst (register TestDouble.ext []
         (TestDouble.body3 "al" "a@b.com" "password123") TestDouble.w) = [].
Proof.
  apply (register_failure_keeps_users TestDouble.ext []
           (TestDouble.body3 "al" "a@b.com" "password123") TestDouble.w).
  vm_compute. discriminate.
Defined.

(** ** Login: failures *)

Section LoginFailure.
Import JsString ValidationFacts HandlerFacts.

Variable ext : externals.
Variable JWT_SECRET : jsstring.

(** C2.  Of two login requests that pass validation, one whose normalized
    email finds no account and one whose account is found but whose
    password does not verify, both get the same response: status 401 with
    the body [{ success: false, message: "Invalid email or password." }]. *)
Theorem login_failures_indistinguishable
    (users1 users2 : list User.t) (reqBody1 reqBody2 : value)
    (w1 w2 : ambient) (se1 se2 : jsstring) (password1 password2 : value)
    (user : User.t) :
  get_prop reqBody1 "email" = Normal (VString se1) ->
  get_prop reqBody1 "password" = Normal password1 ->
  validateAuthPayload (VString se1) password1 VUndefined false = Normal [] ->
  get_prop reqBody2 "email" = Normal (VString se2) ->
  get_prop reqBody2 "password" = Normal password2 ->
  validateAuthPayload (VString se2) password2 VUndefined false = Normal [] ->
  (* no such email *)
  findByEmail ext users1 (toLowerCase ext (trim se1)) = None ->
  (* wrong password *)
  findByEmail ext users2 (toLowerCase ext (trim se2)) = Some user ->
  bcrypt_compare ext password2 (User.passwordHash user) = Normal false ->
  login ext JWT_SECRET users1 reqBody1 w1 = invalidCredentials
  /\ login ext JWT_SECRET users2 reqBody2 w2 = invalidCredentials
  /\ invalidCredentials
     = Response 401 (VObject [("success", VBool false);
                              ("message", VString (lit "Invalid email or password."))]%string).
Proof.
  intros He1 Hp1 Hv1 He2 Hp2 Hv2 Hmiss Hfound Hcmp.
  unfold login.
  rewrite (login_try_valid ext JWT_SECRET users1 reqBody1 w1 se1 password1 He1 Hp1 Hv1).
  rewrite (login_try_valid ext JWT_SECRET users2 reqBody2 w2 se2 password2 He2 Hp2 Hv2).
  rewrite Hmiss, Hfound. cbn [bind]. rewrite Hcmp. cbn [bind negb].
  repeat split.
Qed.

End LoginFailure.

Lemma login_failures_indistinguishable_witness :
  login TestDouble.ext TestDouble.secret TestDouble.twoUsers
    (TestDouble.body2 "nobody@b.com" "password123") TestDouble.w
  = login TestDouble.ext TestDouble.secret TestDouble.twoUsers
      (TestDouble.body2 " A@B.com" "wrong1234") TestDouble.w.
Proof.
  destruct (login_failures_indistinguishable TestDouble.ext TestDouble.secret
              TestDouble.twoUsers TestDouble.twoUsers
              (TestDouble.body2 "nobody@b.com" "password123")
              (TestDouble.body2 " A@B.com" "wrong1234")
              TestDouble.w TestDouble.w
              (lit "nobody@b.com") (lit " A@B.com")
              (VString (lit "password123")) (VString (lit "wrong1234"))
              TestDouble.alice) as (H1 & H2 & _).
  - reflexivity.
  - reflexivity.
  - vm_compute. reflexivity.
  - reflexivity.
  - reflexivity.
  - vm_compute. reflexivity.
  - vm_compute. reflexivity.
  - vm_compute. reflexivity.
  - vm_compute. reflexivity.
  - rewrite H1, H2. reflexivity.
Defined.

(** ** Validation: what is reported for a field *)

Section Validation.
Import JsString ValidationFacts HandlerFacts.

(** C7, as the routine does it.  For every string password whose length
    once trimmed is between 8 and 128 inclusive, the list holds no message
    about the password. *)
Theorem password_trimmed_in_range_no_message
    (sp : jsstring) (email username : value) (requireUsername : bool) :
  (8 <= length (trim sp) <= 128)%nat ->
  exists errors,
    validateAuthPayload email (VString sp) username requireUsername
    = Normal errors
    /\ messagesAbout "Password" errors = [].
Proof.
  intros Hlen. eexists. split; [apply validateAuthPayload_eq|].
  rewrite (messagesAbout_errors Password).
  cbn [checked fieldErrors fieldValue].
  unfold passwordErrors, blockErrors.
  destruct (trim sp) as [|c t] eqn:E; [simpl in Hlen; lia|].
  cbv beta.
  destruct (length (c :: t) <? 8)%nat eqn:H8;
    [apply Nat.ltb_lt in H8; lia|].
  destruct (128 <? length (c :: t))%nat eqn:H128;
    [apply Nat.ltb_lt in H128; lia|].
  reflexivity.
Qed.

(** C8.  For every email whose length once trimmed exceeds 254, the
    messages about the email are exactly the length message; and for no
    payload does the list hold both the length message and the format
    message. *)
Theorem email_length_excludes_format :
  (forall (se : jsstring) (password username : value) (requireUsername : bool),
      (254 < length (trim se))%nat ->
      exists errors,
        validateAuthPayload (VString se) password username requireUsername
        = Normal errors
        /\ messagesAbout "Email" errors
           = [lit "Email must be 254 characters or less."])
  /\ (forall (email password username : value) (requireUsername : bool),
        exists errors,
          validateAuthPayload email password username requireUsername
          = Normal errors
          /\ ~ (In (lit "Email must be 254 characters or less.") errors
                /\ In (lit "Email format is invalid.") errors)).
Proof.
  split.
  - intros se password username requireUsername Hlen.
    eexists. split; [apply validateAuthPayload_eq|].
    rewrite (messagesAbout_errors Email).
    cbn [checked fieldErrors fieldValue].
    unfold emailErrors, blockErrors.
    destruct (trim se) as [|c t] eqn:E; [simpl in Hlen; lia|].
    cbv beta.
    destruct (254 <? length (c :: t))%nat eqn:H254; [reflexivity|].
    apply Nat.ltb_ge in H254. lia.
  - intros email password username requireUsername.
    eexists. split; [apply validateAuthPayload_eq|].
    intros [Hl Hf].
    assert (forall m, mentions "Email" m = true ->
              In m (emailErrors email ++ passwordErrors password
                    ++ (if requireUsername then usernameErrors username else [])) ->
              In m (emailErrors email)) as Hin.
    { intros m Hm H.
      assert (In m (messagesAbout "Email"
                      (emailErrors email ++ passwordErrors password
                       ++ (if requireUsername then usernameErrors username else []))))
        as H' by (apply filter_In; auto).
      rewrite (messagesAbout_errors Email) in H'. exact H'. }
    apply Hin in Hl; [|reflexivity]. apply Hin in Hf; [|reflexivity].
    unfold emailErrors in Hl, Hf.
    destruct (blockErrors_cases (lit "Email is required.")
                (lit "Email must be 254 characters or less.")
                (lit "Email format is invalid.")
                (fun t => (254 <? length t)%nat)
                (fun t => negb (Regex.test emailRegex t)) email)
      as [E|[E|[E|E]]]; simpl in E; rewrite E in Hl, Hf;
      vm_compute in Hl, Hf; intuition discriminate.
Qed.

(** C10.  The routine never throws, whatever the three values are.  When
    a field it checks is absent, is not a string or is blank once trimmed,
    the messages about that field are exactly its "is required." message.
    At the handlers, such a field in an object body is answered with 400
    and a list holding that message, never with an exception. *)
Theorem missing_field_is_required :
  (forall (email password username : value) (requireUsername : bool),
      exists errors,
        validateAuthPayload email password username requireUsername
        = Normal errors)
  /\ (forall (f : field) (email password username : value)
             (requireUsername : bool),
        checked f requireUsername = true ->
        missing (fieldValue f email password username) = true ->
        exists errors,
          validateAuthPayload email password username requireUsername
          = Normal errors
          /\ messagesAbout (fieldName f) errors = [requiredMessage f])
  /\ (forall (ext : externals) (JWT_SECRET : jsstring) (users : list User.t)
             (props : list (string * value)) (w : ambient) (f : field),
        missing (lookup_prop (fieldKey f) props) = true ->
        (exists errors,
            In (requiredMessage f) errors
            /\ register ext users (VObject props) w
               = (users, validationFailed errors))
        /\ (checked f false = true ->
            exists errors,
              In (requiredMessage f) errors
              /\ login ext JWT_SECRET users (VObject props) w
                 = validationFailed errors)).
Proof.
  split; [|split].
  - intros. eexists. apply validateAuthPayload_eq.
  - intros f email password username requireUsername Hc Hm.
    eexists. split; [apply validateAuthPayload_eq|].
    rewrite messagesAbout_errors, Hc. apply fieldErrors_missing. exact Hm.
  - intros ext JWT_SECRET users props w f Hm.
    assert (forall r, checked f r = true ->
              In (requiredMessage f)
                (emailErrors (lookup_prop "email" props)
                 ++ passwordErrors (lookup_prop "password" props)
                 ++ (if r then usernameErrors
                                 (if r then lookup_prop "username" props
                                  else VUndefined)
                     else []))) as Hin.
    { intros r Hc.
      apply (fieldErrors_incl f _ _ _ r (requiredMessage f) Hc).
      assert (fieldValue f (lookup_prop "email" props)
                (lookup_prop "password" props)
                (if r then lookup_prop "username" props else VUndefined)
              = lookup_prop (fieldKey f) props) as ->.
      { destruct f; simpl in *; try reflexivity. rewrite Hc. reflexivity. }
      rewrite (fieldErrors_missing f _ Hm). left. reflexivity. }
    split.
    + eexists. split; [apply (Hin true); destruct f; reflexivity|].
      unfold register.
      erewrite register_check_invalid;
        [reflexivity|reflexivity|reflexivity|reflexivity
        |apply validateAuthPayload_eq|].
      intros E. pose proof (Hin true) as H. simpl in H. rewrite E in H.
      apply H. destruct f; reflexivity.
    + intros Hc. eexists. split; [apply (Hin false Hc)|].
      unfold login, login_try. cbn [get_prop bind].
      rewrite validateAuthPayload_eq. cbn [bind].
      pose proof (Hin false Hc) as H. simpl in H.
      destruct (emailErrors (lookup_prop "email" props)
                ++ passwordErrors (lookup_prop "password" props) ++ [])
        eqn:E; [destruct H|].
      reflexivity.
Qed.

End Validation.

Lemma password_trimmed_in_range_no_message_witness :
  exists errors,
    validateAuthPayload (VString (lit "a@b.com")) (VString (lit " password123 "))
      VUndefined false = Normal errors
    /\ messagesAbout "Password" errors = [].
Proof.
  apply (password_trimmed_in_range_no_message (lit " password123 ")).
  vm_compute. lia.
Defined.

(** C7, as it is worded, fails: a password of 10 code units of which 6
    remain once trimmed is reported as too short, and one of 8 spaces as
    missing. *)
Lemma password_untrimmed_length_counterexample :
  ((8 <= length (lit "  abcdef  ") <= 128)%nat
   /\ exists errors,
        validateAuthPayload (VString (lit "a@b.com")) (VString (lit "  abcdef  "))
          VUndefined false = Normal errors
        /\ messagesAbout "Password" errors
           = [lit "Password must be at least 8 characters long."])
  /\ ((8 <= length (lit "        ") <= 128)%nat
      /\ exists errors,
           validateAuthPayload (VString (lit "a@b.com")) (VString (lit "        "))
             VUndefined false = Normal errors
           /\ messagesAbout "Password" errors = [lit "Password is required."]).
Proof.
  split; (split; [vm_compute; lia|]);
    eexists; split; vm_compute; reflexivity.
Qed.

Lemma email_length_excludes_format_witness :
  exists errors,
    validateAuthPayload (VString (repeat 97 255)) (VString (lit "password123"))
      VUndefined false = Normal errors
    /\ messagesAbout "Email" errors
       = [lit "Email must be 254 characters or less."].
Proof.
  apply (proj1 email_length_excludes_format (repeat 97 255)).
  vm_compute. lia.
Defined.

Lemma missing_field_is_required_witness :
  exists errors,
    validateAuthPayload (VString (lit "a@b.com")) (VNumber 12345678)
      (VArray []) true = Normal errors
    /\ messagesAbout "Password" errors = [lit "Password is required."].
Proof.
  apply (proj1 (proj2 missing_field_is_required) Password); reflexivity.
Defined.

(** ** The uniqueness invariant of the users array *)

Section Invariant.
Import JsString JsStringFacts ValidationFacts HandlerFacts.

Variable ext : externals.
Variable JWT_SECRET : jsstring.
Hypothesis lowerCase_idem : lowerCaseIdempotent ext.
Hypothesis lowerCase_trim : lowerCaseKeepsTrim ext.

Lemma NoDup_snoc_In {A : Type} (l : list A) (x : A) :
  NoDup l -> ~ In x l -> NoDup (l ++ [x]).
Proof.
  intros Hl Hx. apply NoDup_app. split; [exact Hl|]. split.
  - intros y Hy Hy'. apply list_elem_of_singleton in Hy'. subst y.
    apply Hx, list_elem_of_In, Hy.
  - apply NoDup_singleton.
Qed.

(** What the handler holds when it suspends: the normalized fields of a
    request whose two lookups both missed. *)
Lemma register_check_pending_inv (users : list User.t) (reqBody : value)
    (p : pending) :
  register_check ext users reqBody = Normal (inr p) ->
  exists su se sp,
    get_prop reqBody "username" = Normal (VString su)
    /\ get_prop reqBody "email" = Normal (VString se)
    /\ get_prop reqBody "password" = Normal (VString sp)
    /\ validateAuthPayload (VString se) (VString sp) (VString su) true
       = Normal []
    /\ p = Pending (trim su) (toLowerCase ext (trim se)) (VString sp)
    /\ found (findByEmail ext users (toLowerCase ext (trim se))) = false
    /\ found (findByUsername ext users (trim su)) = false.
Proof.
  intros Hc. pose proof Hc as Hc0. unfold register_check in Hc.
  destruct (get_prop reqBody "username") as [username|] eqn:Hu; [|discriminate].
  destruct (get_prop reqBody "email") as [email|] eqn:He; [|discriminate].
  destruct (get_prop reqBody "password") as [password|] eqn:Hp; [|discriminate].
  cbn [bind] in Hc.
  destruct (validateAuthPayload email password username true)
    as [errors|] eqn:Hv; [|discriminate].
  cbn [bind] in Hc.
  destruct errors as [|m errors]; [|discriminate].
  destruct (validateAuthPayload_nil_inv _ _ _ _ Hv)
    as ((se & -> & _) & (sp & -> & _) & Hsu).
  destruct (Hsu eq_refl) as (su & -> & _).
  exists su, se, sp.
  rewrite (register_check_valid ext users reqBody su se (VString sp) Hu He Hp Hv)
    in Hc0.
  cbv zeta in Hc0.
  destruct (found (findByEmail ext users (toLowerCase ext (trim se))));
    destruct (found (findByUsername ext users (trim su)));
    simpl in Hc0; try discriminate.
  injection Hc0 as <-. repeat split; first [assumption|reflexivity].
Qed.

Lemma register_preserves (users : list User.t) (reqBody : value)
    (w : ambient) :
  storedNormalized ext users /\ uniqueAccounts ext users ->
  storedNormalized ext (fst (register ext users reqBody w))
  /\ uniqueAccounts ext (fst (register ext users reqBody w)).
Proof.
  intros [Hn [Hue Huu]].
  destruct (register_cases ext users reqBody w)
    as [(res & -> & _)|(p & h & Hc & _ & ->)]; [repeat split; assumption|].
  unfold storedNormalized in *.
  destruct (register_check_pending_inv users reqBody p Hc)
    as (su & se & sp & _ & _ & _ & _ & -> & Hfe & Hfu).
  cbn [fst normalizedUsername normalizedEmail].
  assert (toLowerCase ext (trim (toLowerCase ext (trim se))) = toLowerCase ext (trim se))
    as Hse by (rewrite lowerCase_trim, trim_idem, lowerCase_idem; reflexivity).
  split; [|split].
  - apply Forall_app. split; [exact Hn|].
    constructor; [|constructor]. cbn [User.email User.username].
    split; [exact Hse|apply trim_idem].
  - rewrite map_app. apply NoDup_snoc_In; [exact Hue|].
    cbn [map normalizedEmailOf]. unfold normalizedEmailOf at 1.
    cbn [User.email]. rewrite Hse.
    intros Hin. apply in_map_iff in Hin. destruct Hin as (a & Ha & Hin).
    assert (found (findByEmail ext users (toLowerCase ext (trim se))) = true) as Hf.
    { apply found_findByEmail. exists a. split; [exact Hin|].
      rewrite List.Forall_forall in Hn. destruct (Hn a Hin) as [Hna _].
      unfold normalizedEmailOf in Ha. rewrite Hna in Ha.
      rewrite Ha. apply lowerCase_idem. }
    congruence.
  - rewrite map_app. apply NoDup_snoc_In; [exact Huu|].
    cbn [map normalizedUsernameOf]. unfold normalizedUsernameOf at 1.
    cbn [User.username]. rewrite trim_idem.
    intros Hin. apply in_map_iff in Hin. destruct Hin as (b & Hb & Hin).
    assert (found (findByUsername ext users (trim su)) = true) as Hf.
    { apply found_findByUsername. exists b. split; [exact Hin|].
      rewrite List.Forall_forall in Hn. destruct (Hn b Hin) as [_ Hnb].
      unfold normalizedUsernameOf in Hb. rewrite Hnb in Hb. exact Hb. }
    congruence.
Qed.

Lemma handle_preserves (users : list User.t) (rq : request * ambient) :
  storedNormalized ext users /\ uniqueAccounts ext users ->
  storedNormalized ext (fst (handle ext JWT_SECRET users rq))
  /\ uniqueAccounts ext (fst (handle ext JWT_SECRET users rq)).
Proof.
  destruct rq as [[reqBody|reqBody|] w]; simpl.
  - apply register_preserves.
  - auto.
  - auto.
Qed.

Lemma run_preserves (rqs : list (request * ambient)) (users : list User.t) :
  storedNormalized ext users /\ uniqueAccounts ext users ->
  storedNormalized ext (run ext JWT_SECRET users rqs)
  /\ uniqueAccounts ext (run ext JWT_SECRET users rqs).
Proof.
  revert users. induction rqs as [|rq rqs IH]; intros users H; simpl.
  - exact H.
  - apply IH, handle_preserves, H.
Qed.

(** Requests that do not overlap keep the accounts unique.  After any
    sequence of registration and login requests, each served in full
    before the next, starting from the empty array, no two accounts share a
    normalized email and no two share a username up to case; and one more
    request keeps it so.  The handlers of requests that overlap do not:
    see [users_not_unique_after_overlap]. *)
Lemma users_stay_unique_in_sequence (rqs : list (request * ambient))
    (rq : request * ambient) :
  let users := run ext JWT_SECRET [] rqs in
  uniqueAccounts ext users
  /\ uniqueAccounts ext (fst (handle ext JWT_SECRET users rq)).
Proof.
  intros users.
  assert (storedNormalized ext users /\ uniqueAccounts ext users) as H.
  { apply run_preserves. repeat split; constructor. }
  split; [apply H|apply handle_preserves, H].
Qed.

End Invariant.

(** ** The lookup by email *)

Section Lookup.
Import JsString JsStringFacts ValidationFacts HandlerFacts.

Variable ext : externals.
Variable JWT_SECRET : jsstring.

(** The lookup returns the first account that has the email. *)
Lemma findByEmail_first (users more : list User.t) (a : User.t)
    (ne : jsstring) :
  found (findByEmail ext users ne) = false ->
  toLowerCase ext (User.email a) = ne ->
  findByEmail ext (users ++ a :: more) ne = Some a.
Proof.
  unfold findByEmail. intros Hf Ha.
  induction users as [|u users IH]; simpl in *.
  - rewrite bool_decide_eq_true_2 by exact Ha. reflexivity.
  - destruct (bool_decide (toLowerCase ext (User.email u) = ne)); [discriminate|].
    apply IH, Hf.
Qed.

End Lookup.

(** C9, as it is worded, fails: an address that is accepted at registration
    may have a lower-case form that is longer than 254 code units; logging
    in with that form, which normalizes to the stored email, is refused by
    validation although the password is right. *)
Lemma login_same_normalized_email_counterexample :
  length LongEmail.registeredEmail = 254%nat
  /\ length LongEmail.loginEmail = 255%nat
  /\ register TestDouble.ext [] LongEmail.registerBody TestDouble.w
     = ([LongEmail.account], registered)
  /\ toLowerCase TestDouble.ext (JsString.trim LongEmail.loginEmail)
     = toLowerCase TestDouble.ext (JsString.trim LongEmail.registeredEmail)
  /\ bcrypt_compare TestDouble.ext (VString (lit "password123"))
       (User.passwordHash LongEmail.account) = Normal true
  /\ login TestDouble.ext TestDouble.secret [LongEmail.account]
       (LongEmail.loginBody LongEmail.registeredEmail) TestDouble.w
     = loggedIn (lit "token-for-alice")
  /\ login TestDouble.ext TestDouble.secret [LongEmail.account]
       (LongEmail.loginBody LongEmail.loginEmail) TestDouble.w
     = validationFailed [lit "Email must be 254 characters or less."].
Proof. repeat split; vm_compute; reflexivity. Qed.

(** ** What a successful login signs *)

Section LoginSuccess.
Import JsString ValidationFacts HandlerFacts.

Variable JWT_SECRET : jsstring.

(** A login answered with 200 carries the token that [jwt.sign] returned
    for the payload [{ id, username, email }] of the account found by the
    normalized email, whose hash verified the password; the options are
    [{ expiresIn: "1h" }] and the secret is the process's. *)
Lemma login_success_inv (ext : externals) (users : list User.t)
    (reqBody : value) (w : ambient) :
  status (login ext JWT_SECRET users reqBody w) = 200%Z ->
  exists se password user token,
    get_prop reqBody "email" = Normal (VString se)
    /\ get_prop reqBody "password" = Normal password
    /\ findByEmail ext users (toLowerCase ext (trim se)) = Some user
    /\ bcrypt_compare ext password (User.passwordHash user) = Normal true
    /\ jwt_sign ext
         (VObject [("id", VNumber (User.id user));
                   ("username", VString (User.username user));
                   ("email", VString (User.email user))]%string)
         JWT_SECRET
         (VObject [("expiresIn", VString (lit "1h"))]%string)
         (now w) = Normal token
    /\ login ext JWT_SECRET users reqBody w = loggedIn token.
Proof.
  unfold login, login_try.
  destruct (get_prop reqBody "email") as [email|] eqn:He;
    [|simpl; discriminate].
  destruct (get_prop reqBody "password") as [password|] eqn:Hp;
    [|simpl; discriminate].
  cbn [bind].
  destruct (validateAuthPayload email password VUndefined false)
    as [errors|] eqn:Hv; [|simpl; discriminate].
  cbn [bind].
  destruct errors as [|m errors]; [|simpl; discriminate].
  destruct (validateAuthPayload_nil_inv _ _ _ _ Hv) as ((se & -> & _) & _).
  cbn [method_trim bind Nat.ltb Nat.leb length].
  destruct (findByEmail ext users (toLowerCase ext (trim se))) as [user|] eqn:Hf;
    [|simpl; discriminate].
  destruct (bcrypt_compare ext password (User.passwordHash user))
    as [[|]|] eqn:Hc; cbn [bind negb]; try (simpl; discriminate).
  destruct (jwt_sign ext _ JWT_SECRET _ (now w)) as [token|] eqn:Hs;
    cbn [bind]; [|simpl; discriminate].
  intros _. exists se, password, user, token. repeat split; assumption.
Qed.

Variable ext : externals.

(** C4.  With the token primitive as the specification describes it, every
    login answered with 200 returns a token whose claims are exactly the
    [id], [username] and [email] of the account that was found by the
    normalized email and whose hash verified the password, in this order
    and with no other property; it is issued at the time of the request
    and expires 3600000 ms later; verified with the process's secret it
    yields exactly those claims before its expiry and nothing from then
    on. *)
Theorem login_token_claims (show : Token.t -> jsstring)
    (users : list User.t) (reqBody : value) (w : ambient) :
  status (login (withToken show ext) JWT_SECRET users reqBody w) = 200%Z ->
  exists se password user token,
    get_prop reqBody "email" = Normal (VString se)
    /\ get_prop reqBody "password" = Normal password
    /\ findByEmail ext users (toLowerCase ext (trim se)) = Some user
    /\ bcrypt_compare ext password (User.passwordHash user) = Normal true
    /\ login (withToken show ext) JWT_SECRET users reqBody w
       = loggedIn (show token)
    /\ Token.claims token
       = VObject [("id", VNumber (User.id user));
                  ("username", VString (User.username user));
                  ("email", VString (User.email user))]%string
    /\ Token.issuedAt token = now w
    /\ Token.expiresAt token = (now w + 3600000)%Z
    /\ forall time,
         Token.verify token JWT_SECRET time
         = if (time <? now w + 3600000)%Z
           then Some (VObject [("id", VNumber (User.id user));
                               ("username", VString (User.username user));
                               ("email", VString (User.email user))]%string)
           else None.
Proof.
  intros Hs.
  destruct (login_success_inv (withToken show ext) users reqBody w Hs)
    as (se & password & user & token & He & Hp & Hf & Hc & Hsign & Hl).
  cbn [withToken jwt_sign bcrypt_compare] in Hc, Hsign.
  unfold Token.sign in Hsign.
  change (Token.lifetime (VObject [("expiresIn", VString (lit "1h"))]%string))
    with (Some 3600000%Z) in Hsign.
  injection Hsign as <-.
  eexists se, password, user, _.
  repeat split; try eassumption; try reflexivity.
  intros time. unfold Token.verify. cbn [Token.signedWith Token.expiresAt Token.claims].
  rewrite bool_decide_eq_true_2 by reflexivity. reflexivity.
Qed.

End LoginSuccess.

Lemma login_token_claims_witness :
  exists se password user token,
    get_prop (TestDouble.body2 " A@B.com " "password123") "email"
    = Normal (VString se)
    /\ get_prop (TestDouble.body2 " A@B.com " "password123") "password"
       = Normal password
    /\ findByEmail TestDouble.ext TestDouble.twoUsers
         (toLowerCase TestDouble.ext (JsString.trim se)) = Some user
    /\ bcrypt_compare TestDouble.ext password (User.passwordHash user)
       = Normal true
    /\ login (withToken (fun _ => lit "a.b.c") TestDouble.ext) TestDouble.secret
         TestDouble.twoUsers (TestDouble.body2 " A@B.com " "password123")
         TestDouble.w
       = loggedIn ((fun _ => lit "a.b.c") token)
    /\ Token.claims token
       = VObject [("id", VNumber (User.id user));
                  ("username", VString (User.username user));
                  ("email", VString (User.email user))]%string
    /\ Token.issuedAt token = now TestDouble.w
    /\ Token.expiresAt token = (now TestDouble.w + 3600000)%Z
    /\ forall time,
         Token.verify token TestDouble.secret time
         = if (time <? now TestDouble.w + 3600000)%Z
           then Some (VObject [("id", VNumber (User.id user));
                               ("username", VString (User.username user));
                               ("email", VString (User.email user))]%string)
           else None.
Proof.
  apply (login_token_claims TestDouble.secret TestDouble.ext
           (fun _ => lit "a.b.c") TestDouble.twoUsers
           (TestDouble.body2 " A@B.com " "password123") TestDouble.w).
  vm_compute. reflexivity.
Defined.

(** ** Start-up *)

Section Startup.

Variable ext : externals.

(** C6.  When [JWT_SECRET] is absent from the environment, the process
    exits with code 1 and answers no request.  Whenever the server does
    listen, its secret is the one the environment holds, which is not
    empty: there is no default.  Every exit of the start-up has a
    non-zero code. *)
Theorem startup_requires_secret (env : gmap string jsstring)
    (rqs : list (request * ambient)) :
  (env !! "JWT_SECRET"%string = None ->
     startup env = Exited 1 /\ main ext env rqs = (Exited 1, []))
  /\ (forall PORT secret,
        startup env = Listening PORT secret ->
        env !! "JWT_SECRET"%string = Some secret /\ secret <> []
        /\ main ext env rqs = (Listening PORT secret, serve ext secret [] rqs))
  /\ (forall code, startup env = Exited code -> code <> 0%Z).
Proof.
  unfold main, startup, env_get.
  destruct (env !! "JWT_SECRET"%string) as [secret|] eqn:E.
  - destruct secret as [|c secret]; simpl.
    + repeat split; try discriminate.
      intros code H. injection H as <-. discriminate.
    + repeat split; try discriminate.
      * injection H as _ <-. reflexivity.
      * injection H as _ <-. discriminate.
      * injection H as <- <-. reflexivity.
  - simpl. repeat split; try discriminate.
    intros code H. injection H as <-. discriminate.
Qed.

End Startup.

Lemma startup_requires_secret_witness :
  startup {[ "PORT"%string := lit "3000" ]} = Exited 1
  /\ main TestDouble.ext {[ "PORT"%string := lit "3000" ]}
       [(PostLogin (TestDouble.body2 "a@b.com" "password123"), TestDouble.w)]
     = (Exited 1, []).
Proof.
  apply (proj1 (startup_requires_secret TestDouble.ext
                  {[ "PORT"%string := lit "3000" ]}
                  [(PostLogin (TestDouble.body2 "a@b.com" "password123"),
                    TestDouble.w)])).
  apply lookup_singleton_ne. discriminate.
Defined.

(** * Further properties of the server *)

(** ** The validation routine as a whole *)

Section ValidationRules.
Import JsString JsStringFacts ValidationFacts HandlerFacts.

Lemma blockErrors_nil (required first second : jsstring)
    (c1 c2 : jsstring -> bool) (s : jsstring) :
  trim s <> [] -> c1 (trim s) = false -> c2 (trim s) = false ->
  blockErrors required first second c1 c2 (VString s) = [].
Proof.
  intros Hne H1 H2. simpl. destruct (trim s) as [|c t]; [congruence|].
  rewrite H1, H2. reflexivity.
Qed.

Lemma blockErrors_trimmed (required first second : jsstring)
    (c1 c2 : jsstring -> bool) (v : value) :
  blockErrors required first second c1 c2 (trimmed v)
  = blockErrors required first second c1 c2 v.
Proof.
  destruct v; try reflexivity. simpl. rewrite trim_idem. reflexivity.
Qed.

(** X1.  The routine accepts a payload (returns the empty list) exactly
    when the email is a string whose trimmed form has 1 to 254 code units
    and matches the pattern, the password is a string whose trimmed form
    has 8 to 128 code units and, where the username is required, the
    username is a string whose trimmed form has 3 to 30 code units. *)
Theorem validation_accepts_iff
    (email password username : value) (requireUsername : bool) :
  validateAuthPayload email password username requireUsername = Normal []
  <->
  (exists se, email = VString se
              /\ (1 <= length (trim se) <= 254)%nat
              /\ Regex.test emailRegex (trim se) = true)
  /\ (exists sp, password = VString sp
                 /\ (8 <= length (trim sp) <= 128)%nat)
  /\ (requireUsername = true ->
      exists su, username = VString su
                 /\ (3 <= length (trim su) <= 30)%nat).
Proof.
  split.
  - intros H. apply validateAuthPayload_nil_inv in H.
    destruct H as ((se & -> & Hne & Hl & Hr) & Hp & Hu).
    split; [|split; assumption].
    exists se. split; [reflexivity|]. split; [|exact Hr].
    destruct (trim se); [congruence|simpl in *; lia].
  - intros ((se & -> & Hl & Hr) & (sp & -> & Hp) & Hu).
    rewrite validateAuthPayload_eq. f_equal.
    unfold emailErrors, passwordErrors.
    rewrite blockErrors_nil; cycle 1.
    { intros E. rewrite E in Hl. simpl in Hl. lia. }
    { apply Nat.ltb_ge. lia. }
    { rewrite Hr. reflexivity. }
    rewrite blockErrors_nil; cycle 1.
    { intros E. rewrite E in Hp. simpl in Hp. lia. }
    { apply Nat.ltb_ge. lia. }
    { apply Nat.ltb_ge. lia. }
    destruct requireUsername; [|reflexivity].
    destruct (Hu eq_refl) as (su & -> & Hsu).
    unfold usernameErrors. rewrite blockErrors_nil; [reflexivity| | |].
    { intros E. rewrite E in Hsu. simpl in Hsu. lia. }
    { apply Nat.ltb_ge. lia. }
    { apply Nat.ltb_ge. lia. }
Qed.

(** X2.  White space around a field does not change what the routine
    reports: the list for a payload is the list for the payload with each
    string field trimmed. *)
Theorem validation_ignores_padding
    (email password username : value) (requireUsername : bool) :
  validateAuthPayload email password username requireUsername
  = validateAuthPayload (trimmed email) (trimmed password) (trimmed username)
      requireUsername.
Proof.
  rewrite !validateAuthPayload_eq.
  unfold emailErrors, passwordErrors, usernameErrors.
  rewrite !blockErrors_trimmed. reflexivity.
Qed.

(** X3.  The list holds at most one message per field, the email's first,
    then the password's, then the username's, and nothing else.  The
    fields are checked independently and every message is collected: the
    messages about a field are the same whatever the other fields hold, and
    a checked field is without a message exactly when the field itself
    passes.  So a failing field does not stop the later fields from being
    checked.  Without [requireUsername] there is never a message about the
    username. *)
Theorem validation_one_message_per_field
    (email password username : value) (requireUsername : bool) :
  exists errors,
    validateAuthPayload email password username requireUsername
    = Normal errors
    /\ errors = messagesAbout "Email" errors ++ messagesAbout "Password" errors
                ++ messagesAbout "Username" errors
    /\ (length (messagesAbout "Email" errors) <= 1)%nat
    /\ (length (messagesAbout "Password" errors) <= 1)%nat
    /\ (length (messagesAbout "Username" errors) <= 1)%nat
    /\ (requireUsername = false -> messagesAbout "Username" errors = [])
    /\ (forall email' password' username' errors',
          validateAuthPayload email' password' username' requireUsername
          = Normal errors' ->
          (email' = email ->
           messagesAbout "Email" errors' = messagesAbout "Email" errors)
          /\ (password' = password ->
              messagesAbout "Password" errors'
              = messagesAbout "Password" errors)
          /\ (username' = username ->
              messagesAbout "Username" errors'
              = messagesAbout "Username" errors))
    /\ (messagesAbout "Email" errors = []
        <-> exists se, email = VString se
                       /\ (1 <= length (trim se) <= 254)%nat
                       /\ Regex.test emailRegex (trim se) = true)
    /\ (messagesAbout "Password" errors = []
        <-> exists sp, password = VString sp
                       /\ (8 <= length (trim sp) <= 128)%nat)
    /\ (requireUsername = true ->
        (messagesAbout "Username" errors = []
         <-> exists su, username = VString su
                        /\ (3 <= length (trim su) <= 30)%nat)).
Proof.
  eexists. split; [apply validateAuthPayload_eq|].
  rewrite (messagesAbout_errors Email), (messagesAbout_errors Password),
    (messagesAbout_errors Username).
  cbn [checked fieldErrors fieldValue fieldName].
  assert (forall r a b c1 c2 v,
             (length (blockErrors r a b c1 c2 v) <= 1)%nat) as Hlen.
  { intros r a b c1 c2 v.
    destruct (blockErrors_cases r a b c1 c2 v) as [E|[E|[E|E]]];
      simpl in E; rewrite E; simpl; lia. }
  split; [reflexivity|].
  split; [apply Hlen|]. split; [apply Hlen|].
  split; [destruct requireUsername; [apply Hlen|simpl; lia]|].
  split; [intros ->; reflexivity|].
  split.
  { intros email' password' username' errors' Hv'.
    rewrite validateAuthPayload_eq in Hv'.
    assert (errors' = emailErrors email' ++ passwordErrors password'
                      ++ (if requireUsername then usernameErrors username'
                          else [])) as -> by congruence.
    rewrite (messagesAbout_errors Email), (messagesAbout_errors Password),
      (messagesAbout_errors Username).
    cbn [checked fieldErrors fieldValue fieldName].
    split; [|split]; intros ->; reflexivity. }
  split.
  { unfold emailErrors. split.
    - intros H. apply blockErrors_nil_inv in H.
      destruct H as (se & -> & Hne & Hl & Hr). exists se.
      split; [reflexivity|].
      apply Nat.ltb_ge in Hl. apply negb_false_iff in Hr.
      split; [|exact Hr]. destruct (trim se); [congruence|simpl in *; lia].
    - intros (se & -> & Hl & Hr). apply blockErrors_nil.
      + intros E. rewrite E in Hl. simpl in Hl. lia.
      + apply Nat.ltb_ge. lia.
      + rewrite Hr. reflexivity. }
  split.
  { unfold passwordErrors. split.
    - intros H. apply blockErrors_nil_inv in H.
      destruct H as (sp & -> & _ & Hl1 & Hl2). exists sp.
      split; [reflexivity|].
      apply Nat.ltb_ge in Hl1. apply Nat.ltb_ge in Hl2. lia.
    - intros (sp & -> & Hl). apply blockErrors_nil.
      + intros E. rewrite E in Hl. simpl in Hl. lia.
      + apply Nat.ltb_ge. lia.
      + apply Nat.ltb_ge. lia. }
  intros ->. unfold usernameErrors. split.
  - intros H. apply blockErrors_nil_inv in H.
    destruct H as (su & -> & _ & Hl1 & Hl2). exists su.
    split; [reflexivity|].
    apply Nat.ltb_ge in Hl1. apply Nat.ltb_ge in Hl2. lia.
  - intros (su & -> & Hl). apply blockErrors_nil.
    + intros E. rewrite E in Hl. simpl in Hl. lia.
    + apply Nat.ltb_ge. lia.
    + apply Nat.ltb_ge. lia.
Qed.

(** The messages a length-checked field can get, from its bounds. *)
Lemma blockErrors_lengths (required short long : jsstring) (lo hi : nat)
    (v : value) :
  required <> short -> required <> long -> short <> long ->
  (lo <= hi)%nat ->
  let l := blockErrors required short long
             (fun t => (length t <? lo)%nat) (fun t => (hi <? length t)%nat) v in
  (l = [required] <-> missing v = true)
  /\ (l = [short] <->
      exists s, v = VString s /\ (1 <= length (trim s) < lo)%nat)
  /\ (l = [long] <-> exists s, v = VString s /\ (hi < length (trim s))%nat)
  /\ (l = [] <-> exists s, v = VString s /\ (lo <= length (trim s) <= hi)%nat
                           /\ (1 <= length (trim s))%nat).
Proof.
  intros Hrs Hrl Hsl Hlohi l. subst l.
  destruct v as [| |b|n|s|a|o]; cbn [blockErrors missing];
    try ((split; [|split; [|split]]); (split; intros Hrow);
         first [ reflexivity
               | discriminate
               | (injection Hrow; congruence)
               | (destruct Hrow as (s0 & Hrow & _); discriminate) ]).
  destruct (trim s) as [|c t] eqn:E.
  - (split; [|split; [|split]]); (split; intros Hrow);
      first [ reflexivity
            | discriminate
            | (injection Hrow; congruence)
            | (destruct Hrow as (s0 & Hrow & Hl); injection Hrow as <-;
               rewrite E in Hl; simpl in Hl; lia) ].
  - cbv beta.
    assert (forall P : nat -> Prop,
               (exists s0, VString s = VString s0 /\ P (length (trim s0)))
               <-> P (length (c :: t))) as Hex.
    { intros P. split.
      - intros (s0 & H & HP). injection H as <-. rewrite E in HP. exact HP.
      - intros HP. exists s. rewrite E. auto. }
    rewrite (Hex (fun n => (1 <= n < lo)%nat)),
      (Hex (fun n => (hi < n)%nat)),
      (Hex (fun n => (lo <= n <= hi)%nat /\ (1 <= n)%nat)).
    assert (1 <= length (c :: t))%nat as Hpos by (simpl; lia).
    destruct (Nat.ltb_spec (length (c :: t)) lo) as [H1|H1];
      [|destruct (Nat.ltb_spec hi (length (c :: t))) as [H2|H2]];
      (split; [|split; [|split]]); (split; intros Hrow);
      first [ reflexivity
            | discriminate
            | (injection Hrow; congruence)
            | lia ].
Qed.

(** X4.  The password's message, from the length of its trimmed form:
    "is required." when the field is missing, "at least 8" for 1 to 7 code
    units, "128 or less" for more than 128, and none for 8 to 128. *)
Theorem password_rules
    (email password username : value) (requireUsername : bool) :
  exists errors,
    validateAuthPayload email password username requireUsername
    = Normal errors
    /\ (messagesAbout "Password" errors = [lit "Password is required."]
        <-> missing password = true)
    /\ (messagesAbout "Password" errors
        = [lit "Password must be at least 8 characters long."]
        <-> exists s, password = VString s /\ (1 <= length (trim s) < 8)%nat)
    /\ (messagesAbout "Password" errors
        = [lit "Password must be 128 characters or less."]
        <-> exists s, password = VString s /\ (128 < length (trim s))%nat)
    /\ (messagesAbout "Password" errors = []
        <-> exists s, password = VString s
                      /\ (8 <= length (trim s) <= 128)%nat).
Proof.
  eexists. split; [apply validateAuthPayload_eq|].
  rewrite (messagesAbout_errors Password).
  cbn [checked fieldErrors fieldValue]. unfold passwordErrors.
  destruct (blockErrors_lengths (lit "Password is required.")
              (lit "Password must be at least 8 characters long.")
              (lit "Password must be 128 characters or less.") 8 128 password)
    as (H1 & H2 & H3 & H4); try (vm_compute; discriminate); [lia|].
  split; [exact H1|]. split; [exact H2|]. split; [exact H3|].
  rewrite H4. split.
  - intros (s & -> & Hl & _). eauto.
  - intros (s & -> & Hl). exists s. split; [reflexivity|lia].
Qed.

(** X5.  Where the username is required, its message, from the length of
    its trimmed form: "is required." when the field is missing, "at least
    3" for 1 or 2 code units, "30 or less" for more than 30, and none for
    3 to 30. *)
Theorem username_rules (email password username : value) :
  exists errors,
    validateAuthPayload email password username true = Normal errors
    /\ (messagesAbout "Username" errors = [lit "Username is required."]
        <-> missing username = true)
    /\ (messagesAbout "Username" errors
        = [lit "Username must be at least 3 characters long."]
        <-> exists s, username = VString s /\ (1 <= length (trim s) < 3)%nat)
    /\ (messagesAbout "Username" errors
        = [lit "Username must be 30 characters or less."]
        <-> exists s, username = VString s /\ (30 < length (trim s))%nat)
    /\ (messagesAbout "Username" errors = []
        <-> exists s, username = VString s
                      /\ (3 <= length (trim s) <= 30)%nat).
Proof.
  eexists. split; [apply validateAuthPayload_eq|].
  rewrite (messagesAbout_errors Username).
  cbn [checked fieldErrors fieldValue]. unfold usernameErrors.
  destruct (blockErrors_lengths (lit "Username is required.")
              (lit "Username must be at least 3 characters long.")
              (lit "Username must be 30 characters or less.") 3 30 username)
    as (H1 & H2 & H3 & H4); try (vm_compute; discriminate); [lia|].
  split; [exact H1|]. split; [exact H2|]. split; [exact H3|].
  rewrite H4. split.
  - intros (s & -> & Hl & _). eauto.
  - intros (s & -> & Hl). exists s. split; [reflexivity|lia].
Qed.

End ValidationRules.

(** ** The handlers on their successful and exceptional paths *)

Section HandlerRules.
Import JsString JsStringFacts ValidationFacts HandlerFacts.

Variable ext : externals.
Variable JWT_SECRET : jsstring.

Lemma get_prop_cases (body : value) (key : string) :
  ((body = VUndefined \/ body = VNull) /\ get_prop body key = Throw TypeError)
  \/ (body <> VUndefined /\ body <> VNull
      /\ get_prop body key = Normal (propOf body key)).
Proof.
  destruct body; simpl; auto; right; repeat split; discriminate.
Qed.

(** [POST /register] throws before its [await] only on a missing body. *)
Lemma register_check_throw_iff (users : list User.t) (reqBody : value) :
  (exists e, register_check ext users reqBody = Throw e)
  <-> reqBody = VUndefined \/ reqBody = VNull.
Proof.
  unfold register_check.
  destruct (get_prop_cases reqBody "username") as [[Hb ->]|(H1 & H2 & ->)].
  { cbn [bind]. split; [auto|eauto]. }
  destruct (get_prop_cases reqBody "email") as [[Hb E]|(_ & _ & ->)];
    [tauto|].
  destruct (get_prop_cases reqBody "password") as [[Hb E]|(_ & _ & ->)];
    [tauto|].
  cbn [bind].
  destruct (validateAuthPayload (propOf reqBody "email")
              (propOf reqBody "password") (propOf reqBody "username") true)
    as [errors|e] eqn:Hv.
  2:{ rewrite validateAuthPayload_eq in Hv. discriminate. }
  cbn [bind]. split; [|tauto]. intros [e He]. exfalso.
  destruct errors as [|m errors]; [|discriminate].
  destruct (validateAuthPayload_nil_inv _ _ _ _ Hv)
    as ((se & Ee & _) & _ & Hsu).
  destruct (Hsu eq_refl) as (su & Eu & _).
  rewrite Ee, Eu in He. cbn in He.
  repeat match type of He with
         | (if ?b then _ else _) = _ => destruct b
         end; discriminate.
Qed.

(** X6.  A registration that passes validation, served with no other
    request between its lookups and its push, is answered with 201 exactly
    when no stored account has its normalized email, none has its username
    up to case, and [bcrypt.hash] returns; it then appends one account,
    after all the others, with the next id, the trimmed username, the
    trimmed and lower-cased email, the hash of the password as it was
    sent, and the time of the push. *)
Theorem register_creates_account
    (users : list User.t) (reqBody : value) (w : ambient)
    (su se : jsstring) (password : value) :
  get_prop reqBody "username" = Normal (VString su) ->
  get_prop reqBody "email" = Normal (VString se) ->
  get_prop reqBody "password" = Normal password ->
  validateAuthPayload (VString se) password (VString su) true = Normal [] ->
  let emailTaken :=
    exists a, In a users
              /\ toLowerCase ext (User.email a) = toLowerCase ext (trim se) in
  let usernameTaken :=
    exists b, In b users
              /\ toLowerCase ext (User.username b) = toLowerCase ext (trim su) in
  (status (snd (register ext users reqBody w)) = 201%Z
   <-> ~ emailTaken /\ ~ usernameTaken
       /\ exists passwordHash,
            bcrypt_hash ext password 10 (salt w) = Normal passwordHash)
  /\ (forall passwordHash,
        ~ emailTaken -> ~ usernameTaken ->
        bcrypt_hash ext password 10 (salt w) = Normal passwordHash ->
        register ext users reqBody w
        = (users ++ [User.mk (Z.of_nat (length users) + 1) (trim su)
                       (toLowerCase ext (trim se)) passwordHash
                       (toISOString ext (now w))],
           registered)).
Proof.
  intros Hu He Hp Hv emailTaken usernameTaken.
  unfold register.
  rewrite (register_check_valid ext users reqBody su se password Hu He Hp Hv).
  cbv zeta.
  pose proof (found_findByEmail ext users (toLowerCase ext (trim se))) as HE.
  pose proof (found_findByUsername ext users (trim su)) as HU.
  fold emailTaken in HE. fold usernameTaken in HU.
  destruct (found (findByEmail ext users (toLowerCase ext (trim se)))) eqn:Fe;
    destruct (found (findByUsername ext users (trim su))) eqn:Fu; simpl.
  1-3: split;
       [split; [discriminate|intros (H1 & H2 & _); exfalso; tauto]
       |intros h H1 H2; exfalso; tauto].
  assert (~ emailTaken) as Ne by (rewrite <- HE; discriminate).
  assert (~ usernameTaken) as Nu by (rewrite <- HU; discriminate).
  destruct (bcrypt_hash ext password 10 (salt w)) as [h|e] eqn:Hh; simpl.
  - split; [split; eauto|].
    intros h' _ _ E. injection E as <-. reflexivity.
  - split; [split; [discriminate|intros (_ & _ & h & E); discriminate]|].
    intros h _ _ E. discriminate.
Qed.

(** An account that is in the array is there after any further requests. *)
(** X8.  [POST /register] answers 500 in two cases only: the request has no
    body to read the fields from, or the payload passed validation and both
    lookups, and then [bcrypt.hash] threw.  A field of any kind in a body never
    leads to 500. *)
Theorem register_unexpected_iff
    (users : list User.t) (reqBody : value) (w : ambient) :
  status (snd (register ext users reqBody w)) = 500%Z
  <-> (reqBody = VUndefined \/ reqBody = VNull)
      \/ (exists su se sp e,
            get_prop reqBody "username" = Normal (VString su)
            /\ get_prop reqBody "email" = Normal (VString se)
            /\ get_prop reqBody "password" = Normal (VString sp)
            /\ validateAuthPayload (VString se) (VString sp) (VString su) true
               = Normal []
            /\ found (findByEmail ext users (toLowerCase ext (trim se))) = false
            /\ found (findByUsername ext users (trim su)) = false
            /\ bcrypt_hash ext (VString sp) 10 (salt w) = Throw e).
Proof.
  split.
  - intros Hs. unfold register in Hs.
    destruct (register_check ext users reqBody) as [[res|p]|e] eqn:Hc.
    + exfalso. simpl in Hs.
      destruct (register_cases ext users reqBody w)
        as [(res' & E & _)|(p & h & Hc' & _)]; [|congruence].
      unfold register_check in Hc.
      destruct (get_prop reqBody "username") as [username|]; [|discriminate].
      destruct (get_prop reqBody "email") as [email|]; [|discriminate].
      destruct (get_prop reqBody "password") as [password|]; [|discriminate].
      cbn [bind] in Hc.
      destruct (validateAuthPayload email password username true)
        as [errors|]; [|discriminate].
      cbn [bind] in Hc.
      destruct (0 <? length errors)%nat.
      { injection Hc as <-. discriminate. }
      destruct (method_trim email); [|discriminate]. cbn [bind] in Hc.
      destruct (method_trim username); [|discriminate]. cbn [bind] in Hc.
      repeat match type of Hc with
             | (if ?b then _ else _) = _ => destruct b
             end; try discriminate; injection Hc as <-; discriminate.
    + right.
      destruct (register_check_pending_inv ext users reqBody p Hc)
        as (su & se & sp & Hu & He & Hp & Hv & -> & Hfe & Hfu).
      cbn [password] in Hs.
      destruct (bcrypt_hash ext (VString sp) 10 (salt w)) as [h|e] eqn:Hh;
        [simpl in Hs; discriminate|].
      exists su, se, sp, e. repeat split; assumption.
    + left. apply (register_check_throw_iff users). eauto.
  - intros [Hb|(su & se & sp & e & Hu & He & Hp & Hv & Hfe & Hfu & Hh)].
    + apply (register_check_throw_iff users) in Hb. destruct Hb as [e Hb].
      unfold register. rewrite Hb. reflexivity.
    + unfold register.
      rewrite (register_check_valid ext users reqBody su se (VString sp) Hu He Hp Hv).
      cbv zeta. rewrite Hfe, Hfu. cbn [andb password]. rewrite Hh. reflexivity.
Qed.

(** X9.  [POST /login] answers 200 with a token exactly when the payload
    passes validation, the lookup by the trimmed and lower-cased email
    finds an account, [bcrypt.compare] of the password as it was sent with
    that account's hash returns true, and [jwt.sign] returns that token for
    the account's id, username and email. *)
Theorem login_succeeds_iff
    (users : list User.t) (reqBody : value) (w : ambient) (token : jsstring) :
  login ext JWT_SECRET users reqBody w = loggedIn token
  <-> exists se password user,
        get_prop reqBody "email" = Normal (VString se)
        /\ get_prop reqBody "password" = Normal password
        /\ validateAuthPayload (VString se) password VUndefined false
           = Normal []
        /\ findByEmail ext users (toLowerCase ext (trim se)) = Some user
        /\ bcrypt_compare ext password (User.passwordHash user) = Normal true
        /\ jwt_sign ext (loginPayload user) JWT_SECRET
             (VObject [("expiresIn", VString (lit "1h"))]%string) (now w)
           = Normal token.
Proof.
  split.
  - intros Hl.
    assert (status (login ext JWT_SECRET users reqBody w) = 200%Z) as Hs
      by (rewrite Hl; reflexivity).
    destruct (login_success_inv JWT_SECRET ext users reqBody w Hs)
      as (se & password & user & token' & He & Hp & Hf & Hc & Hsign & Hl').
    rewrite Hl' in Hl. injection Hl as ->.
    exists se, password, user. repeat split; try assumption.
    unfold login, login_try in Hl'. rewrite He, Hp in Hl'. cbn [bind] in Hl'.
    destruct (validateAuthPayload (VString se) password VUndefined false)
      as [errors|] eqn:Hv; [|discriminate].
    destruct errors; [reflexivity|discriminate].
  - intros (se & password & user & He & Hp & Hv & Hf & Hc & Hsign).
    unfold login.
    rewrite (login_try_valid ext JWT_SECRET users reqBody w se password He Hp Hv).
    rewrite Hf. cbn [bind]. rewrite Hc. cbn [bind negb].
    unfold loginPayload in Hsign. rewrite Hsign. reflexivity.
Qed.

(** X10.  [POST /login] answers 500 in three cases only: the request has no
    body to read the fields from; [bcrypt.compare] threw for an account
    that was found; or the password verified and [jwt.sign] threw. *)
Theorem login_unexpected_iff
    (users : list User.t) (reqBody : value) (w : ambient) :
  status (login ext JWT_SECRET users reqBody w) = 500%Z
  <-> (reqBody = VUndefined \/ reqBody = VNull)
      \/ (exists se password user e,
            get_prop reqBody "email" = Normal (VString se)
            /\ get_prop reqBody "password" = Normal password
            /\ validateAuthPayload (VString se) password VUndefined false
               = Normal []
            /\ findByEmail ext users (toLowerCase ext (trim se)) = Some user
            /\ (bcrypt_compare ext password (User.passwordHash user) = Throw e
                \/ (bcrypt_compare ext password (User.passwordHash user)
                    = Normal true
                    /\ jwt_sign ext (loginPayload user) JWT_SECRET
                         (VObject [("expiresIn", VString (lit "1h"))]%string)
                         (now w) = Throw e))).
Proof.
  unfold login, login_try.
  destruct (get_prop_cases reqBody "email") as [[Hb ->]|(H1 & H2 & ->)].
  { cbn [bind]. split; [auto|reflexivity]. }
  destruct (get_prop_cases reqBody "password") as [[Hb E]|(_ & _ & ->)];
    [tauto|].
  cbn [bind]. rewrite validateAuthPayload_eq. cbn [bind].
  destruct (emailErrors (propOf reqBody "email")
            ++ passwordErrors (propOf reqBody "password") ++ []) as [|m errors] eqn:Herr.
  2:{ simpl. split; [discriminate|].
      intros [[Hb|Hb]|(se & password & user & e & He & Hp & Hv & _)];
        [tauto|tauto|].
      injection He as He. injection Hp as Hp.
      rewrite <- He, <- Hp, validateAuthPayload_eq, Herr in Hv. discriminate. }
  assert (validateAuthPayload (propOf reqBody "email")
            (propOf reqBody "password") VUndefined false = Normal []) as Hv
    by (rewrite validateAuthPayload_eq; f_equal; exact Herr).
  destruct (validateAuthPayload_nil_inv _ _ _ _ Hv) as ((se & Ee & _) & _).
  rewrite Ee in Hv. rewrite Ee. cbn [method_trim bind Nat.ltb Nat.leb length].
  split.
  - intros Hs. right.
    destruct (findByEmail ext users (toLowerCase ext (trim se))) as [user|] eqn:Hf;
      [|simpl in Hs; discriminate].
    destruct (bcrypt_compare ext (propOf reqBody "password")
                (User.passwordHash user)) as [[|]|e] eqn:Hc;
      cbn [bind negb] in Hs.
    + destruct (jwt_sign ext _ JWT_SECRET _ (now w)) as [token|e] eqn:Hsign;
        cbn [bind] in Hs; [simpl in Hs; discriminate|].
      exists se, (propOf reqBody "password"), user, e.
      split; [reflexivity|]. split; [reflexivity|]. split; [exact Hv|].
      split; [exact Hf|]. right. split; [exact Hc|exact Hsign].
    + simpl in Hs. discriminate.
    + exists se, (propOf reqBody "password"), user, e.
      split; [reflexivity|]. split; [reflexivity|]. split; [exact Hv|].
      split; [exact Hf|]. left. exact Hc.
  - intros [[Hb|Hb]|(se0 & password & user & e & He & Hp & _ & Hf & Hc)];
      [tauto|tauto|].
    injection He as <-. injection Hp as <-. rewrite Hf. cbn [bind].
    destruct Hc as [Hc|[Hc Hsign]]; rewrite Hc; cbn [bind negb];
      [reflexivity|].
    unfold loginPayload in Hsign. rewrite Hsign. reflexivity.
Qed.

(** X11.  White space around the email and the username of a request does
    not matter to either handler: a request and the same request with these
    two fields trimmed get the same response and leave the same array.
    (The password is compared and hashed as it was sent.) *)
Theorem handlers_ignore_padding
    (users : list User.t) (reqBody reqBody' : value) (w : ambient) :
  reqBody <> VUndefined -> reqBody <> VNull ->
  get_prop reqBody' "username" = Normal (trimmed (propOf reqBody "username")) ->
  get_prop reqBody' "email" = Normal (trimmed (propOf reqBody "email")) ->
  get_prop reqBody' "password" = Normal (propOf reqBody "password") ->
  register ext users reqBody' w = register ext users reqBody w
  /\ login ext JWT_SECRET users reqBody' w
     = login ext JWT_SECRET users reqBody w.
Proof.
  intros H1 H2 Hu' He' Hp'.
  assert (forall key, get_prop reqBody key = Normal (propOf reqBody key)) as Hg.
  { intros key. destruct (get_prop_cases reqBody key) as [[[Hb|Hb] _]|(_ & _ & E)];
      [contradiction|contradiction|exact E]. }
  assert (forall v, method_trim (trimmed v) = method_trim v) as Ht.
  { intros v. destruct v; try reflexivity. simpl. rewrite trim_idem. reflexivity. }
  assert (forall e p u r,
             validateAuthPayload (trimmed e) p (trimmed u) r
             = validateAuthPayload e p u r) as Hv.
  { intros e p u r. rewrite !validateAuthPayload_eq.
    unfold emailErrors, usernameErrors. rewrite !blockErrors_trimmed.
    reflexivity. }
  split.
  - unfold register, register_check.
    rewrite Hu', He', Hp', !Hg. cbn [bind]. rewrite Hv, !Ht. reflexivity.
  - unfold login, login_try.
    rewrite He', Hp', !Hg. cbn [bind].
    rewrite (Hv _ _ VUndefined false), Ht. reflexivity.
Qed.

End HandlerRules.

(** ** Requests that overlap *)

Section Overlap.
Import JsString JsStringFacts ValidationFacts HandlerFacts.

Variable ext : externals.
Variable JWT_SECRET : jsstring.

(** What a tick can do to the array: nothing, or push one account built by
    [register_store] from a registration that was waiting. *)
Lemma tickStep_stored (s : server) (t : tick) :
  stored (fst (tickStep ext JWT_SECRET s t)) = stored s
  \/ exists p h time,
       In p (suspended s)
       /\ stored (fst (tickStep ext JWT_SECRET s t))
          = stored s ++ [User.mk (Z.of_nat (length (stored s)) + 1)
                           (normalizedUsername p) (normalizedEmail p) h
                           (toISOString ext time)].
Proof.
  destruct t as [[reqBody|reqBody|] w|i w]; simpl; auto.
  - destruct (register_check ext (stored s) reqBody) as [[res|p]|e]; simpl; auto.
  - destruct (suspended s !! i) as [p|] eqn:Hi; simpl; auto.
    destruct (bcrypt_hash ext (password p) 10 (salt w)) as [h|e]; simpl; auto.
    right. exists p, h, (now w). split; [|reflexivity].
    apply list_elem_of_In. eapply list_elem_of_lookup_2. exact Hi.
Qed.

(** What a tick can do to the waiting registrations: nothing, add the one
    that just passed its checks, or remove one. *)
Lemma tickStep_suspended (s : server) (t : tick) (p : pending) :
  In p (suspended (fst (tickStep ext JWT_SECRET s t))) ->
  In p (suspended s)
  \/ exists reqBody, register_check ext (stored s) reqBody = Normal (inr p).
Proof.
  destruct t as [[reqBody|reqBody|] w|i w]; simpl; auto.
  - destruct (register_check ext (stored s) reqBody) as [[res|q]|e] eqn:Hc;
      simpl; auto.
    intros Hin. apply in_app_or in Hin. destruct Hin as [Hin|[<-|[]]]; eauto.
  - assert (In p (delete i (suspended s)) -> In p (suspended s)) as Hdel.
    { rewrite <- !list_elem_of_In. apply list_elem_of_delete_inv. }
    destruct (suspended s !! i) as [q|] eqn:Hi; simpl; auto.
    destruct (bcrypt_hash ext (password q) 10 (salt w)) as [h|e]; simpl; auto.
Qed.

(** X12.  Whatever requests arrive and however their handlers interleave,
    the account at position [i] of the array has id [i + 1]; so no two
    accounts share an id. *)
Theorem ids_are_positions (ts : list tick) :
  let users := stored (runTicks ext JWT_SECRET (Server [] []) ts) in
  (forall (i : nat) (u : User.t),
      users !! i = Some u -> User.id u = (Z.of_nat i + 1)%Z)
  /\ NoDup (map User.id users).
Proof.
  cbv zeta.
  assert (forall ts s,
             (forall (i : nat) u, stored s !! i = Some u ->
                                  User.id u = (Z.of_nat i + 1)%Z) ->
             forall (i : nat) u,
               stored (runTicks ext JWT_SECRET s ts) !! i = Some u ->
               User.id u = (Z.of_nat i + 1)%Z) as Hpos.
  { clear ts. induction ts as [|t ts IH]; intros s Hs; [exact Hs|].
    simpl. apply IH.
    destruct (tickStep_stored s t) as [->|(p & h & time & _ & ->)];
      [exact Hs|].
    intros i u Hi. apply lookup_app_Some in Hi.
    destruct Hi as [Hi|[Hlen Hi]]; [apply Hs; exact Hi|].
    destruct (i - length (stored s))%nat as [|k] eqn:Hk; [|discriminate].
    injection Hi as <-. simpl. lia. }
  pose proof (Hpos ts (Server [] [])) as H. simpl in H.
  assert (forall (i : nat) (u : User.t),
             stored (runTicks ext JWT_SECRET (Server [] []) ts) !! i = Some u ->
             User.id u = (Z.of_nat i + 1)%Z) as Hids.
  { apply H. intros i u Hi. discriminate. }
  split; [exact Hids|].
  apply NoDup_alt. intros i j x Hi Hj.
  rewrite list_lookup_fmap in Hi, Hj.
  destruct (stored (runTicks ext JWT_SECRET (Server [] []) ts) !! i)
    as [u|] eqn:Eu; [|discriminate].
  destruct (stored (runTicks ext JWT_SECRET (Server [] []) ts) !! j)
    as [v|] eqn:Ev; [|discriminate].
  injection Hi as <-. injection Hj as Hv.
  apply Hids in Eu. apply Hids in Ev. lia.
Qed.

(** X13.  However handlers interleave, the array only grows at its end: the
    accounts it held are still there, unchanged and in place. *)
Theorem stored_only_grows (s : server) (ts : list tick) :
  exists more, stored (runTicks ext JWT_SECRET s ts) = stored s ++ more.
Proof.
  revert s. induction ts as [|t ts IH]; intros s; simpl.
  - exists []. rewrite app_nil_r. reflexivity.
  - destruct (IH (fst (tickStep ext JWT_SECRET s t))) as [more ->].
    destruct (tickStep_stored s t) as [->|(p & h & time & _ & ->)].
    + exists more. reflexivity.
    + eexists. rewrite <- app_assoc. reflexivity.
Qed.

Lemma register_check_wellFormed (users : list User.t) (reqBody : value)
    (p : pending) :
  register_check ext users reqBody = Normal (inr p) ->
  wellFormed ext (normalizedUsername p) (normalizedEmail p).
Proof.
  intros Hc.
  destruct (register_check_pending_inv ext users reqBody p Hc)
    as (su & se & sp & _ & _ & _ & Hv & -> & _ & _).
  apply validateAuthPayload_nil_inv in Hv.
  destruct Hv as ((se0 & E & Hne & Hle & Hre) & _ & Hsu). injection E as <-.
  destruct (Hsu eq_refl) as (su0 & E & Hlen). injection E as <-.
  cbn [normalizedUsername normalizedEmail]. unfold wellFormed.
  split; [apply trim_idem|]. split; [exact Hlen|].
  exists (trim se). split; [reflexivity|]. split; [apply trim_idem|].
  split; [|exact Hre].
  destruct (trim se); [congruence|]. simpl in *. lia.
Qed.

(** X14.  However handlers interleave, every stored account has a username
    that is trimmed and has 3 to 30 code units, and an email that is the
    engine's lower-case form of a trimmed address of 1 to 254 code units
    that matches the pattern.  Where lower-casing is idempotent, the stored
    email is its own lower-case form, so the [toLowerCase] that the lookups
    apply to stored emails changes nothing. *)
Theorem stored_accounts_wellFormed (ts : list tick) (u : User.t) :
  In u (stored (runTicks ext JWT_SECRET (Server [] []) ts)) ->
  wellFormed ext (User.username u) (User.email u)
  /\ (lowerCaseIdempotent ext ->
      toLowerCase ext (User.email u) = User.email u).
Proof.
  assert (forall ts s,
             (forall p, In p (suspended s) ->
                        wellFormed ext (normalizedUsername p)
                          (normalizedEmail p)) ->
             (forall u, In u (stored s) ->
                        wellFormed ext (User.username u) (User.email u)) ->
             forall u, In u (stored (runTicks ext JWT_SECRET s ts)) ->
                       wellFormed ext (User.username u) (User.email u)) as H.
  { clear ts u. induction ts as [|t ts IH]; intros s Hp Hu; [exact Hu|].
    simpl. apply IH.
    - intros p Hin. apply tickStep_suspended in Hin.
      destruct Hin as [Hin|[reqBody Hc]]; [apply Hp; exact Hin|].
      eapply register_check_wellFormed. exact Hc.
    - intros u Hin.
      destruct (tickStep_stored s t) as [E|(p & h & time & Hpin & E)];
        rewrite E in Hin; [apply Hu; exact Hin|].
      apply in_app_or in Hin. destruct Hin as [Hin|[<-|[]]];
        [apply Hu; exact Hin|].
      apply Hp. exact Hpin. }
  intros Hin.
  assert (wellFormed ext (User.username u) (User.email u)) as Hw
    by (apply (H ts (Server [] [])); [intros ? []|intros ? []|exact Hin]).
  split; [exact Hw|].
  intros Hidem. destruct Hw as (_ & _ & address & -> & _). apply Hidem.
Qed.

(** X16.  Two registrations of one payload overlap badly: when the payload
    passes validation and both lookups, and the second request arrives
    before [bcrypt.hash] has settled for the first, both are answered with
    201 and both accounts are stored, with the same email and the same
    username. *)
Theorem overlapping_registrations_both_stored
    (users : list User.t) (reqBody : value) (w0 w1 w2 : ambient)
    (p : pending) (h1 h2 : jsstring) :
  register_check ext users reqBody = Normal (inr p) ->
  bcrypt_hash ext (password p) 10 (salt w1) = Normal h1 ->
  bcrypt_hash ext (password p) 10 (salt w2) = Normal h2 ->
  let s0 := Server users [] in
  let s1 := fst (tickStep ext JWT_SECRET s0 (Arrives (PostRegister reqBody) w0)) in
  let s2 := fst (tickStep ext JWT_SECRET s1 (Arrives (PostRegister reqBody) w0)) in
  let s3 := tickStep ext JWT_SECRET s2 (Settles 0 w1) in
  let s4 := tickStep ext JWT_SECRET (fst s3) (Settles 0 w2) in
  snd s3 = Some registered /\ snd s4 = Some registered
  /\ exists a1 a2,
       stored (fst s4) = users ++ [a1; a2]
       /\ User.email a1 = User.email a2
       /\ User.username a1 = User.username a2
       /\ ~ uniqueAccounts ext (stored (fst s4)).
Proof.
  intros Hc Hh1 Hh2. simpl. rewrite Hc. simpl. rewrite Hc. simpl.
  rewrite Hh1. simpl. rewrite Hh2. simpl.
  split; [reflexivity|]. split; [reflexivity|].
  eexists _, _. split; [rewrite <- app_assoc; reflexivity|].
  split; [reflexivity|]. split; [reflexivity|].
  intros [Hn _]. rewrite <- app_assoc, map_app in Hn.
  apply NoDup_app in Hn. destruct Hn as (_ & _ & Hn). simpl in Hn.
  apply NoDup_cons in Hn. destruct Hn as [Hn _]. apply Hn. left.
Qed.

End Overlap.

(** ** After a registration has been stored *)

Section AfterRegistration.
Import JsString JsStringFacts ValidationFacts HandlerFacts.

Variable ext : externals.
Variable JWT_SECRET : jsstring.

(** The response 201 of a settling registration: [bcrypt.hash] returned,
    and the account was pushed onto the array as it was then. *)
Lemma settle_registered (s : server) (i : nat) (p : pending) (w : ambient) :
  suspended s !! i = Some p ->
  snd (tickStep ext JWT_SECRET s (Settles i w)) = Some registered ->
  exists h,
    bcrypt_hash ext (password p) 10 (salt w) = Normal h
    /\ stored (fst (tickStep ext JWT_SECRET s (Settles i w)))
       = stored s ++ [User.mk (Z.of_nat (length (stored s)) + 1)
                        (normalizedUsername p) (normalizedEmail p) h
                        (toISOString ext (now w))].
Proof.
  intros Hi. cbn [tickStep]. rewrite Hi.
  destruct (bcrypt_hash ext (password p) 10 (salt w)) as [h|e];
    cbn [snd fst register_store stored]; [|discriminate].
  intros _. exists h. split; reflexivity.
Qed.

(** The lookups return the first match: what they find stays found when
    accounts are pushed. *)
Lemma findByEmail_app (users more : list User.t) (ne : jsstring) (a : User.t) :
  findByEmail ext users ne = Some a ->
  findByEmail ext (users ++ more) ne = Some a.
Proof.
  unfold findByEmail. induction users as [|u users IH]; simpl; [discriminate|].
  destruct (bool_decide (toLowerCase ext (User.email u) = ne)); auto.
Qed.

Lemma tickStep_keeps_find (s : server) (t : tick) (ne : jsstring) (a : User.t) :
  findByEmail ext (stored s) ne = Some a ->
  findByEmail ext (stored (fst (tickStep ext JWT_SECRET s t))) ne = Some a.
Proof.
  intros Hf.
  destruct (tickStep_stored ext JWT_SECRET s t) as [->|(p & h & time & _ & ->)];
    [exact Hf|apply findByEmail_app, Hf].
Qed.

Lemma runTicks_keeps_find (ts : list tick) (s : server) (ne : jsstring)
    (a : User.t) :
  findByEmail ext (stored s) ne = Some a ->
  findByEmail ext (stored (runTicks ext JWT_SECRET s ts)) ne = Some a.
Proof.
  revert s. induction ts as [|t ts IH]; intros s Hf; [exact Hf|].
  simpl. apply IH, tickStep_keeps_find, Hf.
Qed.

Lemma runTicks_keeps_In (ts : list tick) (s : server) (a : User.t) :
  In a (stored s) -> In a (stored (runTicks ext JWT_SECRET s ts)).
Proof.
  revert s. induction ts as [|t ts IH]; intros s Hin; [exact Hin|].
  simpl. apply IH.
  destruct (tickStep_stored ext JWT_SECRET s t) as [->|(p & h & time & _ & ->)];
    [exact Hin|apply in_or_app; left; exact Hin].
Qed.

(** C9, as the handlers do it.  Take a registration with email [se] and
    password [sp] that passed its checks and waits for [bcrypt.hash], and
    suppose that no account with its normalized email has been stored in
    the meantime (as is the case when no other registration overlaps it).
    Once it has been answered with 201, and whatever happens on the server
    after that, a login whose payload passes validation, whose email trims
    and lower-cases to the same normalized form, and whose password is the
    registered one, is answered with 200 and a token signed for the
    registered account.  This holds provided lower-casing is idempotent,
    bcrypt verifies the password it hashed, and signing does not throw. *)
Theorem login_after_register
    (users0 : list User.t) (reqBody reqBody' : value) (p : pending)
    (s : server) (i : nat) (w w' : ambient) (ts : list tick)
    (se sp se' : jsstring) :
  lowerCaseIdempotent ext ->
  (forall h, bcrypt_hash ext (VString sp) 10 (salt w) = Normal h ->
             bcrypt_compare ext (VString sp) h = Normal true) ->
  (forall payload options time,
      exists token, jwt_sign ext payload JWT_SECRET options time = Normal token) ->
  get_prop reqBody "email" = Normal (VString se) ->
  get_prop reqBody "password" = Normal (VString sp) ->
  register_check ext users0 reqBody = Normal (inr p) ->
  suspended s !! i = Some p ->
  found (findByEmail ext (stored s) (normalizedEmail p)) = false ->
  snd (tickStep ext JWT_SECRET s (Settles i w)) = Some registered ->
  get_prop reqBody' "email" = Normal (VString se') ->
  get_prop reqBody' "password" = Normal (VString sp) ->
  validateAuthPayload (VString se') (VString sp) VUndefined false = Normal [] ->
  toLowerCase ext (trim se') = toLowerCase ext (trim se) ->
  let s1 := fst (tickStep ext JWT_SECRET s (Settles i w)) in
  exists token,
    jwt_sign ext
      (VObject [("id", VNumber (Z.of_nat (length (stored s)) + 1));
                ("username", VString (normalizedUsername p));
                ("email", VString (toLowerCase ext (trim se)))]%string)
      JWT_SECRET
      (VObject [("expiresIn", VString (lit "1h"))]%string)
      (now w') = Normal token
    /\ login ext JWT_SECRET (stored (runTicks ext JWT_SECRET s1 ts)) reqBody' w'
       = loggedIn token.
Proof.
  intros Hidem Hbcrypt Hsign He Hp Hc Hi Hfree Hres He' Hp' Hv' Hnorm s1.
  destruct (register_check_pending_inv ext users0 reqBody p Hc)
    as (su0 & se0 & sp0 & _ & He0 & Hp0 & _ & -> & _ & _).
  rewrite He in He0. rewrite Hp in Hp0.
  injection He0 as <-. injection Hp0 as <-.
  cbn [normalizedUsername normalizedEmail password] in *.
  destruct (settle_registered s i _ w Hi Hres) as (h & Hh & Hstored).
  cbn [normalizedUsername normalizedEmail password] in Hh, Hstored.
  set (a := User.mk (Z.of_nat (length (stored s)) + 1) (trim su0)
              (toLowerCase ext (trim se)) h (toISOString ext (now w))) in *.
  assert (findByEmail ext (stored (runTicks ext JWT_SECRET s1 ts))
            (toLowerCase ext (trim se)) = Some a) as Hfind.
  { apply runTicks_keeps_find. subst s1. rewrite Hstored.
    apply (findByEmail_first ext (stored s) [] a); [exact Hfree|].
    apply Hidem. }
  destruct (Hsign
              (VObject [("id", VNumber (Z.of_nat (length (stored s)) + 1));
                        ("username", VString (trim su0));
                        ("email", VString (toLowerCase ext (trim se)))]%string)
              (VObject [("expiresIn", VString (lit "1h"))]%string)
              (now w')) as [token Htoken].
  exists token. split; [exact Htoken|].
  unfold login.
  rewrite (login_try_valid ext JWT_SECRET _ reqBody' w' se' (VString sp) He' Hp' Hv').
  rewrite Hnorm, Hfind.
  cbn [User.passwordHash User.id User.username User.email a].
  rewrite (Hbcrypt h Hh). cbn [bind negb]. rewrite Htoken. reflexivity.
Qed.

(** X7.  Take a registration with username [su] and email [se] that
    passed its checks, waited for [bcrypt.hash] and has been answered with
    201.  Whatever happens on the server after that, a registration that
    arrives and passes validation is refused with 409 when its email
    normalizes to the registered one (the email message, or the "both"
    message) and when its username equals the registered one up to case
    (the username message, or the "both" message); when both coincide it is
    the "both" message.  It stores nothing and leaves nothing waiting.  For
    the email this needs lower-casing to be idempotent. *)
Theorem register_again_is_duplicate
    (users0 : list User.t) (reqBody reqBody' : value) (p : pending)
    (s : server) (i : nat) (w w' : ambient) (ts : list tick)
    (su se su' se' : jsstring) (password' : value) :
  lowerCaseIdempotent ext ->
  get_prop reqBody "username" = Normal (VString su) ->
  get_prop reqBody "email" = Normal (VString se) ->
  register_check ext users0 reqBody = Normal (inr p) ->
  suspended s !! i = Some p ->
  snd (tickStep ext JWT_SECRET s (Settles i w)) = Some registered ->
  get_prop reqBody' "username" = Normal (VString su') ->
  get_prop reqBody' "email" = Normal (VString se') ->
  get_prop reqBody' "password" = Normal password' ->
  validateAuthPayload (VString se') password' (VString su') true = Normal [] ->
  let s2 :=
    runTicks ext JWT_SECRET (fst (tickStep ext JWT_SECRET s (Settles i w))) ts in
  let again := tickStep ext JWT_SECRET s2 (Arrives (PostRegister reqBody') w') in
  (toLowerCase ext (trim se') = toLowerCase ext (trim se) ->
     again = (s2, Some duplicateEmail) \/ again = (s2, Some duplicateBoth))
  /\ (toLowerCase ext (trim su') = toLowerCase ext (trim su) ->
        again = (s2, Some duplicateUsername)
        \/ again = (s2, Some duplicateBoth))
  /\ (toLowerCase ext (trim se') = toLowerCase ext (trim se) ->
      toLowerCase ext (trim su') = toLowerCase ext (trim su) ->
        again = (s2, Some duplicateBoth)).
Proof.
  intros Hidem Hu He Hc Hi Hres Hu' He' Hp' Hv' s2 again.
  destruct (register_check_pending_inv ext users0 reqBody p Hc)
    as (su0 & se0 & sp0 & Hu0 & He0 & _ & _ & -> & _ & _).
  rewrite Hu in Hu0. rewrite He in He0.
  injection Hu0 as <-. injection He0 as <-.
  destruct (settle_registered s i _ w Hi Hres) as (h & _ & Hstored).
  cbn [normalizedUsername normalizedEmail] in Hstored.
  set (a := User.mk (Z.of_nat (length (stored s)) + 1) (trim su)
              (toLowerCase ext (trim se)) h (toISOString ext (now w))) in *.
  assert (In a (stored s2)) as Ha.
  { apply runTicks_keeps_In. rewrite Hstored. apply in_or_app. right. left.
    reflexivity. }
  assert (toLowerCase ext (trim se') = toLowerCase ext (trim se) ->
          found (findByEmail ext (stored s2) (toLowerCase ext (trim se'))) = true)
    as FE.
  { intros Hn. apply found_findByEmail. exists a. split; [exact Ha|].
    rewrite Hn. apply Hidem. }
  assert (toLowerCase ext (trim su') = toLowerCase ext (trim su) ->
          found (findByUsername ext (stored s2) (trim su')) = true) as FU.
  { intros Hn. apply found_findByUsername. exists a. split; [exact Ha|].
    rewrite Hn. reflexivity. }
  subst again. cbn [tickStep].
  rewrite (register_check_valid ext (stored s2) reqBody' su' se' password'
             Hu' He' Hp' Hv').
  cbv zeta.
  split; [|split].
  - intros Hn. rewrite (FE Hn).
    destruct (found (findByUsername ext (stored s2) (trim su'))); simpl; auto.
  - intros Hn. rewrite (FU Hn).
    destruct (found (findByEmail ext (stored s2) (toLowerCase ext (trim se'))));
      simpl; auto.
  - intros Hn1 Hn2. rewrite (FE Hn1), (FU Hn2). reflexivity.
Qed.

End AfterRegistration.

(** C5 fails when two registrations overlap.  The second request arrives
    while the first waits at [await bcrypt.hash] (line 135): both ran
    their lookups (lines 111 to 116) on the empty array, both are answered
    with 201, and the array ends with two accounts that have the same email
    and the same username.  Served one after the other, the second is
    refused with 409; see [users_stay_unique_in_sequence]. *)
Theorem users_not_unique_after_overlap :
  let reqBody := TestDouble.body3 "alice" "a@b.com" "password123" in
  let step := tickStep TestDouble.ext TestDouble.secret in
  let s1 := step (Server [] []) (Arrives (PostRegister reqBody) TestDouble.w) in
  let s2 := step (fst s1) (Arrives (PostRegister reqBody) TestDouble.w) in
  let s3 := step (fst s2) (Settles 0 TestDouble.w) in
  let s4 := step (fst s3) (Settles 0 TestDouble.w) in
  snd s1 = None /\ snd s2 = None
  /\ snd s3 = Some registered /\ snd s4 = Some registered
  /\ map User.id (stored (fst s4)) = [1; 2]%Z
  /\ map User.email (stored (fst s4)) = [lit "a@b.com"; lit "a@b.com"]
  /\ map User.username (stored (fst s4)) = [lit "alice"; lit "alice"]
  /\ suspended (fst s4) = []
  /\ ~ uniqueAccounts TestDouble.ext (stored (fst s4))
  /\ snd (register TestDouble.ext
            (fst (register TestDouble.ext [] reqBody TestDouble.w))
            reqBody TestDouble.w)
     = duplicateBoth.
Proof.
  cbv zeta. repeat (split; [vm_compute; reflexivity|]).
  split; [|vm_compute; reflexivity].
  intros [H _]. vm_compute in H.
  apply NoDup_cons in H. destruct H as [H _]. apply H. left.
Qed.

Lemma login_after_register_witness :
  let reqBody := TestDouble.body3 "alice" "A@Example.com" "password123" in
  let step := tickStep TestDouble.ext TestDouble.secret in
  let s := fst (step (Server [] []) (Arrives (PostRegister reqBody) TestDouble.w)) in
  exists token,
    jwt_sign TestDouble.ext
      (VObject [("id", VNumber (Z.of_nat (length (stored s)) + 1));
                ("username", VString (lit "alice"));
                ("email",
                 VString (toLowerCase TestDouble.ext
                            (JsString.trim (lit "A@Example.com"))))]%string)
      TestDouble.secret
      (VObject [("expiresIn", VString (lit "1h"))]%string)
      (now TestDouble.w) = Normal token
    /\ login TestDouble.ext TestDouble.secret
         (stored
            (runTicks TestDouble.ext TestDouble.secret
               (fst (step s (Settles 0 TestDouble.w)))
               [Arrives (PostRegister
                           (TestDouble.body3 "bob" "bob@b.com" "hunter2hunter2"))
                  TestDouble.w;
                Settles 0 TestDouble.w]))
         (TestDouble.body2 " a@example.COM " "password123") TestDouble.w
       = loggedIn token.
Proof.
  cbv zeta.
  apply (login_after_register TestDouble.ext TestDouble.secret []
           (TestDouble.body3 "alice" "A@Example.com" "password123")
           (TestDouble.body2 " a@example.COM " "password123")
           (Pending (lit "alice") (lit "a@example.com")
              (VString (lit "password123")))
           (fst (tickStep TestDouble.ext TestDouble.secret (Server [] [])
                   (Arrives (PostRegister
                               (TestDouble.body3 "alice" "A@Example.com"
                                  "password123"))
                      TestDouble.w)))
           0%nat TestDouble.w TestDouble.w
           [Arrives (PostRegister
                       (TestDouble.body3 "bob" "bob@b.com" "hunter2hunter2"))
              TestDouble.w;
            Settles 0 TestDouble.w]
           (lit "A@Example.com") (lit "password123") (lit " a@example.COM ")).
  - exact TestDoubleFacts.ext_idempotent.
  - intros h Hh. vm_compute in Hh. injection Hh as <-. vm_compute. reflexivity.
  - intros payload options time. eexists. reflexivity.
  - reflexivity.
  - reflexivity.
  - vm_compute. reflexivity.
  - vm_compute. reflexivity.
  - vm_compute. reflexivity.
  - vm_compute. reflexivity.
  - reflexivity.
  - reflexivity.
  - vm_compute. reflexivity.
  - vm_compute. reflexivity.
Defined.

Lemma register_again_is_duplicate_witness :
  let step := tickStep TestDouble.ext TestDouble.secret in
  let s :=
    fst (step (Server TestDouble.twoUsers [])
           (Arrives (PostRegister
                       (TestDouble.body3 "Carol" "Carol@B.com" "password123"))
              TestDouble.w)) in
  let s2 := fst (step s (Settles 0 TestDouble.w)) in
  step s2 (Arrives (PostRegister
                      (TestDouble.body3 " CAROL " "carol@b.COM" "password456"))
             TestDouble.w)
  = (s2, Some duplicateBoth).
Proof.
  cbv zeta.
  apply (register_again_is_duplicate TestDouble.ext TestDouble.secret
           TestDouble.twoUsers
           (TestDouble.body3 "Carol" "Carol@B.com" "password123")
           (TestDouble.body3 " CAROL " "carol@b.COM" "password456")
           (Pending (lit "Carol") (lit "carol@b.com")
              (VString (lit "password123")))
           (fst (tickStep TestDouble.ext TestDouble.secret
                   (Server TestDouble.twoUsers [])
                   (Arrives (PostRegister
                               (TestDouble.body3 "Carol" "Carol@B.com"
                                  "password123"))
                      TestDouble.w)))
           0%nat TestDouble.w TestDouble.w []
           (lit "Carol") (lit "Carol@B.com") (lit " CAROL ") (lit "carol@b.COM")
           (VString (lit "password456"))).
  - exact TestDoubleFacts.ext_idempotent.
  - reflexivity.
  - reflexivity.
  - vm_compute. reflexivity.
  - vm_compute. reflexivity.
  - vm_compute. reflexivity.
  - reflexivity.
  - reflexivity.
  - reflexivity.
  - vm_compute. reflexivity.
  - vm_compute. reflexivity.
  - vm_compute. reflexivity.
Defined.

Lemma register_creates_account_witness :
  register TestDouble.ext TestDouble.twoUsers
    (TestDouble.body3 " Carol " " Carol@B.com " " password123 ") TestDouble.w
  = (TestDouble.twoUsers
       ++ [User.mk (Z.of_nat (length TestDouble.twoUsers) + 1)
             (JsString.trim (lit " Carol "))
             (toLowerCase TestDouble.ext (JsString.trim (lit " Carol@B.com ")))
             (lit "salt$ password123 ")
             (toISOString TestDouble.ext (now TestDouble.w))],
     registered).
Proof.
  apply (proj2 (register_creates_account TestDouble.ext TestDouble.twoUsers
                  (TestDouble.body3 " Carol " " Carol@B.com " " password123 ")
                  TestDouble.w (lit " Carol ") (lit " Carol@B.com ")
                  (VString (lit " password123 "))
                  eq_refl eq_refl eq_refl
                  ltac:(vm_compute; reflexivity))).
  - intros (a & [<-|[<-|[]]] & H); vm_compute in H; discriminate.
  - intros (a & [<-|[<-|[]]] & H); vm_compute in H; discriminate.
  - reflexivity.
Defined.

Lemma handlers_ignore_padding_witness :
  register TestDouble.ext TestDouble.twoUsers
    (TestDouble.body3 "carol" "carol@b.com" "password123") TestDouble.w
  = register TestDouble.ext TestDouble.twoUsers
      (TestDouble.body3 "  carol " " carol@b.com  " "password123") TestDouble.w
  /\ login TestDouble.ext TestDouble.secret TestDouble.twoUsers
       (TestDouble.body3 "carol" "carol@b.com" "password123") TestDouble.w
     = login TestDouble.ext TestDouble.secret TestDouble.twoUsers
         (TestDouble.body3 "  carol " " carol@b.com  " "password123") TestDouble.w.
Proof.
  apply (handlers_ignore_padding TestDouble.ext TestDouble.secret
           TestDouble.twoUsers
           (TestDouble.body3 "  carol " " carol@b.com  " "password123")
           (TestDouble.body3 "carol" "carol@b.com" "password123")
           TestDouble.w);
    first [discriminate | vm_compute; reflexivity].
Defined.

Lemma stored_accounts_wellFormed_witness :
  wellFormed TestDouble.ext (lit "Carol") (lit "carol@b.com")
  /\ (lowerCaseIdempotent TestDouble.ext ->
      toLowerCase TestDouble.ext (lit "carol@b.com") = lit "carol@b.com").
Proof.
  apply (stored_accounts_wellFormed TestDouble.ext TestDouble.secret
           [Arrives (PostRegister
                       (TestDouble.body3 " Carol " " Carol@B.com " "password123"))
              TestDouble.w;
            Settles 0 TestDouble.w]
           (User.mk 1 (lit "Carol") (lit "carol@b.com")
              (lit "salt$password123") (lit "2024-01-01T00:00:00.000Z"))).
  vm_compute. left. reflexivity.
Defined.

Lemma overlapping_registrations_both_stored_witness :
  exists a1 a2,
    stored (fst (tickStep TestDouble.ext TestDouble.secret
                   (fst (tickStep TestDouble.ext TestDouble.secret
                           (fst (tickStep TestDouble.ext TestDouble.secret
                                   (fst (tickStep TestDouble.ext TestDouble.secret
                                           (Server [] [])
                                           (Arrives (PostRegister
                                              (TestDouble.body3 "alice" "a@b.com" "password123"))
                                              TestDouble.w)))
                                   (Arrives (PostRegister
                                      (TestDouble.body3 "alice" "a@b.com" "password123"))
                                      TestDouble.w)))
                           (Settles 0 TestDouble.w)))
                   (Settles 0 TestDouble.w)))
    = [] ++ [a1; a2]
    /\ User.email a1 = User.email a2.
Proof.
  destruct (overlapping_registrations_both_stored TestDouble.ext
              TestDouble.secret []
              (TestDouble.body3 "alice" "a@b.com" "password123")
              TestDouble.w TestDouble.w TestDouble.w
              (Pending (lit "alice") (lit "a@b.com") (VString (lit "password123")))
              (lit "salt$password123") (lit "salt$password123")
              ltac:(vm_compute; reflexivity) eq_refl eq_refl)
    as (_ & _ & a1 & a2 & H1 & H2 & _).
  exists a1, a2. split; [exact H1|exact H2].
Defined.


(** * Properties of the page *)

Section PageRules.
Import JsString JsStringFacts ValidationFacts HandlerFacts.
Import Page.

Lemma isEmpty_false (s : jsstring) : isEmpty s = false <-> s <> [].
Proof.
  destruct s; simpl; split; intros H; try discriminate; try reflexivity.
  exfalso. apply H. reflexivity.
Qed.

(** When the registration form sends a request, and which. *)
Lemma registerSubmit_check_sent (pg : Page.t) (reqBody : value) :
  snd (registerSubmit_check pg) = Some reqBody
  <-> trim (fieldValue pg RegisterUsername) <> []
      /\ trim (fieldValue pg RegisterEmail) <> []
      /\ Regex.test emailRegex (trim (fieldValue pg RegisterEmail)) = true
      /\ (8 <= length (fieldValue pg RegisterPassword))%nat
      /\ fieldValue pg RegisterPassword = fieldValue pg RegisterPasswordConfirm
      /\ reqBody
         = VObject [("username", VString (trim (fieldValue pg RegisterUsername)));
                    ("email", VString (trim (fieldValue pg RegisterEmail)));
                    ("password", VString (fieldValue pg RegisterPassword))]%string.
Proof.
  unfold registerSubmit_check, validateEmail, validatePassword.
  cbn [clearMessages set_messages setFieldValidation fieldValue typeof
       String.eqb andb].
  change (String.eqb "string" "string") with true. cbn [andb].
  rewrite <- !isEmpty_false.
  destruct (isEmpty (trim (fieldValue pg RegisterUsername))); cbn [orb];
    [simpl; split; [discriminate|intros (H & _); discriminate]|].
  destruct (isEmpty (trim (fieldValue pg RegisterEmail))); cbn [orb];
    [simpl; split; [discriminate|intros (_ & H & _); discriminate]|].
  destruct (isEmpty (fieldValue pg RegisterPassword)) eqn:Ep; cbn [orb].
  { simpl. split; [discriminate|]. intros (_ & _ & _ & Hl & _).
    destruct (fieldValue pg RegisterPassword); [simpl in Hl; lia|discriminate]. }
  destruct (isEmpty (fieldValue pg RegisterPasswordConfirm)) eqn:Ec; cbn [orb].
  { simpl. split; [discriminate|]. intros (_ & _ & _ & _ & He & _).
    rewrite He, Ec in Ep. discriminate. }
  destruct (Regex.test emailRegex (trim (fieldValue pg RegisterEmail)));
    destruct (Nat.leb_spec 8 (length (fieldValue pg RegisterPassword)))
      as [Hlen|Hlen];
    destruct (bool_decide_reflect
                (fieldValue pg RegisterPassword
                 = fieldValue pg RegisterPasswordConfirm)) as [Heq|Heq];
    cbn [negb snd];
    (split;
     [intros Hsent; try discriminate; injection Hsent as <-;
      repeat split; auto
     |intros (_ & _ & Hr & Hl & He & Hb); try discriminate;
      try (exfalso; lia); try contradiction; subst reqBody; reflexivity]).
Qed.

(** When the login form sends a request, and which. *)
Lemma loginSubmit_check_sent (pg : Page.t) (reqBody : value) :
  snd (loginSubmit_check pg) = Some reqBody
  <-> trim (fieldValue pg LoginEmail) <> []
      /\ Regex.test emailRegex (trim (fieldValue pg LoginEmail)) = true
      /\ (8 <= length (fieldValue pg LoginPassword))%nat
      /\ reqBody
         = VObject [("email", VString (trim (fieldValue pg LoginEmail)));
                    ("password", VString (fieldValue pg LoginPassword))]%string.
Proof.
  unfold loginSubmit_check, validateEmail, validatePassword.
  cbn [clearMessages set_messages setFieldValidation fieldValue typeof
       String.eqb andb].
  change (String.eqb "string" "string") with true. cbn [andb].
  rewrite <- !isEmpty_false.
  destruct (isEmpty (trim (fieldValue pg LoginEmail))); cbn [orb];
    [simpl; split; [discriminate|intros (H & _); discriminate]|].
  destruct (isEmpty (fieldValue pg LoginPassword)) eqn:Ep; cbn [orb].
  { simpl. split; [discriminate|]. intros (_ & _ & Hl & _).
    destruct (fieldValue pg LoginPassword); [simpl in Hl; lia|discriminate]. }
  destruct (Regex.test emailRegex (trim (fieldValue pg LoginEmail)));
    destruct (Nat.leb_spec 8 (length (fieldValue pg LoginPassword)))
      as [Hlen|Hlen];
    cbn [negb snd];
    (split;
     [intros Hsent; try discriminate; injection Hsent as <-;
      repeat split; auto
     |intros (_ & Hr & Hl & Hb); try discriminate;
      try (exfalso; lia); subst reqBody; reflexivity]).
Qed.

(** X17.  The registration form sends a request exactly when the trimmed
    username and email are not empty, the trimmed email matches the
    pattern, the password as typed has at least 8 code units and equals
    its confirmation; the body then carries the trimmed username, the
    trimmed email and the password as typed.  The login form sends one
    exactly when the trimmed email is not empty and matches the pattern and
    the password as typed has at least 8 code units. *)
Theorem forms_send_iff (pg : Page.t) (reqBody : value) :
  (snd (registerSubmit_check pg) = Some reqBody
   <-> trim (fieldValue pg RegisterUsername) <> []
       /\ trim (fieldValue pg RegisterEmail) <> []
       /\ Regex.test emailRegex (trim (fieldValue pg RegisterEmail)) = true
       /\ (8 <= length (fieldValue pg RegisterPassword))%nat
       /\ fieldValue pg RegisterPassword = fieldValue pg RegisterPasswordConfirm
       /\ reqBody
          = VObject [("username", VString (trim (fieldValue pg RegisterUsername)));
                     ("email", VString (trim (fieldValue pg RegisterEmail)));
                     ("password", VString (fieldValue pg RegisterPassword))]%string)
  /\ (snd (loginSubmit_check pg) = Some reqBody
      <-> trim (fieldValue pg LoginEmail) <> []
          /\ Regex.test emailRegex (trim (fieldValue pg LoginEmail)) = true
          /\ (8 <= length (fieldValue pg LoginPassword))%nat
          /\ reqBody
             = VObject [("email", VString (trim (fieldValue pg LoginEmail)));
                        ("password", VString (fieldValue pg LoginPassword))]%string).
Proof.
  split; [apply registerSubmit_check_sent|apply loginSubmit_check_sent].
Qed.

Lemma trimStart_length (s : jsstring) : (length (trimStart s) <= length s)%nat.
Proof.
  induction s as [|c s IH]; simpl; [lia|].
  destruct (isWhiteSpace c); simpl; lia.
Qed.

Lemma trimEnd_length (s : jsstring) : (length (trimEnd s) <= length s)%nat.
Proof.
  induction s as [|c s IH]; simpl; [lia|].
  destruct (trimEnd s); [destruct (isWhiteSpace c)|]; simpl in *; lia.
Qed.

Lemma trim_length (s : jsstring) : (length (trim s) <= length s)%nat.
Proof.
  unfold trim. pose proof (trimEnd_length (trimStart s)).
  pose proof (trimStart_length s). lia.
Qed.

(** What the server's routine can still report for fields the page has
    checked: an email that is trimmed, not empty and matches the pattern,
    and a username that is trimmed and not empty. *)
Lemma checked_fields_messages (e u : jsstring) (password : value)
    (requireUsername : bool) (m : jsstring) :
  trim e <> [] -> Regex.test emailRegex (trim e) = true ->
  (requireUsername = true -> trim u <> []) ->
  In m (emailErrors (VString e) ++ passwordErrors password
        ++ (if requireUsername then usernameErrors (VString u) else [])) ->
  m <> lit "Email is required." /\ m <> lit "Email format is invalid."
  /\ m <> lit "Username is required.".
Proof.
  intros He Hr Hu Hin.
  apply in_app_or in Hin. destruct Hin as [Hin|Hin].
  - unfold emailErrors, blockErrors in Hin.
    destruct (trim e) as [|c t] eqn:E; [congruence|].
    rewrite Hr in Hin. cbn [negb] in Hin.
    destruct (254 <? length (c :: t))%nat; cbn [In] in Hin; [|destruct Hin].
    destruct Hin as [<-|[]]. repeat split; vm_compute; discriminate.
  - apply in_app_or in Hin. destruct Hin as [Hin|Hin].
    + unfold passwordErrors in Hin.
      destruct (blockErrors_cases (lit "Password is required.")
                  (lit "Password must be at least 8 characters long.")
                  (lit "Password must be 128 characters or less.")
                  (fun t => (length t <? 8)%nat)
                  (fun t => (128 <? length t)%nat) password)
        as [E|[E|[E|E]]]; simpl in E; rewrite E in Hin;
        first [ destruct Hin as [<-|[]]; repeat split; vm_compute; discriminate
              | destruct Hin ].
    + destruct requireUsername; [|destruct Hin].
      unfold usernameErrors, blockErrors in Hin.
      destruct (trim u) as [|c t] eqn:E; [exfalso; apply Hu; reflexivity|].
      destruct (length (c :: t) <? 3)%nat;
        [|destruct (30 <? length (c :: t))%nat; [|destruct Hin]];
        cbn [In] in Hin;
        destruct Hin as [<-|[]]; repeat split; vm_compute; discriminate.
Qed.

(** X18.  The page's checks against the server's routine.  For a request
    that either form sends, the server's routine never reports that the
    email is required or badly formed, nor that the username is required
    (it may still report lengths, and a password that is blank or too
    short once trimmed).  In the other direction the page is no stricter
    than the server: fields that the server's routine accepts, with a
    matching confirmation, are sent. *)
Theorem forms_against_validation (pg : Page.t) :
  (forall reqBody requireUsername,
      snd (registerSubmit_check pg) = Some reqBody /\ requireUsername = true
      \/ snd (loginSubmit_check pg) = Some reqBody /\ requireUsername = false ->
      exists errors,
        validateAuthPayload (propOf reqBody "email") (propOf reqBody "password")
          (propOf reqBody "username") requireUsername = Normal errors
        /\ ~ In (lit "Email is required.") errors
        /\ ~ In (lit "Email format is invalid.") errors
        /\ ~ In (lit "Username is required.") errors)
  /\ (validateAuthPayload
        (VString (trim (fieldValue pg RegisterEmail)))
        (VString (fieldValue pg RegisterPassword))
        (VString (trim (fieldValue pg RegisterUsername))) true = Normal [] ->
      fieldValue pg RegisterPassword = fieldValue pg RegisterPasswordConfirm ->
      exists reqBody, snd (registerSubmit_check pg) = Some reqBody)
  /\ (validateAuthPayload
        (VString (trim (fieldValue pg LoginEmail)))
        (VString (fieldValue pg LoginPassword)) VUndefined false = Normal [] ->
      exists reqBody, snd (loginSubmit_check pg) = Some reqBody).
Proof.
  split; [|split].
  - intros reqBody requireUsername [[Hs ->]|[Hs ->]].
    + apply registerSubmit_check_sent in Hs.
      destruct Hs as (Hu & He & Hr & _ & _ & ->).
      eexists. split; [apply validateAuthPayload_eq|].
      cbn [propOf lookup_prop String.eqb Ascii.eqb Bool.eqb].
      assert (forall m,
                 In m (emailErrors (VString (trim (fieldValue pg RegisterEmail)))
                       ++ passwordErrors (VString (fieldValue pg RegisterPassword))
                       ++ usernameErrors
                            (VString (trim (fieldValue pg RegisterUsername)))) ->
                 m <> lit "Email is required."
                 /\ m <> lit "Email format is invalid."
                 /\ m <> lit "Username is required.") as Hm.
      { intros m. apply (checked_fields_messages _ _ _ true);
          rewrite ?trim_idem; auto. }
      repeat split; intros Hin; apply Hm in Hin; tauto.
    + apply loginSubmit_check_sent in Hs.
      destruct Hs as (He & Hr & _ & ->).
      eexists. split; [apply validateAuthPayload_eq|].
      cbn [propOf lookup_prop String.eqb Ascii.eqb Bool.eqb].
      assert (forall m,
                 In m (emailErrors (VString (trim (fieldValue pg LoginEmail)))
                       ++ passwordErrors (VString (fieldValue pg LoginPassword))
                       ++ []) ->
                 m <> lit "Email is required."
                 /\ m <> lit "Email format is invalid."
                 /\ m <> lit "Username is required.") as Hm.
      { intros m. apply (checked_fields_messages _ [] _ false);
          rewrite ?trim_idem; auto; discriminate. }
      repeat split; intros Hin; apply Hm in Hin; tauto.
  - intros Hv Hc. apply validateAuthPayload_nil_inv in Hv.
    destruct Hv as ((se & E & Hne & _ & Hr) & (sp & Ep & Hl) & Hu).
    injection E as <-. injection Ep as <-.
    destruct (Hu eq_refl) as (su & E & Hlu). injection E as <-.
    rewrite trim_idem in *.
    eexists. apply registerSubmit_check_sent.
    repeat split; try assumption; try reflexivity.
    + intros E. rewrite E in Hlu. simpl in Hlu. lia.
    + pose proof (trim_length (fieldValue pg RegisterPassword)). lia.
  - intros Hv. apply validateAuthPayload_nil_inv in Hv.
    destruct Hv as ((se & E & Hne & _ & Hr) & (sp & Ep & Hl) & _).
    injection E as <-. injection Ep as <-.
    rewrite trim_idem in *.
    eexists. apply loginSubmit_check_sent.
    repeat split; try assumption; try reflexivity.
    pose proof (trim_length (fieldValue pg LoginPassword)). lia.
Qed.

(** X19.  The registration form shows one message, that of the last check
    that failed: "All fields are required." when a field is empty;
    otherwise the mismatch message when the confirmation differs, else the
    password message when the password is short, else the email message
    when the email is badly formed; and no message when it sends.  Each
    field that failed a check is flagged, also when its message was
    replaced. *)
Theorem registerSubmit_shows_last_failure (pg : Page.t) :
  let username := trim (fieldValue pg RegisterUsername) in
  let email := trim (fieldValue pg RegisterEmail) in
  let password := fieldValue pg RegisterPassword in
  let passwordConfirm := fieldValue pg RegisterPasswordConfirm in
  let pg' := fst (registerSubmit_check pg) in
  let error text := [("error"%string, VString (lit text))] in
  messages pg'
  = (if isEmpty username || isEmpty email || isEmpty password
        || isEmpty passwordConfirm
     then error "All fields are required."
     else if negb (bool_decide (password = passwordConfirm))
     then error "Passwords do not match. Please re-enter your password."
     else if negb (8 <=? length password)%nat
     then error "Password must be at least 8 characters long."
     else if negb (Regex.test emailRegex email)
     then error "Please provide a valid email."
     else [])
  /\ (isEmpty username || isEmpty email || isEmpty password
      || isEmpty passwordConfirm = false ->
      invalid pg' RegisterEmail = negb (Regex.test emailRegex email)
      /\ invalid pg' RegisterPassword
         = negb (8 <=? length password)%nat
           || negb (bool_decide (password = passwordConfirm))
      /\ invalid pg' RegisterPasswordConfirm
         = negb (bool_decide (password = passwordConfirm))
      /\ invalid pg' RegisterUsername = false).
Proof.
  cbv zeta. unfold registerSubmit_check, validateEmail, validatePassword.
  cbn [clearMessages set_messages setFieldValidation fieldValue typeof].
  change (String.eqb "string" "string") with true. cbn [andb].
  destruct (isEmpty (trim (fieldValue pg RegisterUsername))
            || isEmpty (trim (fieldValue pg RegisterEmail))
            || isEmpty (fieldValue pg RegisterPassword)
            || isEmpty (fieldValue pg RegisterPasswordConfirm)) eqn:Hempty.
  { split; [|discriminate].
    destruct (isEmpty (trim (fieldValue pg RegisterUsername)));
      destruct (isEmpty (trim (fieldValue pg RegisterEmail)));
      destruct (isEmpty (fieldValue pg RegisterPassword));
      destruct (isEmpty (fieldValue pg RegisterPasswordConfirm));
      reflexivity. }
  destruct (Regex.test emailRegex (trim (fieldValue pg RegisterEmail)));
    destruct (8 <=? length (fieldValue pg RegisterPassword))%nat;
    destruct (bool_decide (fieldValue pg RegisterPassword
                           = fieldValue pg RegisterPasswordConfirm));
    (split; [reflexivity|intros _; repeat split; reflexivity]).
Qed.

(** X20.  After a click on the logout button the message area is empty and
    hidden: the confirmation the handler shows is cleared by the
    [switchTab] call that ends it.  The token is cleared and hidden, the
    login form is reset and the login tab is the active one. *)
Theorem logout_leaves_no_message (b : browser) (pg : Page.t) :
  let pg' := logoutClick b pg in
  messages pg' = [] /\ messagesHidden pg' = true
  /\ tokenText pg' = VString [] /\ tokenHidden pg' = true
  /\ fieldValue pg' LoginEmail = defaultValue b LoginEmail
  /\ fieldValue pg' LoginPassword = defaultValue b LoginPassword
  /\ tabLoginActive pg' = true /\ loginFormActive pg' = true
  /\ tabRegisterActive pg' = false /\ registerFormActive pg' = false.
Proof. repeat split. Qed.

Lemma join_strings (b : browser) (sep : jsstring) (l : list jsstring) :
  sep = lit " " -> join b sep (map VString l) = spaced l.
Proof.
  intros ->. induction l as [|s l IH]; [reflexivity|].
  destruct l as [|s' l]; [reflexivity|].
  change (join b (lit " ") (map VString (s :: s' :: l)))
    with (s ++ lit " " ++ join b (lit " ") (map VString (s' :: l))).
  rewrite IH. reflexivity.
Qed.

(** The text the page composes for the server's 400. *)
Lemma errorText_validationFailed (b : browser) (fallback : string)
    (errors : list jsstring) :
  errors <> [] ->
  errorText b fallback (json (validationFailed errors))
  = Normal (lit "Validation failed." ++ lit " " ++ spaced errors).
Proof.
  intros Hne. unfold errorText. simpl json.
  cbn [truthy get_prop bind lookup_prop String.eqb Ascii.eqb Bool.eqb
       optional_prop propOf].
  rewrite length_map, join_strings by reflexivity.
  destruct errors as [|e errors]; [congruence|]. reflexivity.
Qed.

(** Every way [POST /register] can answer. *)
Lemma register_answers (ext : externals) (users : list User.t)
    (reqBody : value) (w : ambient) :
  let res := snd (register ext users reqBody w) in
  res = registered
  \/ (exists errors, errors <> [] /\ res = validationFailed errors)
  \/ res = duplicateBoth \/ res = duplicateEmail
  \/ res = duplicateUsername \/ res = unexpectedError.
Proof.
  cbv zeta. unfold register.
  destruct (register_check ext users reqBody) as [[res|p]|e] eqn:Hc; simpl.
  - unfold register_check in Hc.
    destruct (get_prop reqBody "username") as [username|]; [|discriminate].
    destruct (get_prop reqBody "email") as [email|]; [|discriminate].
    destruct (get_prop reqBody "password") as [password|]; [|discriminate].
    cbn [bind] in Hc.
    destruct (validateAuthPayload email password username true)
      as [errors|]; [|discriminate].
    cbn [bind] in Hc.
    destruct errors as [|m errors].
    + cbn in Hc.
      destruct (method_trim email); [|discriminate]. cbn [bind] in Hc.
      destruct (method_trim username); [|discriminate]. cbn [bind] in Hc.
      repeat match type of Hc with
             | (if ?c then _ else _) = _ => destruct c
             end; try discriminate; injection Hc as <-; tauto.
    + injection Hc as <-. right. left. eexists. split; [|reflexivity].
      discriminate.
  - destruct (bcrypt_hash ext (password p) 10 (salt w)); simpl; tauto.
  - tauto.
Qed.

(** Every way [POST /login] can answer. *)
Lemma login_answers (ext : externals) (JWT_SECRET : jsstring)
    (users : list User.t) (reqBody : value) (w : ambient) :
  let res := login ext JWT_SECRET users reqBody w in
  (exists token, res = loggedIn token)
  \/ (exists errors, errors <> [] /\ res = validationFailed errors)
  \/ res = invalidCredentials \/ res = unexpectedError.
Proof.
  cbv zeta. unfold login, login_try.
  destruct (get_prop reqBody "email") as [email|]; [|simpl; tauto].
  destruct (get_prop reqBody "password") as [password|]; [|simpl; tauto].
  cbn [bind].
  destruct (validateAuthPayload email password VUndefined false)
    as [errors|]; [|simpl; tauto].
  cbn [bind].
  destruct errors as [|m errors].
  - cbn [length Nat.ltb Nat.leb].
    destruct (method_trim email); [|simpl; tauto]. cbn [bind].
    destruct (findByEmail ext users _); [|tauto].
    destruct (bcrypt_compare ext password _) as [[|]|]; cbn [bind negb];
      try tauto.
    destruct (jwt_sign ext _ JWT_SECRET _ _); cbn [bind]; [|tauto].
    left. eexists. reflexivity.
  - right. left. eexists. split; [|reflexivity]. discriminate.
Qed.

(** X21.  What the page shows for the server's answer to a registration.
    For 201: the server's "User registered successfully.", as a success,
    and the form is reset.  For 400: "Validation failed." followed by the
    server's itemized reasons, separated by spaces.  For 409 and 500: the
    server's message.  In every case the submit button is enabled again
    with its label. *)
Theorem page_shows_register_answer (b : browser) (ext : externals)
    (users : list User.t) (reqBody : value) (w : ambient) (pg : Page.t) :
  let res := snd (register ext users reqBody w) in
  let pg' := registerSubmit_done b pg (delivered res) in
  registerSubmitBtn pg' = Button false false (lit "Create Account")
  /\ messagesHidden pg' = false
  /\ ((status res = 201%Z
       /\ messages pg'
          = [("success"%string, VString (lit "User registered successfully."))]
       /\ forall i, i <> LoginEmail -> i <> LoginPassword ->
                    fieldValue pg' i = defaultValue b i)
      \/ (exists errors,
            res = validationFailed errors
            /\ messages pg'
               = [("error"%string,
                   VString (lit "Validation failed." ++ lit " " ++ spaced errors))])
      \/ (exists message,
            (res = failure 409 message \/ res = failure 500 message)
            /\ messages pg' = [("error"%string, VString (lit message))])).
Proof.
  cbv zeta.
  destruct (register_answers ext users reqBody w)
    as [E|[(errors & Hne & E)|[E|[E|[E|E]]]]]; simpl in E; rewrite E.
  - split; [reflexivity|]. split; [reflexivity|]. left.
    split; [reflexivity|]. split; [reflexivity|].
    intros i H1 H2. destruct i; try contradiction; reflexivity.
  - unfold registerSubmit_done, delivered.
    cbn [status validationFailed ok Z.leb Z.compare Pos.compare
         Pos.compare_cont andb negb].
    rewrite (errorText_validationFailed b _ errors Hne).
    split; [reflexivity|]. split; [reflexivity|]. right. left.
    exists errors. split; reflexivity.
  - split; [reflexivity|]. split; [reflexivity|]. right. right.
    eexists. split; [left; reflexivity|reflexivity].
  - split; [reflexivity|]. split; [reflexivity|]. right. right.
    eexists. split; [left; reflexivity|reflexivity].
  - split; [reflexivity|]. split; [reflexivity|]. right. right.
    eexists. split; [left; reflexivity|reflexivity].
  - split; [reflexivity|]. split; [reflexivity|]. right. right.
    eexists. split; [right; reflexivity|reflexivity].
Qed.

(** X22.  What the page shows for the server's answer to a login.  For 200:
    the server's "Login successful." and, if the token is not empty, the
    token, in the token area made visible.  For every other answer: the
    server's message (for 400, with the itemized reasons), as an error,
    and the token area is emptied and hidden; a failed login never leaves a
    token on the page.  In every case the submit button is enabled again
    with its label. *)
Theorem page_shows_login_answer (b : browser) (ext : externals)
    (JWT_SECRET : jsstring) (users : list User.t) (reqBody : value)
    (w : ambient) (pg : Page.t) :
  let res := login ext JWT_SECRET users reqBody w in
  let pg' := loginSubmit_done b pg (delivered res) in
  loginSubmitBtn pg' = Button false false (lit "Log In")
  /\ messagesHidden pg' = false
  /\ ((exists token,
         res = loggedIn token
         /\ messages pg' = [("success"%string, VString (lit "Login successful."))]
         /\ (token <> [] ->
             tokenText pg' = VString token /\ tokenHidden pg' = false)
         /\ (token = [] ->
             tokenText pg' = VString [] /\ tokenHidden pg' = true))
      \/ (status res <> 200%Z
          /\ tokenText pg' = VString [] /\ tokenHidden pg' = true
          /\ ((exists errors,
                 res = validationFailed errors
                 /\ messages pg'
                    = [("error"%string,
                        VString (lit "Validation failed." ++ lit " "
                                 ++ spaced errors))])
              \/ (exists message,
                    (res = failure 401 message \/ res = failure 500 message)
                    /\ messages pg' = [("error"%string, VString (lit message))])))).
Proof.
  cbv zeta.
  destruct (login_answers ext JWT_SECRET users reqBody w)
    as [[token E]|[(errors & Hne & E)|[E|E]]]; simpl in E; rewrite E.
  - destruct token as [|c t].
    + split; [reflexivity|]. split; [reflexivity|]. left. exists [].
      split; [reflexivity|]. split; [reflexivity|].
      split; [congruence|]. intros _. split; reflexivity.
    + split; [reflexivity|]. split; [reflexivity|]. left. exists (c :: t).
      split; [reflexivity|]. split; [reflexivity|].
      split; [|discriminate]. intros _. split; reflexivity.
  - unfold loginSubmit_done, delivered.
    cbn [status validationFailed ok Z.leb Z.compare Pos.compare
         Pos.compare_cont andb negb].
    rewrite (errorText_validationFailed b _ errors Hne).
    split; [reflexivity|]. split; [reflexivity|]. right.
    split; [discriminate|]. split; [reflexivity|]. split; [reflexivity|].
    left. exists errors. split; reflexivity.
  - split; [reflexivity|]. split; [reflexivity|]. right.
    split; [discriminate|]. split; [reflexivity|]. split; [reflexivity|].
    right. eexists. split; [left; reflexivity|reflexivity].
  - split; [reflexivity|]. split; [reflexivity|]. right.
    split; [discriminate|]. split; [reflexivity|]. split; [reflexivity|].
    right. eexists. split; [right; reflexivity|reflexivity].
Qed.

(** X23.  Whatever comes back from [fetch] (no response, a body that is
    no JSON, or any status with any JSON value), each submit handler leaves
    exactly one visible message and its button enabled with its label.  A
    success message needs a response with a status from 200 to 299.  The
    login handler shows a token only for such a response whose [token] is
    truthy, and then shows that value; in every other case the token area
    is hidden and empty. *)
Theorem page_after_any_reply (b : browser) (pg : Page.t) (r : fetched) :
  let pg1 := registerSubmit_done b pg r in
  let pg2 := loginSubmit_done b pg r in
  (registerSubmitBtn pg1 = Button false false (lit "Create Account")
   /\ messagesHidden pg1 = false
   /\ exists kind text,
        messages pg1 = [(kind, text)]
        /\ (kind = "error"%string
            \/ kind = "success"%string
               /\ exists st data, r = Replied st (Some data) /\ ok st = true))
  /\ (loginSubmitBtn pg2 = Button false false (lit "Log In")
      /\ messagesHidden pg2 = false
      /\ exists kind text,
           messages pg2 = [(kind, text)]
           /\ (kind = "error"%string
                  /\ tokenHidden pg2 = true /\ tokenText pg2 = VString []
               \/ kind = "success"%string
                  /\ exists st data,
                       r = Replied st (Some data) /\ ok st = true
                       /\ (if truthy (propOf data "token")
                           then tokenHidden pg2 = false
                                /\ tokenText pg2 = propOf data "token"
                           else tokenHidden pg2 = true
                                /\ tokenText pg2 = VString []))).
Proof.
  cbv zeta. unfold registerSubmit_done, loginSubmit_done.
  destruct r as [|st [data|]].
  - split; (split; [reflexivity|]; split; [reflexivity|]);
      do 2 eexists; (split; [reflexivity|]); left; repeat split.
  - destruct (ok st) eqn:Hok; cbn [negb].
    + destruct (get_prop data "message") as [message|e]; cbn [bind].
      * split.
        -- split; [reflexivity|]. split; [reflexivity|].
           do 2 eexists. split; [reflexivity|]. right.
           split; [reflexivity|]. do 2 eexists. split; [reflexivity|exact Hok].
        -- destruct (truthy (propOf data "token")) eqn:Ht;
             (split; [reflexivity|]; split; [reflexivity|]);
             do 2 eexists; (split; [reflexivity|]); right;
             (split; [reflexivity|]); do 2 eexists;
             (split; [reflexivity|]); (split; [exact Hok|]);
             rewrite Ht; split; reflexivity.
      * split; (split; [reflexivity|]; split; [reflexivity|]);
          do 2 eexists; (split; [reflexivity|]); left; repeat split.
    + split.
      * destruct (errorText b "Registration failed. Please try again." data);
          cbn [bind]; (split; [reflexivity|]; split; [reflexivity|]);
          do 2 eexists; (split; [reflexivity|]); left; reflexivity.
      * destruct (errorText b "Login failed. Please try again." data);
          cbn [bind]; (split; [reflexivity|]; split; [reflexivity|]);
          do 2 eexists; (split; [reflexivity|]); left; repeat split.
  - split; (split; [reflexivity|]; split; [reflexivity|]);
      do 2 eexists; (split; [reflexivity|]); left; repeat split.
Qed.

(** A payload that passes with its username passes without it. *)
Lemma validateAuthPayload_without_username (email password username : value) :
  validateAuthPayload email password username true = Normal [] ->
  validateAuthPayload email password VUndefined false = Normal [].
Proof.
  rewrite !validateAuthPayload_eq. intros H.
  assert (emailErrors email ++ passwordErrors password
          ++ usernameErrors username = []) as H' by congruence.
  apply app_eq_nil in H'. destruct H' as [He H'].
  apply app_eq_nil in H'. destruct H' as [Hp _].
  rewrite He, Hp. reflexivity.
Qed.

(** X24.  Sign-up and sign-in through the page.  A click on "Create
    Account" sent a request; the request passed the server's checks and
    waited for [bcrypt.hash]; no account with its normalized email was
    stored in the meantime; and the page showed the server's success
    message for it.  Then, whatever has happened on the server since, a
    click on "Log In" with the same email and password typed into the login
    form ends with "Login successful." and the token shown; the token is
    signed for the new account: the next id, the trimmed username and the
    trimmed, lower-cased email.  This holds provided lower-casing is
    idempotent, bcrypt verifies the password it hashed and signing yields a
    non-empty token. *)
Theorem page_register_then_login (b : browser) (ext : externals)
    (JWT_SECRET : jsstring) (users0 : list User.t) (reqBody : value)
    (p : pending) (s : server) (i : nat) (res : response)
    (pg pg2 : Page.t) (w w' : ambient) (ts : list tick) :
  lowerCaseIdempotent ext ->
  (forall h,
      bcrypt_hash ext (VString (fieldValue pg RegisterPassword)) 10 (salt w)
      = Normal h ->
      bcrypt_compare ext (VString (fieldValue pg RegisterPassword)) h
      = Normal true) ->
  (forall payload options time,
      exists token,
        jwt_sign ext payload JWT_SECRET options time = Normal token
        /\ token <> []) ->
  snd (registerSubmit_check pg) = Some reqBody ->
  register_check ext users0 reqBody = Normal (inr p) ->
  suspended s !! i = Some p ->
  found (findByEmail ext (stored s) (normalizedEmail p)) = false ->
  snd (tickStep ext JWT_SECRET s (Settles i w)) = Some res ->
  messages (registerSubmit_done b (fst (registerSubmit_check pg))
              (delivered res))
  = [("success"%string, VString (lit "User registered successfully."))] ->
  fieldValue pg2 LoginEmail = fieldValue pg RegisterEmail ->
  fieldValue pg2 LoginPassword = fieldValue pg RegisterPassword ->
  let users :=
    stored (runTicks ext JWT_SECRET
              (fst (tickStep ext JWT_SECRET s (Settles i w))) ts) in
  let pg' := loginRoundTrip b ext JWT_SECRET users pg2 w' in
  exists token,
    jwt_sign ext
      (VObject [("id", VNumber (Z.of_nat (length (stored s)) + 1));
                ("username", VString (trim (fieldValue pg RegisterUsername)));
                ("email",
                 VString (toLowerCase ext
                            (trim (fieldValue pg RegisterEmail))))]%string)
      JWT_SECRET
      (VObject [("expiresIn", VString (lit "1h"))]%string)
      (now w') = Normal token
    /\ messages pg' = [("success"%string, VString (lit "Login successful."))]
    /\ tokenText pg' = VString token
    /\ tokenHidden pg' = false.
Proof.
  intros Hidem Hbcrypt Hsign Hsent Hcheck Hi Hfree Hres Hmsg Hemail Hpass.
  cbv zeta.
  apply registerSubmit_check_sent in Hsent.
  destruct Hsent as (Hu & He & Hre & Hl & Hc & ->).
  destruct (register_check_pending_inv ext users0 _ p Hcheck)
    as (su & se & sp & Hu0 & He0 & Hp0 & Hv & -> & _ & _).
  injection Hu0 as <-. injection He0 as <-. injection Hp0 as <-.
  cbn [normalizedUsername normalizedEmail password] in *.
  rewrite !trim_idem in *.
  (* the response the page showed is the 201 *)
  assert (snd (tickStep ext JWT_SECRET s (Settles i w)) = Some registered)
    as Hreg.
  { rewrite Hres. f_equal. revert Hres Hmsg. cbn [tickStep]. rewrite Hi.
    cbn [password].
    destruct (bcrypt_hash ext (VString (fieldValue pg RegisterPassword)) 10
                (salt w)) as [h|e]; cbn [snd register_store].
    - intros E _. injection E as <-. reflexivity.
    - intros E. injection E as <-. cbn. discriminate. }
  destruct (settle_registered ext JWT_SECRET s i _ w Hi Hreg)
    as (h & Hh & Hstored).
  cbn [normalizedUsername normalizedEmail password] in Hh, Hstored.
  set (a := User.mk (Z.of_nat (length (stored s)) + 1)
              (trim (fieldValue pg RegisterUsername))
              (toLowerCase ext (trim (fieldValue pg RegisterEmail))) h
              (toISOString ext (now w))) in *.
  assert (findByEmail ext
            (stored (runTicks ext JWT_SECRET
                       (fst (tickStep ext JWT_SECRET s (Settles i w))) ts))
            (toLowerCase ext (trim (fieldValue pg RegisterEmail))) = Some a)
    as Hfind.
  { apply runTicks_keeps_find. rewrite Hstored.
    apply (findByEmail_first ext (stored s) [] a); [exact Hfree|].
    apply Hidem. }
  destruct (Hsign
              (VObject [("id", VNumber (Z.of_nat (length (stored s)) + 1));
                        ("username",
                         VString (trim (fieldValue pg RegisterUsername)));
                        ("email",
                         VString (toLowerCase ext
                                    (trim (fieldValue pg RegisterEmail))))]%string)
              (VObject [("expiresIn", VString (lit "1h"))]%string)
              (now w')) as (token & Htoken & Hne).
  exists token. split; [exact Htoken|].
  unfold loginRoundTrip.
  destruct (loginSubmit_check pg2) as [pgc2 sent2] eqn:Hck2.
  pose proof (proj2 (loginSubmit_check_sent pg2
                       (VObject [("email", VString (trim (fieldValue pg2 LoginEmail)));
                                 ("password", VString (fieldValue pg2 LoginPassword))]%string)))
    as Hsent2.
  rewrite Hck2, Hemail, Hpass in Hsent2. cbn [snd] in Hsent2.
  rewrite Hsent2 by (repeat split; assumption).
  assert (validateAuthPayload (VString (trim (fieldValue pg RegisterEmail)))
            (VString (fieldValue pg RegisterPassword)) VUndefined false
          = Normal []) as Hv'.
  { apply (validateAuthPayload_without_username _ _ _ Hv). }
  unfold login.
  rewrite (login_try_valid ext JWT_SECRET _
             (VObject [("email", VString (trim (fieldValue pg RegisterEmail)));
                       ("password",
                        VString (fieldValue pg RegisterPassword))]%string)
             w' (trim (fieldValue pg RegisterEmail))
             (VString (fieldValue pg RegisterPassword))
             eq_refl eq_refl Hv').
  rewrite trim_idem, Hfind.
  cbn [User.passwordHash User.id User.username User.email a].
  rewrite (Hbcrypt h Hh). cbn [bind negb]. rewrite Htoken. cbn [bind].
  destruct token as [|c t]; [congruence|].
  repeat split; reflexivity.
Qed.

End PageRules.

Lemma page_register_then_login_witness :
  let step := tickStep TestDouble.ext TestDouble.secret in
  let s :=
    fst (step (Server [] [])
           (Arrives (PostRegister
                       (TestDouble.body3 "alice" "A@Example.com" "password123"))
              TestDouble.w)) in
  let users := stored (runTicks TestDouble.ext TestDouble.secret
                         (fst (step s (Settles 0 TestDouble.w))) []) in
  let pg' :=
    loginRoundTrip PageDouble.b TestDouble.ext TestDouble.secret users
      PageDouble.signUp TestDouble.w in
  exists token,
    jwt_sign TestDouble.ext
      (VObject [("id", VNumber (Z.of_nat (length (stored s)) + 1));
                ("username",
                 VString (JsString.trim
                            (Page.fieldValue PageDouble.signUp
                               Page.RegisterUsername)));
                ("email",
                 VString (toLowerCase TestDouble.ext
                            (JsString.trim
                               (Page.fieldValue PageDouble.signUp
                                  Page.RegisterEmail))))]%string)
      TestDouble.secret
      (VObject [("expiresIn", VString (lit "1h"))]%string)
      (now TestDouble.w) = Normal token
    /\ Page.messages pg'
       = [("success"%string, VString (lit "Login successful."))]
    /\ Page.tokenText pg' = VString token
    /\ Page.tokenHidden pg' = false.
Proof.
  cbv zeta.
  apply (page_register_then_login PageDouble.b TestDouble.ext
           TestDouble.secret []
           (TestDouble.body3 "alice" "A@Example.com" "password123")
           (Pending (lit "alice") (lit "a@example.com")
              (VString (lit "password123")))
           (fst (tickStep TestDouble.ext TestDouble.secret (Server [] [])
                   (Arrives (PostRegister
                               (TestDouble.body3 "alice" "A@Example.com"
                                  "password123"))
                      TestDouble.w)))
           0%nat registered PageDouble.signUp PageDouble.signUp
           TestDouble.w TestDouble.w []).
  - exact TestDoubleFacts.ext_idempotent.
  - intros h Hh. vm_compute in Hh. injection Hh as <-. vm_compute. reflexivity.
  - intros payload options time. eexists. split; [reflexivity|]. discriminate.
  - vm_compute. reflexivity.
  - vm_compute. reflexivity.
  - vm_compute. reflexivity.
  - vm_compute. reflexivity.
  - vm_compute. reflexivity.
  - vm_compute. reflexivity.
  - reflexivity.
  - reflexivity.
Defined.
